(** * Validation of raw session directories (beneuro_data.data_validation)

    A shallow embedding of [src/beneuro_data/data_validation.py]: Python
    strings are [string]s whose characters are code points below 256, a
    [pathlib.Path] is the list of its components, the file system is a
    tree of directories, exceptions are values of [exn] and
    [warnings.warn] appends to a list carried next to the result. *)

From Stdlib Require Import String Ascii List Bool Arith Lia.
Import ListNotations.
Open Scope list_scope.
Open Scope string_scope.
#[local] Set Warnings "-abstract-large-number,-register-all".

(** ** Python string operations *)

Module Str.

Definition newline : ascii := "010"%char.

(** [s[n:]] *)
Fixpoint drop (n : nat) (s : string) : string :=
  match n, s with
  | 0, _ => s
  | S n', String _ s' => drop n' s'
  | S _, EmptyString => EmptyString
  end.

(** [s[:n]] *)
Fixpoint take (n : nat) (s : string) : string :=
  match n, s with
  | 0, _ => EmptyString
  | S n', String c s' => String c (take n' s')
  | S _, EmptyString => EmptyString
  end.

(** [s.startswith(p)] *)
Fixpoint startswith (s p : string) {struct p} : bool :=
  match p with
  | EmptyString => true
  | String a p' =>
      match s with
      | String b s' => Ascii.eqb a b && startswith s' p'
      | EmptyString => false
      end
  end.

(** [s.endswith(p)] *)
Definition endswith (s p : string) : bool :=
  (String.length p <=? String.length s)%nat
  && String.eqb (drop (String.length s - String.length p) s) p.

(** [s[n]]; [None] stands for the IndexError of an index out of range. *)
Definition index (s : string) (n : nat) : option ascii := String.get n s.

(** [s.split(sep)] for a one-character separator. *)
Fixpoint split (sep : ascii) (s : string) : list string :=
  match s with
  | EmptyString => [EmptyString]
  | String c s' =>
      if Ascii.eqb c sep then EmptyString :: split sep s'
      else match split sep s' with
           | f :: fs => String c f :: fs
           | [] => [String c EmptyString]
           end
  end.

(** [s.rfind(c)]: the index of the last occurrence of [c]. *)
Fixpoint rfind (c : ascii) (s : string) : option nat :=
  match s with
  | EmptyString => None
  | String a s' =>
      match rfind c s' with
      | Some i => Some (S i)
      | None => if Ascii.eqb a c then Some 0 else None
      end
  end.

(** [x in xs] for a tuple or list of strings. *)
Definition mem (x : string) (xs : list string) : bool :=
  existsb (String.eqb x) xs.

End Str.

(** ** Regular expressions

    The patterns of the module, as syntax trees.  [matches r s] lists the
    ways [r] matches at the start of [s] in the order in which Python's
    backtracking matcher tries them; each way is the named groups it
    captured and the text left over. *)

Module Re.

Inductive regex : Type :=
| Lit (s : string)            (* escaped literal text *)
| Dot                         (* [.]: any character but a newline *)
| Any                         (* [.] under DOTALL *)
| Range (lo hi : ascii)       (* [[lo-hi]] *)
| Seq (r1 r2 : regex)
| Alt (r1 r2 : regex)
| Star (r : regex)            (* greedy [*] *)
| Eol                         (* [$]: at the end, or before a final newline *)
| Eos                         (* [\Z]: at the end *)
| Group (name : string) (r : regex).

(** [\d]: the decimal digits among the code points below 256. *)
Definition digit : regex := Range "0" "9".

Definition in_range (lo hi c : ascii) : bool :=
  (nat_of_ascii lo <=? nat_of_ascii c)%nat && (nat_of_ascii c <=? nat_of_ascii hi)%nat.

(** The text consumed between [s] and its suffix [rest]. *)
Definition consumed (s rest : string) : string :=
  Str.take (String.length s - String.length rest) s.

Fixpoint matches (r : regex) (s : string) {struct r} : list (list (string * string) * string) :=
  match r with
  | Lit l => if Str.startswith s l then [([], Str.drop (String.length l) s)] else []
  | Dot =>
      match s with
      | String c s' => if Ascii.eqb c Str.newline then [] else [([], s')]
      | EmptyString => []
      end
  | Any =>
      match s with
      | String _ s' => [([], s')]
      | EmptyString => []
      end
  | Range lo hi =>
      match s with
      | String c s' => if in_range lo hi c then [([], s')] else []
      | EmptyString => []
      end
  | Seq r1 r2 =>
      flat_map (fun m1 =>
                  map (fun m2 => ((fst m1 ++ fst m2)%list, snd m2)) (matches r2 (snd m1)))
               (matches r1 s)
  | Alt r1 r2 => (matches r1 s ++ matches r2 s)%list
  | Star r1 =>
      (fix star (fuel : nat) (s : string) : list (list (string * string) * string) :=
         match fuel with
         | 0 => [([], s)]
         | S fuel' =>
             (flat_map (fun m1 =>
                         if (String.length (snd m1) <? String.length s)%nat
                         then map (fun m2 => ((fst m1 ++ fst m2)%list, snd m2))
                                  (star fuel' (snd m1))
                         else [])
                      (matches r1 s)
             ++ [([], s)])%list
         end) (String.length s) s
  | Eol =>
      if String.eqb s EmptyString || String.eqb s (String Str.newline EmptyString)
      then [([], s)] else []
  | Eos => if String.eqb s EmptyString then [([], s)] else []
  | Group name r1 =>
      map (fun m => ((name, consumed s (snd m)) :: fst m, snd m)) (matches r1 s)
  end.

(** A match object: where the match starts, its text ([group(0)]), its
    named groups and the text after it. *)
Record match_object : Type := {
  m_start : nat;
  m_text : string;
  m_groups : list (string * string);
  m_rest : string
}.

(** [re.match(r, s)]: the first way [r] matches at the start of [s]. *)
Definition re_match (r : regex) (s : string) : option match_object :=
  match matches r s with
  | (g, rest) :: _ => Some {| m_start := 0; m_text := consumed s rest;
                             m_groups := g; m_rest := rest |}
  | [] => None
  end.

(** [re.search(r, s)]: the first match at the leftmost position that has
    one; the empty suffix is tried last. *)
Fixpoint re_search (r : regex) (s : string) : option match_object :=
  match re_match r s with
  | Some m => Some m
  | None =>
      match s with
      | EmptyString => None
      | String _ s' =>
          match re_search r s' with
          | Some m => Some {| m_start := S (m_start m); m_text := m_text m;
                              m_groups := m_groups m; m_rest := m_rest m |}
          | None => None
          end
      end
  end.

(** [fnmatch.translate]: [*] is any text, [?] any one character, the rest
    is literal, and the whole name has to match (DOTALL and [\Z]).  The
    patterns of this module have no bracket expression. *)
Fixpoint translate (pat : string) : regex :=
  match pat with
  | EmptyString => Eos
  | String c pat' =>
      Seq (if Ascii.eqb c "*" then Star Any
           else if Ascii.eqb c "?" then Any
           else Lit (String c EmptyString))
          (translate pat')
  end.

(** A pattern that [translate] reads as literal text. *)
Definition no_wildcard (pat : string) : bool :=
  forallb (fun c => negb (Ascii.eqb c "*") && negb (Ascii.eqb c "?"))
          (list_ascii_of_string pat).

Definition fnmatch (name pat : string) : bool :=
  match re_match (translate pat) name with
  | Some _ => true
  | None => false
  end.

End Re.

(** ** Paths and the file system *)

(** A [pathlib.Path], as the list of its components. *)
Definition Path : Type := list string.

Module PathOps.

(** [p.name]: the final component, the empty string when there is none. *)
Definition name (p : Path) : string := last p EmptyString.

(** [p.parent] *)
Definition parent (p : Path) : Path := removelast p.

(** [p / c] *)
Definition joinpath (p : Path) (c : string) : Path := (p ++ [c])%list.

Definition eqb (p q : Path) : bool :=
  if list_eq_dec string_dec p q then true else false.

(** [p.is_relative_to(q)]: [q] is a prefix of [p], component by component. *)
Fixpoint is_relative_to (p q : Path) {struct q} : bool :=
  match q with
  | [] => true
  | b :: q' =>
      match p with
      | a :: p' => String.eqb a b && is_relative_to p' q'
      | [] => false
      end
  end.

(** [p in ps] for a list of paths. *)
Definition mem (p : Path) (ps : list Path) : bool := existsb (eqb p) ps.

(** [p.match(".*")]: the name starts with a dot. *)
Definition is_hidden (p : Path) : bool := Re.fnmatch (name p) ".*".

(** [p.suffix]: the name from its last dot on, when that dot is neither
    the first nor the last character. *)
Definition suffix (p : Path) : string :=
  let n := name p in
  match Str.rfind "." n with
  | Some i =>
      if (0 <? i)%nat && (i <? String.length n - 1)%nat then Str.drop i n
      else EmptyString
  | None => EmptyString
  end.

End PathOps.

Notation "p // c" := (PathOps.joinpath p c) (at level 40, left associativity).

(** A file-system entry: a regular file, or a directory with its named
    entries. *)
Inductive node : Type :=
| File
| Dir (entries : list (string * node)).

Module FS.

Fixpoint assoc (c : string) (es : list (string * node)) : option node :=
  match es with
  | [] => None
  | (k, n) :: es' => if String.eqb k c then Some n else assoc c es'
  end.

(** The entry a path leads to, from the root of the tree. *)
Fixpoint lookup (fs : node) (p : Path) : option node :=
  match p with
  | [] => Some fs
  | c :: p' =>
      match fs with
      | Dir es =>
          match assoc c es with
          | Some n => lookup n p'
          | None => None
          end
      | File => None
      end
  end.

(** [p.exists()] *)
Definition exists_ (fs : node) (p : Path) : bool :=
  match lookup fs p with Some _ => true | None => false end.

(** [p.is_dir()] *)
Definition is_dir (fs : node) (p : Path) : bool :=
  match lookup fs p with Some (Dir _) => true | _ => false end.

(** [p.is_file()] *)
Definition is_file (fs : node) (p : Path) : bool :=
  match lookup fs p with Some File => true | _ => false end.

(** The names in a directory; nothing for a file or a missing path. *)
Definition listdir (fs : node) (p : Path) : list string :=
  match lookup fs p with
  | Some (Dir es) => map fst es
  | _ => []
  end.

(** The directories below a directory, itself first, as paths relative
    to it: the order in which a [**] pattern visits them. *)
Fixpoint subdirs (n : node) : list Path :=
  match n with
  | File => []
  | Dir es =>
      [] :: (fix go (es : list (string * node)) : list Path :=
               match es with
               | [] => []
               | (c, n') :: es' => (map (cons c) (subdirs n') ++ go es')%list
               end) es
  end.

(** The entries of directory [p] whose name matches the pattern [pat]. *)
Definition select (fs : node) (p : Path) (pat : string) : list Path :=
  map (fun c => p // c) (filter (fun c => Re.fnmatch c pat) (listdir fs p)).

(** [p.glob(pattern)], for the two shapes of pattern the module uses: one
    component, matched against the entries of [p], and [**/] followed by
    one component, matched against the entries of [p] and of every
    directory below it. *)
Definition glob (fs : node) (p : Path) (pattern : string) : list Path :=
  match Str.split "/" pattern with
  | [pat] => select fs p pat
  | [stars; pat] =>
      if String.eqb stars "**" then
        match lookup fs p with
        | Some n => flat_map (fun d => select fs (p ++ d)%list pat) (subdirs n)
        | None => []
        end
      else []
  | _ => []
  end.

End FS.

(** [p] is an entry of the tree below [session_path], at any depth. *)
Definition below (fs : node) (session_path p : Path) : Prop :=
  exists rel, rel <> [] /\ p = (session_path ++ rel)%list /\ FS.exists_ fs p = true.

(** ** Exceptions and warnings *)

(** What an error message was built from, one constructor per [raise]
    of the module. *)
Inductive message : Type :=
| SessionFolderDoesNotExist (session_path : Path)
| FolderNameHasToStartWithSubjectName (folder_name subject_name : string)
| FolderNameHasToHaveUnderscore (folder_name : string)
| DoesNotMatchExpectedFormat (extracted_date_str expected : string)
| FilenameDoesNotMatchPyControl (extension : string) (ext_file : Path)
| MoreThanOnePyFile (session_path : Path)
| NoPyFile (session_path : Path)
| NotInAnyKnownRecordingFolder (spikeglx_filepath : Path)
| FolderNameDoesNotMatch (folder_name expected_folder_name : string)
| OnlyFoldersAllowed
| ProbeFolderNameDoesNotMatch (probe_folder : Path)
| FilesInProbeDirectoryDoNotMatch (probe_folder : Path)
| CouldNotExtractRecordingID (folder_name : string)
| NoVideoFilesFound (video_folder_path : Path)
| VideoFilenameDoesNotStartWith (start : string) (avi_file : Path)
| CouldNotFindMetadata (video_folder_path : Path)
| UnexpectedFilesInVideoFolder (video_folder_path : Path)
| FileInUnexpectedLocation (what : string) (found expected : Path)
| NoSuchFileOrDirectory (p : Path).   (* raised by the operating system *)

Inductive exn : Type :=
| ValueError (msg : message)
| FileNotFoundError (msg : message)
| WrongNumberOfFilesError (extension : string) (n_files_expected n_files_found : nat)
| IndexError
| KeyError (key : string)
| NotADirectoryError (p : Path)
| ReError (pattern : string).

Inductive warning : Type :=
| NoPyControlTaskFolder (session_path : Path)
| MoreThanOneRecording (session_path : Path)
| NoVideoFolder (session_path : Path).

(** The result of a call that may raise. *)
Inductive result (A : Type) : Type :=
| Ok (a : A)
| Raise (e : exn).
Arguments Ok {A} a.
Arguments Raise {A} e.

Definition rbind {A B : Type} (r : result A) (f : A -> result B) : result B :=
  match r with
  | Ok a => f a
  | Raise e => Raise e
  end.

(** A call that may also warn: the warnings issued so far, in order, and
    the result. *)
Definition M (A : Type) : Type := (list warning * result A)%type.

Definition ret {A : Type} (a : A) : M A := ([], Ok a).

Definition raise {A : Type} (e : exn) : M A := ([], Raise e).

Definition warn (w : warning) : M unit := ([w], Ok tt).

Definition lift {A : Type} (r : result A) : M A := ([], r).

Definition bind {A B : Type} (m : M A) (f : A -> M B) : M B :=
  match snd m with
  | Ok a => ((fst m ++ fst (f a))%list, snd (f a))
  | Raise e => (fst m, Raise e)
  end.

Declare Scope py_scope.
Delimit Scope py_scope with py.
Notation "x <- m ;; k" := (bind m (fun x => k))
  (at level 61, m at next level, right associativity) : py_scope.
Notation "m ;; k" := (bind m (fun _ => k))
  (at level 61, right associativity) : py_scope.
Notation "x <~ r ;; k" := (rbind r (fun x => k))
  (at level 61, r at next level, right associativity) : py_scope.
Notation "r ~~ k" := (rbind r (fun _ => k))
  (at level 61, right associativity) : py_scope.
Open Scope py_scope.

(** [for x in xs: body(x)], for a body that only checks. *)
Fixpoint for_each {A : Type} (body : A -> result unit) (xs : list A) : result unit :=
  match xs with
  | [] => Ok tt
  | x :: xs' => body x ~~ for_each body xs'
  end.

(** A condition that raises when it fails. *)
Definition require (b : bool) (e : exn) : result unit :=
  if b then Ok tt else Raise e.

(** ** [datetime.strptime] and [strftime]

    For the directives of [EXPECTED_DATE_FORMAT].  [strptime] turns the
    format into a regular expression with one named group per directive,
    matches it at the start of the text, refuses text left over, reads the
    groups as numbers and refuses a date that does not exist. *)

Module Datetime.

Record datetime : Type := {
  year : nat;
  month : nat;
  day : nat;
  hour : nat;
  minute : nat
}.

Import Re.

(** The regular expression of a directive. *)
Definition directive_regex (d : ascii) : option regex :=
  if Ascii.eqb d "Y" then
    Some (Group "Y" (Seq digit (Seq digit (Seq digit digit))))
  else if Ascii.eqb d "m" then
    Some (Group "m" (Alt (Seq (Lit "1") (Range "0" "2"))
                    (Alt (Seq (Lit "0") (Range "1" "9"))
                         (Range "1" "9"))))
  else if Ascii.eqb d "d" then
    Some (Group "d" (Alt (Seq (Lit "3") (Range "0" "1"))
                    (Alt (Seq (Range "1" "2") digit)
                    (Alt (Seq (Lit "0") (Range "1" "9"))
                    (Alt (Range "1" "9")
                         (Seq (Lit " ") (Range "1" "9")))))))
  else if Ascii.eqb d "H" then
    Some (Group "H" (Alt (Seq (Lit "2") (Range "0" "3"))
                    (Alt (Seq (Range "0" "1") digit)
                         digit)))
  else if Ascii.eqb d "M" then
    Some (Group "M" (Alt (Seq (Range "0" "5") digit) digit))
  else None.

(** The regular expression of a format; [None] for a directive that is
    not one of the five. *)
Fixpoint format_regex (fmt : string) : option regex :=
  match fmt with
  | EmptyString => Some (Lit EmptyString)
  | String c fmt' =>
      if Ascii.eqb c "%" then
        match fmt' with
        | String d fmt'' =>
            match directive_regex d, format_regex fmt'' with
            | Some r, Some rs => Some (Seq r rs)
            | _, _ => None
            end
        | EmptyString => None
        end
      else
        match format_regex fmt' with
        | Some rs => Some (Seq (Lit (String c EmptyString)) rs)
        | None => None
        end
  end.

Definition digit_value (c : ascii) : option nat :=
  if in_range "0" "9" c then Some (nat_of_ascii c - 48) else None.

Fixpoint int_digits (acc : nat) (s : string) : option nat :=
  match s with
  | EmptyString => Some acc
  | String c s' =>
      match digit_value c with
      | Some d => int_digits (10 * acc + d) s'
      | None => None
      end
  end.

Fixpoint lstrip (s : string) : string :=
  match s with
  | String c s' => if Ascii.eqb c " " then lstrip s' else s
  | EmptyString => s
  end.

(** [int(s)] for decimal digits after optional blanks. *)
Definition int (s : string) : option nat :=
  match lstrip s with
  | EmptyString => None
  | t => int_digits 0 t
  end.

Fixpoint group (name : string) (g : list (string * string)) : option string :=
  match g with
  | [] => None
  | (k, v) :: g' => if String.eqb k name then Some v else group name g'
  end.

Definition is_leap (y : nat) : bool :=
  (y mod 4 =? 0)%nat && (negb (y mod 100 =? 0)%nat || (y mod 400 =? 0)%nat).

Definition days_in_month (y m : nat) : nat :=
  match m with
  | 2 => if is_leap y then 29 else 28
  | 4 | 6 | 9 | 11 => 30
  | _ => 31
  end.

Definition MINYEAR : nat := 1.

Definition MAXYEAR : nat := 9999.

(** The checks of the [date] constructor: the year from [MINYEAR] to
    [MAXYEAR], the month from 1 to 12, the day within the month. *)
Definition date_exists (y m d : nat) : bool :=
  (MINYEAR <=? y)%nat && (y <=? MAXYEAR)%nat && (1 <=? m)%nat && (m <=? 12)%nat
  && (1 <=? d)%nat && (d <=? days_in_month y m)%nat.

(** [datetime.strptime(s, fmt)]; [None] stands for its ValueError. *)
Definition strptime (s fmt : string) : option datetime :=
  match format_regex fmt with
  | None => None
  | Some r =>
      match re_match r s with
      | None => None
      | Some found =>
          if negb (String.eqb (m_rest found) EmptyString) then None
          else
            let field k := match group k (m_groups found) with
                           | Some v => int v
                           | None => None
                           end in
            match field "Y", field "m", field "d", field "H", field "M" with
            | Some y, Some m, Some d, Some h, Some mi =>
                if date_exists y m d
                then Some {| year := y; month := m; day := d;
                             hour := h; minute := mi |}
                else None
            | _, _, _, _, _ => None
            end
      end
  end.

Definition digit_char (n : nat) : ascii := ascii_of_nat (48 + n mod 10).

(** A number in two digits, filled with zeros. *)
Definition pad2 (n : nat) : string :=
  String (digit_char (n / 10)) (String (digit_char n) EmptyString).

(** A number in four digits, filled with zeros. *)
Definition pad4 (n : nat) : string :=
  String (digit_char (n / 1000)) (String (digit_char (n / 100)) (pad2 n)).

(** A year in decimal without zeros before it; a year has four digits at
    most. *)
Definition decimal (n : nat) : string :=
  if (n <? 10)%nat then String (digit_char n) EmptyString
  else if (n <? 100)%nat then pad2 n
  else if (n <? 1000)%nat then String (digit_char (n / 100)) (pad2 n)
  else pad4 n.

(** [dt.strftime(fmt)], which CPython hands to the [strftime] of the C
    library.  With glibc [%Y] is the year in as many digits as it has, so
    fewer than four below the year 1000 (999, not 0999); the other four
    directives are two digits each, filled with zeros. *)
Fixpoint strftime (dt : datetime) (fmt : string) : string :=
  match fmt with
  | EmptyString => EmptyString
  | String c fmt' =>
      if Ascii.eqb c "%" then
        match fmt' with
        | String d fmt'' =>
            (if Ascii.eqb d "Y" then decimal (year dt)
             else if Ascii.eqb d "m" then pad2 (month dt)
             else if Ascii.eqb d "d" then pad2 (day dt)
             else if Ascii.eqb d "H" then pad2 (hour dt)
             else if Ascii.eqb d "M" then pad2 (minute dt)
             else String c (String d EmptyString))
            ++ strftime dt fmt''
        | EmptyString => String c EmptyString
        end
      else String c (strftime dt fmt')
  end.

End Datetime.

(** ** The validators *)

(** The format the end of the session folder's name should have, e.g.
    M016_2023_08_15_16_00. *)
Definition EXPECTED_DATE_FORMAT : string := "%Y_%m_%d_%H_%M".

Definition validate_date_format (extracted_date_str : string) : result bool :=
  match Datetime.strptime extracted_date_str EXPECTED_DATE_FORMAT with
  | None =>
      Raise (ValueError
               (DoesNotMatchExpectedFormat extracted_date_str EXPECTED_DATE_FORMAT))
  | Some parsed =>
      let correct_str := Datetime.strftime parsed EXPECTED_DATE_FORMAT in
      if negb (String.eqb extracted_date_str correct_str) then
        Raise (ValueError (DoesNotMatchExpectedFormat extracted_date_str correct_str))
      else Ok true
  end.

Definition validate_session_path (fs : node) (session_path : Path)
    (subject_name : string) : result bool :=
  let folder_name := PathOps.name session_path in
  if negb (FS.exists_ fs session_path) then
    Raise (FileNotFoundError (SessionFolderDoesNotExist session_path))
  else if negb (Str.startswith folder_name subject_name) then
    Raise (ValueError (FolderNameHasToStartWithSubjectName folder_name subject_name))
  else
    match Str.index folder_name (String.length subject_name) with
    | None => Raise IndexError
    | Some c =>
        if negb (Ascii.eqb c "_") then
          Raise (ValueError (FolderNameHasToHaveUnderscore folder_name))
        else
          let extracted_date_str :=
            Str.drop (String.length subject_name + 1) folder_name in
          validate_date_format extracted_date_str ~~
          Ok true
    end.

Definition SPIKEGLX_RECORDING_PATTERN : Re.regex :=
  Re.Seq (Re.Lit "_g") (Re.Seq (Re.Group "1" Re.digit) Re.Eol).

Definition extract_gid (folder_name : string) : result string :=
  match Re.re_search SPIKEGLX_RECORDING_PATTERN folder_name with
  | None => Raise (ValueError (CouldNotExtractRecordingID folder_name))
  | Some gid_search_result => Ok (Str.drop 1 (Re.m_text gid_search_result))
  end.

(** A decimal digit, and the token [_g] followed by a digit. *)
Definition is_digit (d : ascii) : bool := Re.in_range "0" "9" d.

Definition gid_token (d : ascii) : string :=
  String "_" (String "g" (String d EmptyString)).

(** [d[key]] for a dictionary given by its items. *)
Fixpoint getitem {V : Type} (d : list (string * V)) (key : string) : result V :=
  match d with
  | [] => Raise (KeyError key)
  | (k, v) :: d' => if String.eqb k key then Ok v else getitem d' key
  end.

(** [p.iterdir()] *)
Definition iterdir (fs : node) (p : Path) : result (list Path) :=
  match FS.lookup fs p with
  | Some (Dir es) => Ok (map (fun e => p // fst e) es)
  | Some File => Raise (NotADirectoryError p)
  | None => Raise (FileNotFoundError (NoSuchFileOrDirectory p))
  end.

(** Equality of two sets of strings given by their elements. *)
Definition set_eqb (xs ys : list string) : bool :=
  forallb (fun x => Str.mem x ys) xs && forallb (fun y => Str.mem y xs) ys.

Section Validators.

(** [beneuro_data.extra_file_handling._find_whitelisted_files_in_root],
    which is not part of this module: any function from the file system,
    the session path and the whitelist to a list of paths, possibly
    warning or raising. *)
Variable _find_whitelisted_files_in_root :
  node -> Path -> list string -> M (list Path).

(** Whether [re.match(pattern, s)] finds a match, for a pattern given as
    text at run time; [None] when the text is not a regular expression. *)
Variable re_match_text : string -> string -> option bool.

Variable fs : node.

(** *** Behavioural data *)

Definition pycontrol_ending_pattern_per_extension : list (string * Re.regex) :=
  [ (".pca", Re.Seq (Re.Lit "_MotSen")
               (Re.Seq Re.digit
               (Re.Seq (Re.Lit "-")
               (Re.Seq (Re.Group "1" (Re.Alt (Re.Lit "X") (Re.Lit "Y")))
                       (Re.Lit ".pca")))));
    (".txt", Re.Lit ".txt") ].

Definition expected_number_of_pycontrol_files_per_extension : list (string * nat) :=
  [ (".pca", 2); (".txt", 1) ].

(** The escaped name of the session folder, anything on one line, and
    the ending of the extension. *)
Definition pycontrol_pattern_for_extension (session_path : Path)
    (ending : Re.regex) : Re.regex :=
  let pycontrol_start_pattern := Re.Lit (PathOps.name session_path) in
  let pycontrol_middle_pattern := Re.Star Re.Dot in
  Re.Seq pycontrol_start_pattern (Re.Seq pycontrol_middle_pattern ending).

(** The loop over the files with one extension: whitelisted files are
    passed over, the first other file whose name does not match raises,
    the rest is collected. *)
Fixpoint pycontrol_files_with_extension (pattern : Re.regex) (extension : string)
    (whitelisted_files_found all_files_with_extension : list Path)
    : result (list Path) :=
  match all_files_with_extension with
  | [] => Ok []
  | ext_file :: files =>
      if PathOps.mem ext_file whitelisted_files_found then
        pycontrol_files_with_extension pattern extension whitelisted_files_found files
      else
        match Re.re_match pattern (PathOps.name ext_file) with
        | None => Raise (ValueError (FilenameDoesNotMatchPyControl extension ext_file))
        | Some _ =>
            found <~ pycontrol_files_with_extension pattern extension
                       whitelisted_files_found files ;;
            Ok (ext_file :: found)
        end
  end.

(** The loop over the extensions, from the files collected so far. *)
Fixpoint pycontrol_files (session_path : Path) (whitelisted_files_found : list Path)
    (extensions : list string) (behavioral_data_files : list Path)
    : result (list Path) :=
  match extensions with
  | [] => Ok behavioral_data_files
  | extension :: extensions' =>
      ending <~ getitem pycontrol_ending_pattern_per_extension extension ;;
      let all_files_with_extension := FS.glob fs session_path ("*" ++ extension) in
      found <~ pycontrol_files_with_extension
                 (pycontrol_pattern_for_extension session_path ending)
                 extension whitelisted_files_found all_files_with_extension ;;
      let n_files_found := List.length found in
      n_files_expected <~
        getitem expected_number_of_pycontrol_files_per_extension extension ;;
      if negb (n_files_found =? n_files_expected)%nat then
        Raise (WrongNumberOfFilesError extension n_files_expected n_files_found)
      else
        pycontrol_files session_path whitelisted_files_found extensions'
          (behavioral_data_files ++ found)%list
  end.

Definition validate_raw_behavioral_data_of_session (session_path : Path)
    (subject_name : string) (whitelisted_files_in_root : list string)
    (warn_if_no_pycontrol_py_folder : bool) : M (list Path) :=
  lift (validate_session_path fs session_path subject_name) ;;
  whitelisted_files_found <-
    _find_whitelisted_files_in_root fs session_path whitelisted_files_in_root ;;
  behavioral_data_files <-
    lift (pycontrol_files session_path whitelisted_files_found
            (map fst pycontrol_ending_pattern_per_extension) []) ;;
  let pycontrol_py_foldername := "run_task-task_files" in
  let py_folder := session_path // pycontrol_py_foldername in
  if negb (FS.exists_ fs py_folder) then
    (if warn_if_no_pycontrol_py_folder
     then warn (NoPyControlTaskFolder session_path) else ret tt) ;;
    ret behavioral_data_files
  else
    let python_files_found := FS.glob fs py_folder "*.py" in
    if (1 <? List.length python_files_found)%nat then
      raise (ValueError (MoreThanOnePyFile session_path))
    else
      match python_files_found with
      | [] => raise (FileNotFoundError (NoPyFile session_path))
      | task_file :: _ => ret (behavioral_data_files ++ [task_file])%list
      end.

(** *** Electrophysiology *)

Definition _find_spikeglx_recording_folders_in_session (session_path : Path)
    : M (list Path) :=
  let spikeglx_recording_folder_pathlib_pattern := "*_g?" in
  let recording_folder_paths :=
    FS.glob fs session_path spikeglx_recording_folder_pathlib_pattern in
  (if (1 <? List.length recording_folder_paths)%nat
   then warn (MoreThanOneRecording session_path) else ret tt) ;;
  ret recording_folder_paths.

(** The loop over the entries of a recording folder: hidden entries and
    entries with an allowed extension are passed over, the first other
    entry that is not a directory raises, the rest are the probes'
    folders. *)
Fixpoint probe_subfolders_of (allowed_extensions_not_in_root : list string)
    (children : list Path) : result (list Path) :=
  match children with
  | [] => Ok []
  | child :: children' =>
      if PathOps.is_hidden child then
        probe_subfolders_of allowed_extensions_not_in_root children'
      else if Str.mem (PathOps.suffix child) allowed_extensions_not_in_root then
        probe_subfolders_of allowed_extensions_not_in_root children'
      else if negb (FS.is_dir fs child) then
        Raise (ValueError OnlyFoldersAllowed)
      else
        probes <~ probe_subfolders_of allowed_extensions_not_in_root children' ;;
        Ok (child :: probes)
  end.

Definition expected_endings : list string :=
  [".lf.meta"; ".lf.bin"; ".ap.meta"; ".ap.bin"].

(** The names a probe's folder has to hold. *)
Definition expected_filenames (gid_folder_path probe_folder : Path) : list string :=
  let imec_str := last (Str.split "_" (PathOps.name probe_folder)) EmptyString in
  map (fun ending => PathOps.name gid_folder_path ++ "_t0." ++ imec_str ++ ending)
      expected_endings.

Definition validate_raw_ephys_recording (gid_folder_path : Path)
    (allowed_extensions_not_in_root : list string) : result bool :=
  gid <~ extract_gid (PathOps.name gid_folder_path) ;;
  let session_name := PathOps.name (PathOps.parent gid_folder_path) in
  let expected_folder_name := session_name ++ "_" ++ gid in
  require (String.eqb (PathOps.name gid_folder_path) expected_folder_name)
    (ValueError (FolderNameDoesNotMatch (PathOps.name gid_folder_path)
                   expected_folder_name)) ~~
  children <~ iterdir fs gid_folder_path ;;
  probe_subfolders <~ probe_subfolders_of allowed_extensions_not_in_root children ;;
  let probe_subfolder_pattern := PathOps.name gid_folder_path ++ "_imec\d$" in
  for_each (fun probe_folder =>
              match re_match_text probe_subfolder_pattern (PathOps.name probe_folder) with
              | None => Raise (ReError probe_subfolder_pattern)
              | Some false => Raise (ValueError (ProbeFolderNameDoesNotMatch probe_folder))
              | Some true => Ok tt
              end)
           probe_subfolders ~~
  for_each (fun probe_folder =>
              entries <~ iterdir fs probe_folder ;;
              let found_filenames := map PathOps.name entries in
              require (set_eqb found_filenames
                         (expected_filenames gid_folder_path probe_folder))
                (ValueError (FilesInProbeDirectoryDoNotMatch probe_folder)))
           probe_subfolders ~~
  Ok true.

Definition spikeglx_endings : list string :=
  [".lf.meta"; ".lf.bin"; ".ap.meta"; ".ap.bin"].

(** [any(p.is_relative_to(r) for r in recording_folder_paths)] *)
Definition in_known_recording (recording_folder_paths : list Path) (p : Path) : bool :=
  existsb (fun recording_path => PathOps.is_relative_to p recording_path)
          recording_folder_paths.

(** The search of the session for files with a SpikeGLX ending: the
    first one outside the recording folders raises. *)
Definition spikeglx_files_in_recording_folders (session_path : Path)
    (recording_folder_paths : list Path) : result unit :=
  for_each (fun ending =>
              for_each (fun spikeglx_filepath =>
                          require (in_known_recording recording_folder_paths
                                     spikeglx_filepath)
                            (ValueError (NotInAnyKnownRecordingFolder
                                           spikeglx_filepath)))
                       (FS.glob fs session_path ("**/*" ++ ending)))
           spikeglx_endings.

Definition validate_raw_ephys_data_of_session (session_path : Path)
    (subject_name : string) (allowed_extensions_not_in_root : list string)
    : M (list Path) :=
  lift (validate_session_path fs session_path subject_name) ;;
  recording_folder_paths <- _find_spikeglx_recording_folders_in_session session_path ;;
  lift (for_each (fun recording_path =>
                    validate_raw_ephys_recording recording_path
                      allowed_extensions_not_in_root ~~ Ok tt)
                 recording_folder_paths) ;;
  lift (spikeglx_files_in_recording_folders session_path recording_folder_paths) ;;
  ret (flat_map (fun recording_folder =>
                   filter (FS.is_file fs) (FS.glob fs recording_folder "**/*"))
                recording_folder_paths).

(** *** Videos *)

(** The entries of the video folder that are not among the [.avi] files,
    as a set. *)
Definition remaining_files (entries avi_files : list Path) : list Path :=
  nodup (list_eq_dec string_dec)
        (filter (fun p => negb (PathOps.mem p avi_files)) entries).

(** The search of the session for the files a pattern selects: the
    first one outside the video folder raises. *)
Definition files_in_video_folder (session_path video_folder_path : Path)
    (what pattern : string) : result unit :=
  for_each (fun found_path =>
              require (PathOps.is_relative_to found_path video_folder_path)
                (ValueError (FileInUnexpectedLocation what found_path
                               video_folder_path)))
           (FS.glob fs session_path pattern).

Definition validate_raw_videos_of_session (session_path : Path)
    (subject_name : string) (warn_if_no_video_folder : bool) : M (list Path) :=
  lift (validate_session_path fs session_path subject_name) ;;
  let video_extension := ".avi" in
  let session_name := PathOps.name session_path in
  let video_folder_name := session_name ++ "_cameras" in
  let video_folder_path := session_path // video_folder_name in
  let expected_video_filename_start := session_name ++ "_camera_" in
  video_folder_exists <-
    (if negb (FS.exists_ fs video_folder_path) then
       (if warn_if_no_video_folder
        then warn (NoVideoFolder session_path) else ret tt) ;;
       ret false
     else
       let avi_files := FS.glob fs video_folder_path ("*" ++ video_extension) in
       lift (require (negb (List.length avi_files =? 0)%nat)
               (FileNotFoundError (NoVideoFilesFound video_folder_path))) ;;
       lift (for_each (fun avi_file =>
                         require (Str.startswith (PathOps.name avi_file)
                                    expected_video_filename_start)
                           (ValueError (VideoFilenameDoesNotStartWith
                                          expected_video_filename_start avi_file)))
                      avi_files) ;;
       entries <- lift (iterdir fs video_folder_path) ;;
       let remaining_files_in_folder := remaining_files entries avi_files in
       lift (require (PathOps.mem (video_folder_path // "metadata.csv")
                        remaining_files_in_folder)
               (FileNotFoundError (CouldNotFindMetadata video_folder_path))) ;;
       lift (require (negb (1 <? List.length remaining_files_in_folder)%nat)
               (ValueError (UnexpectedFilesInVideoFolder video_folder_path))) ;;
       ret true) ;;
  lift (files_in_video_folder session_path video_folder_path
          video_extension ("**/*" ++ video_extension)) ;;
  lift (files_in_video_folder session_path video_folder_path
          "metadata.csv" "**/metadata.csv") ;;
  if video_folder_exists then
    ret (filter (FS.is_file fs) (FS.glob fs video_folder_path "**/*"))
  else ret [].

(** *** The whole session *)

Definition validate_raw_session (session_path : Path) (subject_name : string)
    (include_behavior include_ephys include_videos : bool)
    (whitelisted_files_in_root allowed_extensions_not_in_root : list string)
    : M (list Path * list Path * list Path) :=
  behavior_files <-
    (if include_behavior then
       validate_raw_behavioral_data_of_session session_path subject_name
         whitelisted_files_in_root true
     else ret []) ;;
  ephys_files <-
    (if include_ephys then
       validate_raw_ephys_data_of_session session_path subject_name
         allowed_extensions_not_in_root
     else ret []) ;;
  video_files <-
    (if include_videos then
       validate_raw_videos_of_session session_path subject_name true
     else ret []) ;;
  ret (behavior_files, ephys_files, video_files).

End Validators.

(** ** Instances for the two parameters of the validators *)

(** Modelled from the spec: [_find_whitelisted_files_in_root] of
    [beneuro_data.extra_file_handling], whose source is not part of this
    module.  It collects the whitelisted files present in the root of the
    session, by exact match of the file name. *)
Definition find_whitelisted_files_in_root (fs : node) (session_path : Path)
    (whitelisted_files_in_root : list string) : M (list Path) :=
  ret (map (fun c => session_path // c)
           (filter (fun c => Str.mem c whitelisted_files_in_root)
                   (FS.listdir fs session_path))).

(** A pattern text made of ordinary characters, [.], [\d], escaped
    characters and [$]; [None] for any other operator. *)
Fixpoint plain_pattern (pattern : string) : option Re.regex :=
  match pattern with
  | EmptyString => Some (Re.Lit EmptyString)
  | String c rest =>
      if Ascii.eqb c "\" then
        match rest with
        | String e rest' =>
            match plain_pattern rest' with
            | Some r =>
                if Ascii.eqb e "d" then Some (Re.Seq Re.digit r)
                else if Re.in_range "a" "z" e || Re.in_range "A" "Z" e
                        || Re.in_range "0" "9" e then None
                else Some (Re.Seq (Re.Lit (String e EmptyString)) r)
            | None => None
            end
        | EmptyString => None
        end
      else
        match plain_pattern rest with
        | Some r =>
            if Ascii.eqb c "." then Some (Re.Seq Re.Dot r)
            else if Ascii.eqb c "$" then Some (Re.Seq Re.Eol r)
            else if Str.mem (String c EmptyString)
                      ["^"; "*"; "+"; "?"; "{"; "}"; "["; "]"; "("; ")"; "|"]
            then None
            else Some (Re.Seq (Re.Lit (String c EmptyString)) r)
        | None => None
        end
  end.

(** [re.match] for the pattern texts [plain_pattern] reads. *)
Definition re_match_plain (pattern s : string) : option bool :=
  match plain_pattern pattern with
  | Some r => Some (match Re.re_match r s with Some _ => true | None => false end)
  | None => None
  end.

(** The pattern texts that are [plain_pattern]s with [|] between them:
    the alternatives in their order; [None] for any other text, among
    them the texts with a [|] after a backslash. *)
Fixpoint alternatives (texts : list string) : option Re.regex :=
  match texts with
  | [] => None
  | [text] => plain_pattern text
  | text :: texts' =>
      match plain_pattern text, alternatives texts' with
      | Some r, Some rs => Some (Re.Alt r rs)
      | _, _ => None
      end
  end.

(** [re.match] for the pattern texts [alternatives] reads. *)
Definition re_match_alternatives (pattern s : string) : option bool :=
  match alternatives (Str.split "|" pattern) with
  | Some r => Some (match Re.re_match r s with Some _ => true | None => false end)
  | None => None
  end.

(** ** Vocabulary of the further properties *)

Module DatetimeSpec.
Import Datetime.

(** The checks of the [datetime] constructor: the date exists, the hour
    is below 24 and the minute below 60. *)
Definition valid_datetime (dt : datetime) : bool :=
  date_exists (year dt) (month dt) (day dt)
  && (hour dt <? 24)%nat && (minute dt <? 60)%nat.

(** The text of a date and time in the expected format: four digits for
    the year and two for each other field, with underscores between. *)
Definition canonical (dt : datetime) : string :=
  pad4 (year dt) ++ "_" ++ pad2 (month dt) ++ "_" ++ pad2 (day dt) ++ "_"
  ++ pad2 (hour dt) ++ "_" ++ pad2 (minute dt).

End DatetimeSpec.

(** [r] matches first the start of [s] that leaves [rest], capturing [g]. *)
Definition first_match (r : Re.regex) (s : string) (g : list (string * string))
    (rest : string) : Prop :=
  exists others, Re.matches r s = (g, rest) :: others.

(** [r] captures nothing. *)
Definition no_captures (r : Re.regex) : Prop :=
  forall s g rest, In (g, rest) (Re.matches r s) -> g = [].

(** The recording folder is named after its parent folder, with [_g] and
    a digit. *)
Definition recording_named (gid_folder_path : Path) : Prop :=
  exists d, is_digit d = true /\
            PathOps.name gid_folder_path =
            PathOps.name (PathOps.parent gid_folder_path) ++ gid_token d.

(** An entry of the recording folder that is neither hidden nor of an
    allowed extension: what the validator takes for the folder of a probe. *)
Definition probe_candidate (allowed_extensions_not_in_root : list string)
    (child : Path) : bool :=
  negb (PathOps.is_hidden child)
  && negb (Str.mem (PathOps.suffix child) allowed_extensions_not_in_root).

(** The four names of the files of the probe with the digit [d]: the
    recording folder's name, [_t0.imec], the digit and an ending. *)
Definition imec_filenames (recording_folder_name : string) (d : ascii) : list string :=
  map (fun ending => recording_folder_name ++ "_t0.imec" ++ String d ending)
      expected_endings.

(** ** Sample sessions *)

Module Examples.

Definition session_name : string := "M016_2023_08_15_16_00".

Definition session_path : Path := ["data"; session_name].

(** The file system with one session folder holding the given entries. *)
Definition session (entries : list (string * node)) : node :=
  Dir [("data", Dir [(session_name, Dir entries)])].

Definition recording_name : string := session_name ++ "_g0".

Definition recording_path : Path := session_path // recording_name.

Definition probe_name : string := recording_name ++ "_imec0".

Definition probe_files : list (string * node) :=
  [ (recording_name ++ "_t0.imec0.lf.meta", File);
    (recording_name ++ "_t0.imec0.lf.bin", File);
    (recording_name ++ "_t0.imec0.ap.meta", File);
    (recording_name ++ "_t0.imec0.ap.bin", File) ].

Definition recording (in_probe : list (string * node)) : string * node :=
  (recording_name, Dir [(probe_name, Dir in_probe); ("notes.txt", File)]).

Definition pca_x : string * node :=
  (session_name ++ "_2023-08-15-160000_MotSen1-X.pca", File).

Definition pca_y : string * node :=
  (session_name ++ "_2023-08-15-160000_MotSen1-Y.pca", File).

Definition txt : string * node := (session_name ++ "_2023-08-15-160000.txt", File).

Definition task_folder (names : list string) : string * node :=
  ("run_task-task_files", Dir (map (fun c => (c, File)) names)).

Definition cameras : string * node :=
  (session_name ++ "_cameras",
   Dir [(session_name ++ "_camera_1.avi", File); ("metadata.csv", File)]).

(** A session with everything in its place. *)
Definition complete_session : node :=
  session [pca_x; pca_y; txt; ("comment.txt", File); task_folder ["task.py"];
           recording probe_files; cameras].

(** The same, with a kilosort folder next to the four files of the probe. *)
Definition session_with_kilosort : node :=
  session [pca_x; pca_y; txt; task_folder ["task.py"];
           recording (probe_files ++ [((probe_name ++ "_kilosort")%string, Dir [])])%list].

Definition session_with_one_pca : node :=
  session [pca_x; txt; task_folder ["task.py"]].

Definition session_without_task_folder : node := session [pca_x; pca_y; txt].

Definition session_with_two_task_files : node :=
  session [pca_x; pca_y; txt; task_folder ["task.py"; "other.py"]].

(** No video folder, and a video in a folder of its own. *)
Definition session_with_stray_avi : node :=
  session [pca_x; pca_y; txt; ("videos", Dir [(session_name ++ "_camera_1.avi", File)])].

(** No recording folder, and a recording file in a folder of its own. *)
Definition session_with_stray_bin : node :=
  session [pca_x; pca_y; txt;
           ("backup", Dir [(recording_name ++ "_t0.imec0.ap.bin", File)])].

(** A .pca file that is not named after the session. *)
Definition session_with_misnamed_pca : node :=
  session [("notes.pca", File); pca_x; pca_y; txt].

(** A recording folder with a hidden file and a text file only. *)
Definition session_with_empty_recording : node :=
  session [pca_x; pca_y; txt;
           (recording_name, Dir [(".DS_Store", File); ("notes.txt", File)])].

(** A recording folder with a file that is not allowed there. *)
Definition session_with_loose_file : node :=
  session [pca_x; pca_y; txt; (recording_name, Dir [("loose.dat", File)])].

(** A regular file named as a recording folder. *)
Definition session_with_recording_file : node :=
  session [pca_x; pca_y; txt; (recording_name, File)].

Definition a_datetime : Datetime.datetime :=
  {| Datetime.year := 2024; Datetime.month := 2; Datetime.day := 29;
     Datetime.hour := 23; Datetime.minute := 59 |}.

(** The session of a subject whose name has a bar in it; its recording
    folder holds the folder archive, with four files named after it. *)
Definition session_name_with_bar : string := "a|b_2023_08_15_16_00".

Definition session_path_with_bar : Path := ["data"; session_name_with_bar].

Definition recording_path_with_bar : Path :=
  session_path_with_bar // (session_name_with_bar ++ "_g0").

Definition session_with_bar : node :=
  Dir [("data",
        Dir [(session_name_with_bar,
              Dir [(session_name_with_bar ++ "_g0",
                    Dir [("archive",
                          Dir [("a|b_2023_08_15_16_00_g0_t0.archive.lf.meta", File);
                               ("a|b_2023_08_15_16_00_g0_t0.archive.lf.bin", File);
                               ("a|b_2023_08_15_16_00_g0_t0.archive.ap.meta", File);
                               ("a|b_2023_08_15_16_00_g0_t0.archive.ap.bin", File)])])])])].

(** A probe's folder whose name goes on with a newline after the digit,
    with four files named after it. *)
Definition probe_name_with_newline : string := probe_name ++ String Str.newline "".

Definition session_with_newline : node :=
  session [(recording_name,
            Dir [(probe_name_with_newline,
                  Dir [(recording_name ++ "_t0.imec0" ++ String Str.newline ".lf.meta", File);
                       (recording_name ++ "_t0.imec0" ++ String Str.newline ".lf.bin", File);
                       (recording_name ++ "_t0.imec0" ++ String Str.newline ".ap.meta", File);
                       (recording_name ++ "_t0.imec0" ++ String Str.newline ".ap.bin", File)])])].

(** The first minute of the year 1. *)
Definition the_first_minute : Datetime.datetime :=
  {| Datetime.year := 1; Datetime.month := 1; Datetime.day := 1;
     Datetime.hour := 0; Datetime.minute := 0 |}.

End Examples.

(** ** Facts about strings, paths and the matcher *)

Module StrFacts.
Import Str.

Lemma startswith_refl (s : string) : startswith s s = true.
Proof.
  induction s as [|c s IH]; simpl; [reflexivity|].
  now rewrite Ascii.eqb_refl.
Qed.

Lemma startswith_app (p r : string) : startswith (p ++ r) p = true.
Proof.
  induction p as [|c p IH]; simpl; [reflexivity|].
  now rewrite Ascii.eqb_refl.
Qed.

Lemma startswith_inv (s p : string) :
  startswith s p = true -> exists r, s = p ++ r.
Proof.
  revert s; induction p as [|c p IH]; intros s H.
  - now exists s.
  - destruct s as [|b s]; simpl in H; [discriminate|].
    apply andb_true_iff in H as [Hc Hs].
    apply Ascii.eqb_eq in Hc; subst b.
    destruct (IH _ Hs) as [r ->].
    now exists r.
Qed.

Lemma index_length_self (s : string) : index s (String.length s) = None.
Proof.
  unfold index; induction s as [|c s IH]; simpl; [reflexivity|exact IH].
Qed.

Lemma index_none_iff (s : string) (n : nat) :
  index s n = None <-> String.length s <= n.
Proof.
  unfold index. revert n; induction s as [|c s IH]; intros n; simpl.
  - split; [lia|reflexivity].
  - destruct n as [|n]; [split; [discriminate|lia]|].
    rewrite IH. lia.
Qed.

Lemma app_empty_r (s : string) : s ++ EmptyString = s.
Proof. induction s as [|c s IH]; simpl; [reflexivity|now rewrite IH]. Qed.

Lemma index_app_length (p r : string) :
  index (p ++ r) (String.length p) = index r 0.
Proof.
  unfold index; induction p as [|c p IH]; simpl; [reflexivity|exact IH].
Qed.

Lemma length_app (p r : string) :
  String.length (p ++ r) = String.length p + String.length r.
Proof. induction p as [|c p IH]; simpl; [reflexivity|now rewrite IH]. Qed.

Lemma drop_app_length (p r : string) : drop (String.length p) (p ++ r) = r.
Proof.
  induction p as [|c p IH]; simpl; [now destruct r|exact IH].
Qed.

Lemma drop_succ_app_length (p : string) (c : ascii) (r : string) :
  drop (String.length p + 1) (p ++ String c r) = r.
Proof.
  induction p as [|a p IH]; simpl; [now destruct r|exact IH].
Qed.

Lemma drop_length_le (n : nat) (s : string) :
  String.length (drop n s) = String.length s - n.
Proof.
  revert s; induction n as [|n IH]; intros s; simpl.
  - now rewrite Nat.sub_0_r.
  - destruct s as [|c s]; simpl; [reflexivity|apply IH].
Qed.

Lemma drop_all (n : nat) (s : string) :
  String.length s <= n -> drop n s = EmptyString.
Proof.
  revert s; induction n as [|n IH]; intros s H; simpl.
  - destruct s; [reflexivity|simpl in H; lia].
  - destruct s as [|c s]; [reflexivity|]. apply IH; simpl in H; lia.
Qed.

(** A suffix reached by dropping characters is one [endswith] sees. *)
Lemma endswith_drop (n : nat) (s : string) :
  n <= String.length s -> endswith s (drop n s) = true.
Proof.
  intros H; unfold endswith.
  rewrite drop_length_le.
  replace (String.length s - (String.length s - n)) with n by lia.
  rewrite String.eqb_refl, andb_true_r.
  apply Nat.leb_le; lia.
Qed.

End StrFacts.

Module PathFacts.
Import PathOps.

Lemma name_joinpath (p : Path) (c : string) : name (p // c) = c.
Proof. unfold name, joinpath. apply last_last. Qed.

Lemma eqb_eq (p q : Path) : eqb p q = true <-> p = q.
Proof.
  unfold eqb; destruct (list_eq_dec string_dec p q); split; congruence.
Qed.

Lemma mem_In (p : Path) (ps : list Path) : mem p ps = true <-> In p ps.
Proof.
  unfold mem; rewrite existsb_exists; split.
  - intros [q [Hq He]]. apply eqb_eq in He. now subst.
  - intros H; exists p; split; [assumption|now apply eqb_eq].
Qed.

End PathFacts.

(** ** Facts about patterns *)

Module ReFacts.
Import Re.

Lemma matches_star_any_nil : matches (Star Any) "" = [([], "")].
Proof. reflexivity. Qed.

Lemma matches_star_any_cons (c : ascii) (s : string) :
  matches (Star Any) (String c s) =
  (map (fun m2 => (fst m2, snd m2)) (matches (Star Any) s)
   ++ [([], String c s)])%list.
Proof.
  cbn -[Nat.ltb]. 
  replace (String.length s <? S (String.length s))%nat with true
    by (symmetry; apply Nat.ltb_lt; lia).
  rewrite app_nil_r. reflexivity.
Qed.

(** [.*] under DOTALL leaves any suffix of the text. *)
Lemma In_matches_star_any (s t : string) :
  In t (map snd (matches (Star Any) s)) <->
  exists i, i <= String.length s /\ t = Str.drop i s.
Proof.
  induction s as [|c s IH].
  - simpl. split.
    + intros [<-|[]]. now exists 0.
    + intros [i [_ ->]]. left. now destruct i.
  - rewrite matches_star_any_cons, map_app, map_map, in_app_iff. cbn [snd map In].
    change (map (fun x => snd x) (matches (Star Any) s))
      with (map snd (matches (Star Any) s)).
    rewrite IH. split.
    + intros [[i [Hi ->]]|[<-|[]]].
      * exists (S i). split; [simpl; lia|reflexivity].
      * exists 0. split; [lia|reflexivity].
    + intros [[|i] [Hi ->]].
      * right. now left.
      * left. exists i. split; [simpl in Hi; lia|reflexivity].
Qed.

Definition matchesb (r : regex) (s : string) : bool :=
  match matches r s with [] => false | _ :: _ => true end.

Lemma fnmatch_matchesb (name pat : string) :
  fnmatch name pat = matchesb (translate pat) name.
Proof.
  unfold fnmatch, re_match, matchesb.
  now destruct (matches (translate pat) name) as [|[g rest] ms].
Qed.

Lemma matches_seq (r1 r2 : regex) (s : string) :
  matches (Seq r1 r2) s =
  flat_map (fun m1 =>
              map (fun m2 => ((fst m1 ++ fst m2)%list, snd m2)) (matches r2 (snd m1)))
           (matches r1 s).
Proof. reflexivity. Qed.

Lemma matchesb_seq (r1 r2 : regex) (s : string) :
  matchesb (Seq r1 r2) s = true <->
  exists t, In t (map snd (matches r1 s)) /\ matchesb r2 t = true.
Proof.
  unfold matchesb. rewrite matches_seq.
  induction (matches r1 s) as [|m1 ms IH]; cbn [flat_map map In].
  - split; [discriminate|intros [t [[] _]]].
  - destruct (matches r2 (snd m1)) as [|m2 ms2] eqn:E; rewrite ?E; cbn [map app].
    + rewrite IH. split.
      * intros [t [Ht Hm]]. exists t. auto.
      * intros [t [[<-|Ht] Hm]]; [rewrite E in Hm; discriminate|now exists t].
    + split; [|reflexivity]. intros _. exists (snd m1). rewrite E. auto.
Qed.

(** A pattern without wildcard matches its own text and nothing else. *)
Lemma matchesb_translate_literal (pat s : string) :
  no_wildcard pat = true -> matchesb (translate pat) s = true <-> s = pat.
Proof.
  unfold no_wildcard. revert s. induction pat as [|a pat IH]; intros s Hp.
  - unfold matchesb. cbn. destruct s; cbn; split; congruence.
  - cbn [list_ascii_of_string forallb] in Hp.
    apply andb_true_iff in Hp as [Ha Hp]. apply andb_true_iff in Ha as [Ha1 Ha2].
    apply negb_true_iff in Ha1, Ha2.
    cbn [translate]. rewrite Ha1, Ha2, matchesb_seq. cbn [matches Str.startswith].
    destruct s as [|b s].
    + split; [intros [t [[] _]]|discriminate].
    + cbn [String.length Str.drop]. destruct (Ascii.eqb_spec a b) as [<-|Hne]; cbn.
      * split.
        -- intros [t [[<-|[]] Hm]]. f_equal. now apply IH.
        -- intros [= ->]. exists pat. split; [now left|]. now apply IH.
      * split; [intros [t [[] _]]|congruence].
Qed.

Lemma fnmatch_literal (name pat : string) :
  no_wildcard pat = true -> fnmatch name pat = true <-> name = pat.
Proof. rewrite fnmatch_matchesb. apply matchesb_translate_literal. Qed.

(** [*] and a text without wildcard match the names ending in that text. *)
Lemma fnmatch_star_literal (name pat : string) :
  no_wildcard pat = true ->
  fnmatch name ("*" ++ pat) = true <-> Str.endswith name pat = true.
Proof.
  intros Hp. rewrite fnmatch_matchesb. cbn [append translate Ascii.eqb Bool.eqb].
  rewrite matchesb_seq. split.
  - intros [t [Ht Hm]]. apply In_matches_star_any in Ht as [i [Hi ->]].
    apply (matchesb_translate_literal _ _ Hp) in Hm. rewrite <- Hm.
    now apply StrFacts.endswith_drop.
  - intros H. unfold Str.endswith in H. apply andb_true_iff in H as [Hl H].
    apply String.eqb_eq in H. exists pat. split.
    + apply In_matches_star_any. exists (String.length name - String.length pat).
      split; [lia|now symmetry].
    + now apply matchesb_translate_literal.
Qed.

End ReFacts.

(** ** Facts about the file system *)

Module FSFacts.
Import FS.

Lemma lookup_app (fs : node) (p q : Path) :
  lookup fs (p ++ q)%list =
  match lookup fs p with
  | Some n => lookup n q
  | None => None
  end.
Proof.
  revert fs; induction p as [|c p IH]; intros fs; simpl; [reflexivity|].
  destruct fs as [|es]; [reflexivity|].
  destruct (assoc c es); [apply IH|reflexivity].
Qed.

Lemma assoc_In (c : string) (es : list (string * node)) (n : node) :
  assoc c es = Some n -> In c (map fst es).
Proof.
  induction es as [|[k m] es IH]; simpl; [discriminate|].
  destruct (String.eqb_spec k c) as [->|_]; [now left|].
  intros H. right. now apply IH.
Qed.

Lemma In_assoc (c : string) (es : list (string * node)) :
  In c (map fst es) -> exists n, assoc c es = Some n.
Proof.
  induction es as [|[k m] es IH]; simpl; [intros []|].
  destruct (String.eqb_spec k c) as [->|Hne]; [now exists m|].
  intros [H|H]; [contradiction|now apply IH].
Qed.

(** The names a directory lists are those a path can go on with. *)
Lemma listdir_iff (fs : node) (p : Path) (c : string) :
  In c (listdir fs p) <-> exists_ fs (p // c) = true.
Proof.
  unfold listdir, exists_, PathOps.joinpath. rewrite lookup_app.
  destruct (lookup fs p) as [[|es]|]; simpl; try (split; [intros []|discriminate]).
  split.
  - intros H. apply In_assoc in H as [n ->]. reflexivity.
  - destruct (assoc c es) as [n|] eqn:E; [|discriminate].
    intros _. now apply assoc_In in E.
Qed.

(** Every path to a directory below [n] is among [subdirs n]. *)
Lemma subdirs_complete (d : Path) :
  forall (n : node) (es : list (string * node)),
    lookup n d = Some (Dir es) -> In d (subdirs n).
Proof.
  induction d as [|c d IH]; intros n es; simpl.
  - intros [= ->]. now left.
  - destruct n as [|es0]; [discriminate|].
    destruct (assoc c es0) as [n'|] eqn:E; [|discriminate].
    intros H. right. specialize (IH n' es H).
    clear H. induction es0 as [|[k m] es0 IHes]; simpl in *; [discriminate|].
    apply in_or_app.
    destruct (String.eqb_spec k c) as [->|_].
    + injection E as ->. left. now apply in_map.
    + right. now apply IHes.
Qed.

Lemma In_select (fs : node) (p : Path) (pat : string) (q : Path) :
  In q (select fs p pat) <->
  exists c, q = p // c /\ exists_ fs (p // c) = true /\ Re.fnmatch c pat = true.
Proof.
  unfold select. rewrite in_map_iff. split.
  - intros [c [<- H]]. apply filter_In in H as [H1 H2].
    exists c. split; [reflexivity|]. split; [now apply listdir_iff|exact H2].
  - intros [c [-> [H1 H2]]]. exists c. split; [reflexivity|].
    apply filter_In. split; [now apply listdir_iff|exact H2].
Qed.

(** What a pattern [**/pat] selects: the entries below [p], at any depth,
    whose name matches [pat]. *)
Lemma In_glob_recursive (fs : node) (p : Path) (pat : string) (q : Path) :
  Str.split "/" ("**/" ++ pat) = ["**"; pat] ->
  In q (glob fs p ("**/" ++ pat)) <->
  exists d c, q = (p ++ d)%list // c /\ exists_ fs q = true /\ Re.fnmatch c pat = true.
Proof.
  intros Hsplit. unfold glob. rewrite Hsplit. cbn [String.eqb Ascii.eqb Bool.eqb].
  split.
  - destruct (lookup fs p) as [n|]; [|intros []].
    rewrite in_flat_map. intros [d [_ H]].
    apply In_select in H as [c [-> [H1 H2]]]. now exists d, c.
  - intros [d [c [-> [H1 H2]]]].
    unfold exists_, PathOps.joinpath in H1. rewrite <- app_assoc, lookup_app in H1.
    destruct (lookup fs p) as [n|] eqn:Hp; [|discriminate].
    apply in_flat_map. exists d. split.
    + rewrite lookup_app in H1.
      destruct (lookup n d) as [[|es]|] eqn:Hd; try discriminate.
      now apply (subdirs_complete d n es).
    + apply In_select. exists c. split; [reflexivity|]. split; [|exact H2].
      unfold exists_, PathOps.joinpath.
      rewrite <- app_assoc, lookup_app, Hp. assumption.
Qed.

End FSFacts.

(** ** Facts about the searches of a session *)

Lemma below_iff (fs : node) (session_path q : Path) :
  below fs session_path q <->
  exists d c, q = (session_path ++ d)%list // c /\ FS.exists_ fs q = true.
Proof.
  unfold below, PathOps.joinpath. split.
  - intros [rel [Hrel [-> Hex]]].
    destruct (exists_last Hrel) as [d [c ->]].
    exists d, c. split; [apply app_assoc|exact Hex].
  - intros [d [c [-> Hex]]]. exists (d ++ [c])%list.
    split; [now destruct d|]. split; [symmetry; apply app_assoc|exact Hex].
Qed.

(** What [**/*] and an ending select: the entries below the session
    whose name has the ending. *)
Lemma In_glob_ending (fs : node) (session_path : Path) (ending : string) (q : Path) :
  Re.no_wildcard ending = true ->
  Str.split "/" ("**/*" ++ ending) = ["**"; "*" ++ ending] ->
  In q (FS.glob fs session_path ("**/*" ++ ending)) <->
  below fs session_path q /\ Str.endswith (PathOps.name q) ending = true.
Proof.
  intros Hw Hsplit.
  rewrite (FSFacts.In_glob_recursive fs session_path ("*" ++ ending) q Hsplit).
  rewrite below_iff. split.
  - intros [d [c [-> [Hex Hm]]]]. split; [now exists d, c|].
    rewrite PathFacts.name_joinpath. now apply ReFacts.fnmatch_star_literal.
  - intros [[d [c [-> Hex]]] Hm]. exists d, c. split; [reflexivity|]. split; [exact Hex|].
    rewrite PathFacts.name_joinpath in Hm. now apply ReFacts.fnmatch_star_literal.
Qed.

(** What [**/] and a name select: the entries below the session that
    have the name. *)
Lemma In_glob_named (fs : node) (session_path : Path) (c : string) (q : Path) :
  Re.no_wildcard c = true ->
  Str.split "/" ("**/" ++ c) = ["**"; c] ->
  In q (FS.glob fs session_path ("**/" ++ c)) <->
  below fs session_path q /\ PathOps.name q = c.
Proof.
  intros Hw Hsplit.
  rewrite (FSFacts.In_glob_recursive fs session_path c q Hsplit).
  rewrite below_iff. split.
  - intros [d [c' [-> [Hex Hm]]]]. split; [now exists d, c'|].
    rewrite PathFacts.name_joinpath. now apply ReFacts.fnmatch_literal.
  - intros [[d [c' [-> Hex]]] Hm]. exists d, c'. split; [reflexivity|]. split; [exact Hex|].
    rewrite PathFacts.name_joinpath in Hm. now apply ReFacts.fnmatch_literal.
Qed.

Lemma In_glob_spikeglx (fs : node) (session_path : Path) (ending : string) (q : Path) :
  In ending spikeglx_endings ->
  In q (FS.glob fs session_path ("**/*" ++ ending)) <->
  below fs session_path q /\ Str.endswith (PathOps.name q) ending = true.
Proof.
  intros He. apply In_glob_ending;
    repeat (destruct He as [<-|He]; [reflexivity|]); destruct He.
Qed.

(** ** Facts about results and loops *)

Lemma require_ok (b : bool) (e : exn) : require b e = Ok tt <-> b = true.
Proof. destruct b; simpl; split; congruence. Qed.

Lemma require_raise (b : bool) (e e' : exn) :
  require b e = Raise e' -> b = false /\ e' = e.
Proof. destruct b; simpl; [discriminate|]. intros [= ->]. now split. Qed.

(** A checking loop succeeds exactly when its body does on every element. *)
Lemma for_each_ok {A : Type} (body : A -> result unit) (xs : list A) :
  for_each body xs = Ok tt <-> forall x, In x xs -> body x = Ok tt.
Proof.
  induction xs as [|x xs IH]; simpl.
  - split; [intros _ y []|reflexivity].
  - split.
    + intros H y [<-|Hy].
      * destruct (body x) as [[]|e]; [reflexivity|discriminate].
      * destruct (body x) as [[]|e]; [|discriminate].
        simpl in H. now apply IH.
    + intros H. rewrite (H x (or_introl eq_refl)). simpl.
      apply IH. intros y Hy. apply H. now right.
Qed.

(** A checking loop raises as soon as its body does on some element. *)
Lemma for_each_raises {A : Type} (body : A -> result unit) (xs : list A) (x : A) (e : exn) :
  In x xs -> body x = Raise e -> exists e', for_each body xs = Raise e'.
Proof.
  intros Hin Hx.
  destruct (for_each body xs) as [[]|e'] eqn:E; [|now exists e'].
  rewrite (proj1 (for_each_ok body xs) E x Hin) in Hx. discriminate.
Qed.

Lemma validate_date_format_true (s : string) (b : bool) :
  validate_date_format s = Ok b -> b = true.
Proof.
  unfold validate_date_format.
  destruct (Datetime.strptime s EXPECTED_DATE_FORMAT); [|discriminate].
  destruct (negb _); [discriminate|]. now intros [= <-].
Qed.

Lemma validate_date_format_value_error (s : string) (e : exn) :
  validate_date_format s = Raise e -> exists msg, e = ValueError msg.
Proof.
  unfold validate_date_format.
  destruct (Datetime.strptime s EXPECTED_DATE_FORMAT).
  - destruct (negb _); [|discriminate]. intros [= <-]. eauto.
  - intros [= <-]. eauto.
Qed.

Lemma validate_session_path_true (fs : node) (session_path : Path)
    (subject_name : string) (b : bool) :
  validate_session_path fs session_path subject_name = Ok b -> b = true.
Proof.
  unfold validate_session_path.
  destruct (negb (FS.exists_ fs session_path)); [discriminate|].
  destruct (negb (Str.startswith _ _)); [discriminate|].
  destruct (Str.index _ _) as [c|]; [|discriminate].
  destruct (negb (Ascii.eqb c "_")); [discriminate|].
  destruct (validate_date_format _); simpl; [|discriminate].
  now intros [= <-].
Qed.

(** The session path is accepted exactly when it exists and its name is
    the subject's name, an underscore and an accepted date. *)
Lemma validate_session_path_ok_iff (fs : node) (session_path : Path)
    (subject_name : string) :
  validate_session_path fs session_path subject_name = Ok true <->
  FS.exists_ fs session_path = true /\
  exists date, PathOps.name session_path = subject_name ++ "_" ++ date /\
               validate_date_format date = Ok true.
Proof.
  unfold validate_session_path. split.
  - destruct (FS.exists_ fs session_path); simpl; [|discriminate].
    destruct (Str.startswith _ _) eqn:Hpre; simpl; [|discriminate].
    apply StrFacts.startswith_inv in Hpre as [r Hr].
    rewrite Hr, StrFacts.index_app_length.
    destruct r as [|c r]; simpl; [discriminate|].
    destruct (Ascii.eqb c "_") eqn:Hc; simpl; [|discriminate].
    apply Ascii.eqb_eq in Hc; subst c.
    rewrite StrFacts.drop_succ_app_length.
    destruct (validate_date_format r) as [b|e] eqn:Hd; simpl; [|discriminate].
    intros _. split; [reflexivity|]. exists r. split; [reflexivity|].
    now rewrite (validate_date_format_true _ _ Hd) in Hd.
  - intros [Hex [date [Hname Hd]]].
    rewrite Hex, Hname, StrFacts.startswith_app, StrFacts.index_app_length.
    simpl. rewrite StrFacts.drop_succ_app_length, Hd. reflexivity.
Qed.

(** ** Facts about [extract_gid] *)

Lemma re_match_gid_inv (s : string) (m : Re.match_object) :
  Re.re_match SPIKEGLX_RECORDING_PATTERN s = Some m ->
  exists d, Re.in_range "0" "9" d = true /\
            Re.m_text m = gid_token d /\
            (s = gid_token d \/ s = gid_token d ++ String Str.newline "").
Proof.
  unfold Re.re_match, SPIKEGLX_RECORDING_PATTERN.
  destruct s as [|a [|b [|d rest]]]; cbn -[Ascii.eqb Re.in_range].
  - discriminate.
  - rewrite andb_false_r. discriminate.
  - destruct (_ && _); discriminate.
  - destruct (Ascii.eqb_spec "_" a) as [<-|]; [|discriminate]. 
    destruct (Ascii.eqb_spec "g" b) as [<-|]; [|discriminate].
    cbn -[Ascii.eqb Re.in_range].
    destruct (Re.in_range "0" "9" d) eqn:Hd; [|discriminate].
    destruct rest as [|n [|x rest]]; cbn -[Ascii.eqb Re.in_range].
    + intros [= <-]. exists d. cbn. auto.
    + destruct (Ascii.eqb_spec n Str.newline) as [->|]; cbn; [|discriminate].
      intros [= <-]. exists d. cbn. auto.
    + destruct (Ascii.eqb n Str.newline); discriminate.
Qed.

Lemma re_match_gid_token (d : ascii) (rest : string) :
  Re.in_range "0" "9" d = true ->
  rest = "" \/ rest = String Str.newline "" ->
  exists m, Re.re_match SPIKEGLX_RECORDING_PATTERN (gid_token d ++ rest) = Some m /\ Re.m_text m = gid_token d.
Proof.
  intros Hd Hr. unfold Re.re_match, SPIKEGLX_RECORDING_PATTERN.
  cbn -[Re.in_range]. rewrite Hd.
  destruct Hr as [-> | ->]; cbn; eexists; split; reflexivity.
Qed.

Lemma re_search_inv (r : Re.regex) (s : string) (m : Re.match_object) :
  Re.re_search r s = Some m ->
  exists i m', i <= String.length s /\ Re.re_match r (Str.drop i s) = Some m' /\ Re.m_text m = Re.m_text m'.
Proof.
  revert m; induction s as [|c s IH]; intros m; simpl.
  - destruct (Re.re_match r "") eqn:E; [|discriminate]. intros [= <-]. exists 0, m0. auto.
  - destruct (Re.re_match r (String c s)) eqn:E.
    + intros [= <-]. exists 0, m0. simpl. split; [lia|auto].
    + destruct (Re.re_search r s) as [m1|]; [|discriminate].
      intros [= <-]. destruct (IH m1 eq_refl) as [i [m' [Hi [Hm Ht]]]].
      exists (S i), m'. simpl. split; [lia|auto].
Qed.

Lemma re_search_none (r : Re.regex) (s : string) :
  (forall i, i <= String.length s -> Re.re_match r (Str.drop i s) = None) -> Re.re_search r s = None.
Proof.
  induction s as [|c s IH]; intros H; simpl.
  - pose proof (H 0 (le_n _)) as H0. simpl in H0. now rewrite H0.
  - pose proof (H 0 (Nat.le_0_l _)) as H0. simpl in H0. rewrite H0.
    rewrite IH; [reflexivity|].
    intros i Hi. apply (H (S i)). simpl; lia.
Qed.

Lemma extract_gid_sound (folder_name gid : string) :
  extract_gid folder_name = Ok gid ->
  exists d, is_digit d = true /\ gid = String "g" (String d "") /\
    (Str.endswith folder_name ("_" ++ gid) = true \/
     Str.endswith folder_name ("_" ++ gid ++ String Str.newline "") = true).
Proof.
  unfold extract_gid.
  destruct (Re.re_search _ _) as [m|] eqn:E; [|discriminate].
  intros [= <-].
  apply re_search_inv in E as [i [m' [Hi [Hm Ht]]]].
  apply re_match_gid_inv in Hm as [d [Hd [Htext Hs]]].
  exists d. rewrite Ht, Htext. split; [exact Hd|]. split; [reflexivity|].
  unfold gid_token in *. cbn [Str.drop append] in *.
  destruct Hs as [Hs|Hs]; [left|right]; rewrite <- Hs; now apply StrFacts.endswith_drop.
Qed.

Lemma extract_gid_raises (folder_name : string) :
  (forall d, is_digit d = true ->
     Str.endswith folder_name (gid_token d) = false /\
     Str.endswith folder_name (gid_token d ++ String Str.newline "") = false) ->
  extract_gid folder_name = Raise (ValueError (CouldNotExtractRecordingID folder_name)).
Proof.
  intros H. unfold extract_gid.
  rewrite re_search_none; [reflexivity|].
  intros i Hi. destruct (Re.re_match _ _) as [m|] eqn:E; [|reflexivity].
  apply re_match_gid_inv in E as [d [Hd [_ Hs]]].
  destruct (H d Hd) as [H1 H2].
  destruct Hs as [Hs|Hs]; rewrite <- Hs, StrFacts.endswith_drop in *; congruence.
Qed.

Lemma endswith_inv (s t : string) :
  Str.endswith s t = true -> exists i, i <= String.length s /\ Str.drop i s = t.
Proof.
  unfold Str.endswith. intros H. apply andb_true_iff in H as [_ H].
  apply String.eqb_eq in H. exists (String.length s - String.length t). split; [lia|exact H].
Qed.

Lemma re_search_gid_token (pre : string) (d : ascii) :
  is_digit d = true ->
  exists m, Re.re_search SPIKEGLX_RECORDING_PATTERN (pre ++ gid_token d) = Some m /\
            Re.m_text m = gid_token d.
Proof.
  intros Hd. induction pre as [|c pre IH].
  - destruct (re_match_gid_token d "" Hd (or_introl eq_refl)) as [m [Hm Ht]].
    exists m. split; [|exact Ht].
    unfold gid_token in *. cbn [append] in *.
    cbn [Re.re_search]. now rewrite Hm.
  - destruct IH as [m [Hm Ht]].
    cbn [append Re.re_search].
    destruct (Re.re_match _ (String c (pre ++ gid_token d))) as [m0|] eqn:E.
    + exfalso. apply re_match_gid_inv in E as [d' [_ [_ Hs]]].
      unfold gid_token in Hs. cbn [append] in Hs.
      destruct Hs as [Hs|Hs]; injection Hs as -> Hs.
      * apply (f_equal String.length) in Hs.
        rewrite StrFacts.length_app in Hs. simpl in Hs. lia.
      * destruct pre as [|a [|b pre]]; try discriminate Hs.
        apply (f_equal String.length) in Hs. cbn [append String.length] in Hs.
        rewrite StrFacts.length_app in Hs. simpl in Hs. lia.
    + rewrite Hm. eexists. split; [reflexivity|exact Ht].
Qed.

Lemma extract_gid_complete (pre : string) (d : ascii) :
  is_digit d = true -> extract_gid (pre ++ gid_token d) = Ok (String "g" (String d "")).
Proof.
  intros Hd. unfold extract_gid.
  destruct (re_search_gid_token pre d Hd) as [m [-> ->]]. reflexivity.
Qed.

(** The same with a newline after the token: [$] matches before it. *)
Lemma re_search_gid_token_newline (pre : string) (d : ascii) :
  is_digit d = true ->
  exists m, Re.re_search SPIKEGLX_RECORDING_PATTERN
              (pre ++ gid_token d ++ String Str.newline "") = Some m /\
            Re.m_text m = gid_token d.
Proof.
  intros Hd. induction pre as [|c pre IH].
  - destruct (re_match_gid_token d (String Str.newline "") Hd (or_intror eq_refl))
      as [m [Hm Ht]].
    exists m. split; [|exact Ht].
    unfold gid_token in *. cbn [append] in *.
    cbn [Re.re_search]. now rewrite Hm.
  - destruct IH as [m [Hm Ht]].
    cbn [append Re.re_search].
    destruct (Re.re_match _ (String c (pre ++ gid_token d ++ String Str.newline "")))
      as [m0|] eqn:E.
    + exfalso. apply re_match_gid_inv in E as [d' [_ [_ Hs]]].
      destruct Hs as [Hs|Hs]; apply (f_equal String.length) in Hs;
        cbn [String.length gid_token append] in Hs;
        rewrite StrFacts.length_app in Hs; cbn [String.length] in Hs; lia.
    + rewrite Hm. eexists. split; [reflexivity|exact Ht].
Qed.

Lemma extract_gid_newline (pre : string) (d : ascii) :
  is_digit d = true ->
  extract_gid (pre ++ gid_token d ++ String Str.newline "") =
  Ok (String "g" (String d "")).
Proof.
  intros Hd. unfold extract_gid.
  destruct (re_search_gid_token_newline pre d Hd) as [m [-> ->]]. reflexivity.
Qed.

(** ** Facts about the recording validator *)

Lemma str_mem_In (x : string) (xs : list string) : Str.mem x xs = true <-> In x xs.
Proof.
  unfold Str.mem. rewrite existsb_exists. split.
  - intros [y [Hy He]]. apply String.eqb_eq in He. now subst.
  - intros H. exists x. split; [assumption|apply String.eqb_refl].
Qed.

Lemma set_eqb_iff (xs ys : list string) :
  set_eqb xs ys = true <-> forall n, In n xs <-> In n ys.
Proof.
  unfold set_eqb. rewrite andb_true_iff, !forallb_forall. split.
  - intros [H1 H2] n. split; intros H.
    + apply str_mem_In. now apply H1.
    + apply str_mem_In. now apply H2.
  - intros H. split; intros n Hn; apply str_mem_In; now apply H.
Qed.

Lemma iterdir_listdir (fs : node) (p : Path) (entries : list Path) :
  iterdir fs p = Ok entries ->
  entries = map (fun c => p // c) (FS.listdir fs p) /\
  map PathOps.name entries = FS.listdir fs p /\ FS.is_dir fs p = true.
Proof.
  unfold iterdir, FS.listdir, FS.is_dir.
  destruct (FS.lookup fs p) as [[|es]|]; try discriminate.
  intros [= <-]. rewrite !map_map. split; [reflexivity|]. split; [|reflexivity].
  apply map_ext. intros e. apply PathFacts.name_joinpath.
Qed.

Lemma iterdir_is_dir (fs : node) (p : Path) :
  FS.is_dir fs p = true -> iterdir fs p = Ok (map (fun c => p // c) (FS.listdir fs p)).
Proof.
  unfold iterdir, FS.listdir, FS.is_dir.
  destruct (FS.lookup fs p) as [[|es]|]; try discriminate.
  intros _. now rewrite map_map.
Qed.

Section Probe.
Variable fs : node.
Variable allowed : list string.

Lemma probe_subfolders_of_spec (children probes : list Path) :
  probe_subfolders_of fs allowed children = Ok probes ->
  forall child, In child probes <->
    In child children /\ PathOps.is_hidden child = false /\
    Str.mem (PathOps.suffix child) allowed = false.
Proof.
  revert probes. induction children as [|c children IH]; intros probes; simpl.
  - intros [= <-] child. simpl. tauto.
  - destruct (PathOps.is_hidden c) eqn:Hh.
    { intros H child. rewrite (IH _ H). split; [tauto|].
      intros [[<-|Hin] [H1 H2]]; [congruence|tauto]. }
    destruct (Str.mem (PathOps.suffix c) allowed) eqn:Hs.
    { intros H child. rewrite (IH _ H). split; [tauto|].
      intros [[<-|Hin] [H1 H2]]; [congruence|tauto]. }
    destruct (FS.is_dir fs c) eqn:Hd; simpl; [|discriminate].
    destruct (probe_subfolders_of fs allowed children) as [ps|] eqn:E; simpl; [|discriminate].
    intros [= <-] child. simpl. rewrite (IH _ eq_refl). split.
    + intros [<-|H]; tauto.
    + intros [[<-|Hin] [H1 H2]]; [now left|right; tauto].
Qed.

Lemma probe_subfolders_of_is_dir (children probes : list Path) :
  probe_subfolders_of fs allowed children = Ok probes ->
  forall child, In child probes -> FS.is_dir fs child = true.
Proof.
  revert probes. induction children as [|c children IH]; intros probes; simpl.
  - intros [= <-] child [].
  - destruct (PathOps.is_hidden c); [apply IH|].
    destruct (Str.mem (PathOps.suffix c) allowed); [apply IH|].
    destruct (FS.is_dir fs c) eqn:Hd; simpl; [|discriminate].
    destruct (probe_subfolders_of fs allowed children) as [ps|] eqn:E; simpl; [|discriminate].
    intros [= <-] child [<-|H]; [assumption|]. now apply (IH ps).
Qed.
End Probe.

Lemma validate_raw_ephys_recording_true engine fs gid allowed b :
  validate_raw_ephys_recording engine fs gid allowed = Ok b -> b = true.
Proof.
  unfold validate_raw_ephys_recording.
  repeat (match goal with |- rbind ?r _ = _ -> _ => destruct r; simpl; [|discriminate] end).
  now intros [= <-].
Qed.

Lemma validate_raw_ephys_recording_inv engine fs gid allowed :
  validate_raw_ephys_recording engine fs gid allowed = Ok true ->
  exists probes,
    probe_subfolders_of fs allowed (map (fun c => gid // c) (FS.listdir fs gid)) = Ok probes /\
    (forall probe_folder, In probe_folder probes ->
       engine (PathOps.name gid ++ "_imec\d$") (PathOps.name probe_folder) = Some true) /\
    (forall probe_folder, In probe_folder probes ->
       set_eqb (FS.listdir fs probe_folder) (expected_filenames gid probe_folder) = true).
Proof.
  unfold validate_raw_ephys_recording.
  destruct (extract_gid _) as [g|]; simpl; [|discriminate].
  destruct (require _ _); simpl; [|discriminate].
  destruct (iterdir fs gid) as [children|] eqn:Hit; simpl; [|discriminate].
  apply iterdir_listdir in Hit as [-> _].
  destruct (probe_subfolders_of _ _ _) as [probes|] eqn:Hp; simpl; [|discriminate].
  destruct (for_each _ probes) as [[]|] eqn:H1; simpl; [|discriminate].
  destruct (for_each _ probes) as [[]|] eqn:H2 in |- *; simpl; [|discriminate].
  intros _. exists probes. split; [reflexivity|]. split.
  - intros p Hp'. pose proof (proj1 (for_each_ok _ _) H1 p Hp') as H. simpl in H.
    destruct (engine _ _) as [[|]|]; [reflexivity|discriminate|discriminate].
  - intros p Hp'. pose proof (proj1 (for_each_ok _ _) H2 p Hp') as H. simpl in H.
    destruct (iterdir fs p) as [entries|] eqn:Hit; simpl in H; [|discriminate].
    apply iterdir_listdir in Hit as [_ [Hn _]]. rewrite Hn in H.
    now apply require_ok in H.
Qed.

(** ** Facts about sequencing *)

Lemma bind_lift_ok {A B : Type} (a : A) (f : A -> M B) : bind (lift (Ok a)) f = f a.
Proof. unfold bind, lift. simpl. now destruct (f a). Qed.

Lemma bind_lift_raise {A B : Type} (e : exn) (f : A -> M B) :
  bind (lift (Raise e)) f = ([], Raise e).
Proof. reflexivity. Qed.

Lemma bind_ok {A B : Type} (ws : list warning) (a : A) (f : A -> M B) :
  bind (ws, Ok a) f = ((ws ++ fst (f a))%list, snd (f a)).
Proof. reflexivity. Qed.

(** A sequence returns only if both of its parts do. *)
Lemma bind_ok_inv {A B : Type} (m : M A) (f : A -> M B) (b : B) :
  snd (bind m f) = Ok b -> exists a, snd m = Ok a /\ snd (f a) = Ok b.
Proof.
  unfold bind. destruct (snd m) as [a|e]; simpl; [|discriminate].
  intros H. now exists a.
Qed.

Lemma bind_raise {A B : Type} (m : M A) (f : A -> M B) (e : exn) :
  snd m = Raise e -> snd (bind m f) = Raise e.
Proof. unfold bind. now intros ->. Qed.

Lemma snd_bind_ok {A B : Type} (m : M A) (f : A -> M B) (a : A) :
  snd m = Ok a -> snd (bind m f) = snd (f a).
Proof. unfold bind. now intros ->. Qed.

Lemma for_each_raise_inv {A : Type} (body : A -> result unit) (xs : list A) (e : exn) :
  for_each body xs = Raise e -> exists x, In x xs /\ body x = Raise e.
Proof.
  induction xs as [|x xs IH]; simpl; [discriminate|].
  destruct (body x) as [[]|e'] eqn:E; simpl.
  - intros H. destruct (IH H) as [y [Hy Hb]]. exists y. auto.
  - intros [= <-]. exists x. auto.
Qed.

(** ** Facts about the behavioural validator *)

Section Behaviour.
Variable find_whitelisted : node -> Path -> list string -> M (list Path).
Variable re_match_text : string -> string -> option bool.
Variable fs : node.

Lemma pycontrol_files_with_extension_spec pattern extension whitelisted all found :
  pycontrol_files_with_extension pattern extension whitelisted all = Ok found ->
  found = filter (fun f => negb (PathOps.mem f whitelisted)) all /\
  forall f, In f found -> Re.re_match pattern (PathOps.name f) <> None.
Proof.
  revert found. induction all as [|f all IH]; intros found; simpl.
  - intros [= <-]. split; [reflexivity|intros f []].
  - destruct (PathOps.mem f whitelisted); simpl; [apply IH|].
    destruct (Re.re_match pattern (PathOps.name f)) eqn:Hm; [|discriminate].
    destruct (pycontrol_files_with_extension _ _ _ all) as [fs'|]; simpl; [|discriminate].
    intros [= <-]. destruct (IH fs' eq_refl) as [-> Hall]. split; [reflexivity|].
    intros g [<-|Hg]; [congruence|now apply Hall].
Qed.

Lemma pycontrol_files_with_extension_complete pattern extension whitelisted all :
  (forall f, In f all -> PathOps.mem f whitelisted = false ->
             Re.re_match pattern (PathOps.name f) <> None) ->
  pycontrol_files_with_extension pattern extension whitelisted all =
  Ok (filter (fun f => negb (PathOps.mem f whitelisted)) all).
Proof.
  induction all as [|f all IH]; intros H; simpl; [reflexivity|].
  destruct (PathOps.mem f whitelisted) eqn:Hw; simpl.
  - apply IH. intros g Hg. apply H. now right.
  - destruct (Re.re_match pattern (PathOps.name f)) eqn:Hm.
    + rewrite IH; [reflexivity|]. intros g Hg. apply H. now right.
    + exfalso. now apply (H f (or_introl eq_refl) Hw).
Qed.

(** The loop over the two extensions, written out. *)
Lemma pycontrol_files_unfold (session_path : Path) (whitelisted : list Path)
    (pca_ending txt_ending : Re.regex) :
  getitem pycontrol_ending_pattern_per_extension ".pca" = Ok pca_ending ->
  getitem pycontrol_ending_pattern_per_extension ".txt" = Ok txt_ending ->
  pycontrol_files fs session_path whitelisted
    (map fst pycontrol_ending_pattern_per_extension) [] =
  match pycontrol_files_with_extension
          (pycontrol_pattern_for_extension session_path pca_ending) ".pca"
          whitelisted (FS.glob fs session_path "*.pca") with
  | Raise e => Raise e
  | Ok pca_files =>
      if (List.length pca_files =? 2)%nat then
        match pycontrol_files_with_extension
                (pycontrol_pattern_for_extension session_path txt_ending) ".txt"
                whitelisted (FS.glob fs session_path "*.txt") with
        | Raise e => Raise e
        | Ok txt_files =>
            if (List.length txt_files =? 1)%nat then Ok (pca_files ++ txt_files)%list
            else Raise (WrongNumberOfFilesError ".txt" 1 (List.length txt_files))
        end
      else Raise (WrongNumberOfFilesError ".pca" 2 (List.length pca_files))
  end.
Proof.
  intros [= <-] [= <-].
  cbn [map fst pycontrol_ending_pattern_per_extension pycontrol_files getitem
       String.eqb Ascii.eqb Bool.eqb rbind append
       expected_number_of_pycontrol_files_per_extension].
  destruct (pycontrol_files_with_extension _ ".pca" _ _) as [pca|e]; [|reflexivity].
  cbn [rbind]. destruct (List.length pca =? 2)%nat; cbn [negb]; [|reflexivity].
  destruct (pycontrol_files_with_extension _ ".txt" _ _) as [txt|e]; [|reflexivity].
  cbn [rbind]. destruct (List.length txt =? 1)%nat; cbn [negb]; reflexivity.
Qed.

(** The validator, once the session path is accepted and the whitelisted
    files are found. *)
Lemma validate_raw_behavioral_data_unfold (session_path : Path)
    (subject_name : string) (whitelisted_files_in_root : list string)
    (warn_if_no_pycontrol_py_folder : bool) (ws : list warning)
    (whitelisted : list Path) :
  validate_session_path fs session_path subject_name = Ok true ->
  find_whitelisted fs session_path whitelisted_files_in_root = (ws, Ok whitelisted) ->
  validate_raw_behavioral_data_of_session find_whitelisted fs session_path
    subject_name whitelisted_files_in_root warn_if_no_pycontrol_py_folder =
  match pycontrol_files fs session_path whitelisted
          (map fst pycontrol_ending_pattern_per_extension) [] with
  | Raise e => (ws, Raise e)
  | Ok behavioral_data_files =>
      let py_folder := session_path // "run_task-task_files" in
      if FS.exists_ fs py_folder then
        match FS.glob fs py_folder "*.py" with
        | [] => (ws, Raise (FileNotFoundError (NoPyFile session_path)))
        | [task_file] => (ws, Ok (behavioral_data_files ++ [task_file])%list)
        | _ :: _ :: _ => (ws, Raise (ValueError (MoreThanOnePyFile session_path)))
        end
      else
        ((ws ++ if warn_if_no_pycontrol_py_folder
                then [NoPyControlTaskFolder session_path] else [])%list,
         Ok behavioral_data_files)
  end.
Proof.
  intros Hsp Hwl. unfold validate_raw_behavioral_data_of_session.
  rewrite Hsp, bind_lift_ok, Hwl, bind_ok.
  destruct (pycontrol_files _ _ _ _ _) as [files|e].
  - rewrite bind_lift_ok. cbv zeta.
    destruct (FS.exists_ fs _); cbn [negb].
    + destruct (FS.glob fs _ "*.py") as [|f [|g rest]]; cbn; now rewrite app_nil_r.
    + destruct warn_if_no_pycontrol_py_folder; cbn; [reflexivity|].
      reflexivity.
  - rewrite bind_lift_raise. cbn. now rewrite app_nil_r.
Qed.
End Behaviour.

(** ** Facts about the electrophysiology validator *)

Section Ephys.
Variable re_match_text : string -> string -> option bool.
Variable fs : node.

Lemma find_spikeglx_recording_folders_value (session_path : Path) :
  snd (_find_spikeglx_recording_folders_in_session fs session_path) =
  Ok (FS.glob fs session_path "*_g?").
Proof.
  unfold _find_spikeglx_recording_folders_in_session. cbv zeta.
  destruct (1 <? _)%nat; reflexivity.
Qed.

Lemma validate_raw_ephys_data_ok_inv session_path subject_name allowed files :
  snd (validate_raw_ephys_data_of_session re_match_text fs session_path
         subject_name allowed) = Ok files ->
  validate_session_path fs session_path subject_name = Ok true /\
  (forall r, In r (FS.glob fs session_path "*_g?") ->
             validate_raw_ephys_recording re_match_text fs r allowed = Ok true) /\
  spikeglx_files_in_recording_folders fs session_path (FS.glob fs session_path "*_g?") = Ok tt.
Proof.
  unfold validate_raw_ephys_data_of_session. intros H.
  apply bind_ok_inv in H as [b [Hsp H]]. simpl in Hsp.
  apply bind_ok_inv in H as [recs [Hrecs H]].
  rewrite find_spikeglx_recording_folders_value in Hrecs. injection Hrecs as <-.
  apply bind_ok_inv in H as [[] [Hval H]]. simpl in Hval.
  apply bind_ok_inv in H as [[] [Hstray H]]. simpl in Hstray.
  split; [|split].
  - now rewrite (validate_session_path_true _ _ _ _ Hsp) in Hsp.
  - intros r Hr. pose proof (proj1 (for_each_ok _ _) Hval r Hr) as Hr'. simpl in Hr'.
    destruct (validate_raw_ephys_recording _ _ _ _) as [b'|] eqn:E; [|discriminate].
    now rewrite (validate_raw_ephys_recording_true _ _ _ _ _ E).
  - exact Hstray.
Qed.

Lemma spikeglx_files_raises session_path ending p :
  In ending spikeglx_endings ->
  In p (FS.glob fs session_path ("**/*" ++ ending)) ->
  in_known_recording (FS.glob fs session_path "*_g?") p = false ->
  exists e, spikeglx_files_in_recording_folders fs session_path (FS.glob fs session_path "*_g?") = Raise e.
Proof.
  intros He Hp Hk. unfold spikeglx_files_in_recording_folders.
  destruct (for_each_raises
              (fun spikeglx_filepath =>
                 require (in_known_recording (FS.glob fs session_path "*_g?")
                            spikeglx_filepath)
                   (ValueError (NotInAnyKnownRecordingFolder spikeglx_filepath)))
              _ p (ValueError (NotInAnyKnownRecordingFolder p)) Hp) as [e Hinner].
  { now rewrite Hk. }
  exact (for_each_raises _ _ ending e He Hinner).
Qed.

Lemma spikeglx_files_raise_inv session_path e :
  spikeglx_files_in_recording_folders fs session_path (FS.glob fs session_path "*_g?") = Raise e ->
  exists ending p,
    In ending spikeglx_endings /\
    In p (FS.glob fs session_path ("**/*" ++ ending)) /\
    in_known_recording (FS.glob fs session_path "*_g?") p = false /\
    e = ValueError (NotInAnyKnownRecordingFolder p).
Proof.
  unfold spikeglx_files_in_recording_folders. intros H.
  apply for_each_raise_inv in H as [ending [He H]].
  apply for_each_raise_inv in H as [p [Hp H]].
  apply require_raise in H as [Hk ->].
  exists ending, p. auto.
Qed.
End Ephys.

(** ** Facts about the video validator *)

Section Videos.
Variable fs : node.

Lemma files_in_video_folder_ok session_path video_folder_path what pattern :
  files_in_video_folder fs session_path video_folder_path what pattern = Ok tt <->
  forall found_path, In found_path (FS.glob fs session_path pattern) ->
                     PathOps.is_relative_to found_path video_folder_path = true.
Proof.
  unfold files_in_video_folder. rewrite for_each_ok. split.
  - intros H p Hp. exact (proj1 (require_ok _ _) (H p Hp)).
  - intros H p Hp. apply require_ok. now apply H.
Qed.

Lemma files_in_video_folder_raise_inv session_path video_folder_path what pattern e :
  files_in_video_folder fs session_path video_folder_path what pattern = Raise e ->
  exists stray,
    In stray (FS.glob fs session_path pattern) /\
    PathOps.is_relative_to stray video_folder_path = false /\
    e = ValueError (FileInUnexpectedLocation what stray video_folder_path).
Proof.
  unfold files_in_video_folder. intros H.
  apply for_each_raise_inv in H as [p [Hp H]].
  apply require_raise in H as [Hr ->]. now exists p.
Qed.

Lemma validate_raw_videos_ok_inv session_path subject_name warn files :
  snd (validate_raw_videos_of_session fs session_path subject_name warn) = Ok files ->
  let video_folder_path := session_path // (PathOps.name session_path ++ "_cameras") in
  files_in_video_folder fs session_path video_folder_path ".avi" "**/*.avi" = Ok tt /\
  files_in_video_folder fs session_path video_folder_path "metadata.csv"
    "**/metadata.csv" = Ok tt.
Proof.
  unfold validate_raw_videos_of_session. cbv zeta. intros H.
  apply bind_ok_inv in H as [b [_ H]].
  apply bind_ok_inv in H as [ex [_ H]].
  apply bind_ok_inv in H as [[] [Havi H]].
  apply bind_ok_inv in H as [[] [Hmeta H]].
  split; assumption.
Qed.

(** The validator, once the session path is accepted, for a session
    without its video folder. *)
Lemma validate_raw_videos_without_folder session_path subject_name warn :
  let video_folder_path := session_path // (PathOps.name session_path ++ "_cameras") in
  validate_session_path fs session_path subject_name = Ok true ->
  FS.exists_ fs video_folder_path = false ->
  validate_raw_videos_of_session fs session_path subject_name warn =
  (if warn then [NoVideoFolder session_path] else [],
   files_in_video_folder fs session_path video_folder_path ".avi" "**/*.avi" ~~
   files_in_video_folder fs session_path video_folder_path "metadata.csv"
     "**/metadata.csv" ~~
   Ok []).
Proof.
  intros video_folder_path Hsp Hex. unfold validate_raw_videos_of_session. cbv zeta.
  fold video_folder_path. rewrite Hsp, bind_lift_ok, Hex. cbn [negb append].
  destruct (files_in_video_folder _ _ _ ".avi" _) as [[]|e];
    [destruct (files_in_video_folder _ _ _ "metadata.csv" _) as [[]|e]|];
    destruct warn; reflexivity.
Qed.
End Videos.

(** ** The claims *)

(** C2.  [validate_date_format] returns True exactly for the texts that
    [strptime] parses under [EXPECTED_DATE_FORMAT] and that [strftime]
    gives back unchanged; a text that parses but comes back changed raises
    a ValueError, as 2023_8_15_16_00 does, whose month has one digit; so
    [validate_session_path] returns True exactly for the existing folders
    named subject, underscore, date where the date comes back unchanged. *)
Theorem validate_date_format_round_trip :
  (forall s : string,
      validate_date_format s = Ok true <->
      exists parsed,
        Datetime.strptime s EXPECTED_DATE_FORMAT = Some parsed /\
        Datetime.strftime parsed EXPECTED_DATE_FORMAT = s)
  /\ (forall (s : string) parsed,
         Datetime.strptime s EXPECTED_DATE_FORMAT = Some parsed ->
         Datetime.strftime parsed EXPECTED_DATE_FORMAT <> s ->
         validate_date_format s =
         Raise (ValueError (DoesNotMatchExpectedFormat s
                              (Datetime.strftime parsed EXPECTED_DATE_FORMAT))))
  /\ (Datetime.strptime "2023_8_15_16_00" EXPECTED_DATE_FORMAT =
        Some {| Datetime.year := 2023; Datetime.month := 8; Datetime.day := 15;
                Datetime.hour := 16; Datetime.minute := 0 |}
      /\ validate_date_format "2023_8_15_16_00" =
         Raise (ValueError (DoesNotMatchExpectedFormat "2023_8_15_16_00"
                              "2023_08_15_16_00")))
  /\ (forall (fs : node) (session_path : Path) (subject_name : string),
         validate_session_path fs session_path subject_name = Ok true <->
         FS.exists_ fs session_path = true /\
         exists date,
           PathOps.name session_path = subject_name ++ "_" ++ date /\
           exists parsed,
             Datetime.strptime date EXPECTED_DATE_FORMAT = Some parsed /\
             Datetime.strftime parsed EXPECTED_DATE_FORMAT = date).
Proof.
  assert (Hiff : forall s : string,
             validate_date_format s = Ok true <->
             exists parsed,
               Datetime.strptime s EXPECTED_DATE_FORMAT = Some parsed /\
               Datetime.strftime parsed EXPECTED_DATE_FORMAT = s).
  { intros s. unfold validate_date_format. split.
    - destruct (Datetime.strptime s EXPECTED_DATE_FORMAT) as [parsed|];
        [|discriminate].
      destruct (String.eqb_spec s (Datetime.strftime parsed EXPECTED_DATE_FORMAT))
        as [Heq|Hne]; simpl; [|discriminate].
      intros _. exists parsed. split; [reflexivity|now symmetry].
    - intros [parsed [Hp Hf]]. rewrite Hp.
      destruct (String.eqb_spec s (Datetime.strftime parsed EXPECTED_DATE_FORMAT))
        as [Heq|Hne]; simpl; [reflexivity|].
      now elim Hne. }
  split; [exact Hiff|]. split; [|split].
  - intros s parsed Hp Hne. unfold validate_date_format. rewrite Hp.
    destruct (String.eqb_spec s (Datetime.strftime parsed EXPECTED_DATE_FORMAT))
      as [Heq|_]; simpl; [|reflexivity].
    now elim Hne.
  - split; vm_compute; reflexivity.
  - intros fs session_path subject_name.
    rewrite validate_session_path_ok_iff. split.
    + intros [Hex [date [Hn Hd]]]. split; [assumption|].
      exists date. split; [assumption|]. now apply Hiff.
    + intros [Hex [date [Hn Hd]]]. split; [assumption|].
      exists date. split; [assumption|]. now apply Hiff.
Qed.

(** C9.  The character [folder_name[len(subject_name)]] is there exactly
    when the folder's name is longer than the subject's name.  When the
    session folder exists and its name is the subject's name and nothing
    more, the name passes the test of its start, the test for the
    underscore reads one character past its end, and
    [validate_session_path] raises an IndexError, not a ValueError; it
    raises an IndexError in no other case. *)
Theorem validate_session_path_index_error
    (fs : node) (session_path : Path) (subject_name : string) :
  let folder_name := PathOps.name session_path in
  (Str.index folder_name (String.length subject_name) <> None <->
   String.length subject_name < String.length folder_name)
  /\ (FS.exists_ fs session_path = true ->
      folder_name = subject_name ->
      Str.startswith folder_name subject_name = true /\
      validate_session_path fs session_path subject_name = Raise IndexError)
  /\ (validate_session_path fs session_path subject_name = Raise IndexError ->
      FS.exists_ fs session_path = true /\ folder_name = subject_name).
Proof.
  intros folder_name. split; [|split].
  - rewrite StrFacts.index_none_iff. lia.
  - intros Hex Hname. unfold validate_session_path. fold folder_name.
    rewrite Hex, Hname, StrFacts.startswith_refl, StrFacts.index_length_self.
    now split.
  - unfold validate_session_path. fold folder_name.
    destruct (FS.exists_ fs session_path); simpl; [|discriminate].
    destruct (Str.startswith folder_name subject_name) eqn:Hpre; simpl;
      [|discriminate].
    apply StrFacts.startswith_inv in Hpre as [r Hr].
    rewrite Hr, StrFacts.index_app_length.
    destruct r as [|c r]; simpl.
    + intros _. split; [reflexivity|apply StrFacts.app_empty_r].
    + destruct (negb (Ascii.eqb c "_")); [discriminate|].
      destruct (validate_date_format _) as [b|e] eqn:Hd; simpl; [discriminate|].
      apply validate_date_format_value_error in Hd as [msg ->]. discriminate.
Qed.

Lemma validate_session_path_index_error_witness :
  Str.startswith (PathOps.name ["data"; "M016"]) "M016" = true /\
  validate_session_path (Dir [("data", Dir [("M016", Dir [])])])
    ["data"; "M016"] "M016" = Raise IndexError.
Proof.
  apply (proj1 (proj2 (validate_session_path_index_error
                         (Dir [("data", Dir [("M016", Dir [])])])
                         ["data"; "M016"] "M016")));
    reflexivity.
Defined.

(** C7.  For an existing session folder named exactly as the subject,
    [validate_session_path] raises neither a FileNotFoundError nor a
    ValueError and does not return True: it raises an IndexError. *)
Theorem validate_session_path_name_without_underscore :
  let fs := Dir [("M016", Dir [])] in
  FS.exists_ fs ["M016"] = true /\
  validate_session_path fs ["M016"] "M016" = Raise IndexError /\
  (forall msg, validate_session_path fs ["M016"] "M016" <> Raise (ValueError msg)) /\
  validate_session_path fs ["M016"] "M016" <> Ok true.
Proof.
  cbv zeta. repeat split; try reflexivity; intros; vm_compute; discriminate.
Qed.

(** C1.  [extract_gid] returns the matched token without its underscore,
    the letter g and the digit: "g1" for M016_2023_08_15_16_00_g1, and so
    for every name that ends in [_g] and a digit, and also for every name
    that ends in [_g], a digit and one newline, before which [$] matches
    too; whatever it returns is of that form and ends the name, a final
    newline apart; every other name, such as ...no_gid_here, raises a
    ValueError. *)
Theorem extract_gid_returns_the_token :
  extract_gid "M016_2023_08_15_16_00_g1" = Ok "g1"
  /\ extract_gid "...no_gid_here" =
     Raise (ValueError (CouldNotExtractRecordingID "...no_gid_here"))
  /\ (forall (pre : string) (d : ascii),
         is_digit d = true ->
         extract_gid (pre ++ gid_token d) = Ok (String "g" (String d "")))
  /\ (forall (pre : string) (d : ascii),
         is_digit d = true ->
         extract_gid (pre ++ gid_token d ++ String Str.newline "") =
         Ok (String "g" (String d "")))
  /\ (forall folder_name gid : string,
         extract_gid folder_name = Ok gid ->
         exists d, is_digit d = true /\ gid = String "g" (String d "") /\
           (Str.endswith folder_name ("_" ++ gid) = true \/
            Str.endswith folder_name ("_" ++ gid ++ String Str.newline "") = true))
  /\ (forall folder_name : string,
         (forall d, is_digit d = true ->
            Str.endswith folder_name (gid_token d) = false /\
            Str.endswith folder_name (gid_token d ++ String Str.newline "") = false) ->
         extract_gid folder_name =
         Raise (ValueError (CouldNotExtractRecordingID folder_name))).
Proof.
  split; [reflexivity|]. split; [reflexivity|]. split; [|split; [|split]].
  - exact extract_gid_complete.
  - exact extract_gid_newline.
  - exact extract_gid_sound.
  - exact extract_gid_raises.
Qed.

Lemma extract_gid_returns_the_token_witness :
  extract_gid ("M016_2023_08_15_16_00" ++ gid_token "7") = Ok "g7"
  /\ extract_gid ("M016_2023_08_15_16_00" ++ gid_token "7" ++ String Str.newline "")
     = Ok "g7"
  /\ extract_gid "M016_2023_08_15_16_00_cameras" =
     Raise (ValueError (CouldNotExtractRecordingID "M016_2023_08_15_16_00_cameras")).
Proof.
  split; [|split].
  - apply (proj1 (proj2 (proj2 extract_gid_returns_the_token))). reflexivity.
  - apply (proj1 (proj2 (proj2 (proj2 extract_gid_returns_the_token)))). reflexivity.
  - apply (proj2 (proj2 (proj2 (proj2 (proj2 extract_gid_returns_the_token))))).
    intros d _. split; reflexivity.
Defined.

(** C1, as stated: the result for M016_2023_08_15_16_00_g1 is not the
    bare digit; and the name M016_2023_08_15_16_00_g1 followed by a
    newline, which ends in no [_g] and digit, raises nothing. *)
Lemma extract_gid_is_not_the_bare_digit :
  extract_gid "M016_2023_08_15_16_00_g1" <> Ok "1"
  /\ (forall d,
         Str.endswith ("M016_2023_08_15_16_00_g1" ++ String Str.newline "")
           (gid_token d) = false)
  /\ extract_gid ("M016_2023_08_15_16_00_g1" ++ String Str.newline "") = Ok "g1".
Proof.
  split; [vm_compute; discriminate|]. split; [intros d|]; reflexivity.
Qed.

(** C10.  With the three toggles off, [validate_raw_session] returns three
    empty lists without a warning, whatever the file system, the session
    path, the subject's name, the whitelist and the allowed extensions:
    neither the session path nor the file system is looked at. *)
Theorem validate_raw_session_all_off
    (find_whitelisted : node -> Path -> list string -> M (list Path))
    (re_match_text : string -> string -> option bool)
    (fs : node) (session_path : Path) (subject_name : string)
    (whitelisted_files_in_root allowed_extensions_not_in_root : list string) :
  validate_raw_session find_whitelisted re_match_text fs session_path subject_name
    false false false whitelisted_files_in_root allowed_extensions_not_in_root
  = ([], Ok ([], [], [])).
Proof. reflexivity. Qed.

(** C3.  The pattern of the probes' folders is made of the recording
    folder's name as it is, which is not escaped as the session's name is
    in the pattern of the behavioural files.  For the subject a|b the
    pattern a|b_2023_08_15_16_00_g0_imec\d$ reads as two alternatives, the
    first of which is the letter a, and it matches the folder archive:
    with four files named after the last field of that name,
    [validate_raw_ephys_recording] returns True and
    [validate_raw_ephys_data_of_session] returns the four files, although
    no entry of the folder is the recording folder's name, [_t0.imec], a
    digit and one of the four endings.  So it is for the folder of a probe
    whose name goes on with a newline after the digit, before which [$]
    matches. *)
Theorem probe_pattern_is_not_escaped :
  (let fs := Examples.session_with_bar in
   let recording := Examples.recording_path_with_bar in
   let probe_folder := recording // "archive" in
   validate_session_path fs Examples.session_path_with_bar "a|b" = Ok true
   /\ probe_candidate [".txt"] probe_folder = true
   /\ re_match_alternatives (PathOps.name recording ++ "_imec\d$") "archive"
      = Some true
   /\ validate_raw_ephys_recording re_match_alternatives fs recording [".txt"]
      = Ok true
   /\ FS.listdir fs probe_folder =
      ["a|b_2023_08_15_16_00_g0_t0.archive.lf.meta";
       "a|b_2023_08_15_16_00_g0_t0.archive.lf.bin";
       "a|b_2023_08_15_16_00_g0_t0.archive.ap.meta";
       "a|b_2023_08_15_16_00_g0_t0.archive.ap.bin"]
   /\ (forall d n, ~ (In n (imec_filenames (PathOps.name recording) d) /\
                      In n (FS.listdir fs probe_folder)))
   /\ validate_raw_ephys_data_of_session re_match_alternatives fs
        Examples.session_path_with_bar "a|b" [".txt"]
      = ([], Ok (map (fun n => probe_folder // n) (FS.listdir fs probe_folder))))
  /\ (let fs := Examples.session_with_newline in
      let recording := Examples.recording_path in
      let probe_folder := recording // Examples.probe_name_with_newline in
      probe_candidate [".txt"] probe_folder = true
      /\ re_match_plain (PathOps.name recording ++ "_imec\d$")
           Examples.probe_name_with_newline = Some true
      /\ validate_raw_ephys_recording re_match_plain fs recording [".txt"] = Ok true
      /\ List.length (FS.listdir fs probe_folder) = 4
      /\ (forall d n, ~ (In n (imec_filenames (PathOps.name recording) d) /\
                         In n (FS.listdir fs probe_folder)))
      /\ validate_raw_ephys_data_of_session re_match_plain fs
           Examples.session_path "M016" [".txt"]
         = ([], Ok (map (fun n => probe_folder // n) (FS.listdir fs probe_folder)))).
Proof.
  cbv zeta. split.
  - repeat split; try (vm_compute; reflexivity).
    intros d n [Hn Hf]. vm_compute in Hf.
    unfold imec_filenames, expected_endings in Hn. cbn [map] in Hn.
    vm_compute in Hn.
    repeat (destruct Hf as [Hf|Hf]; [subst n; intuition discriminate|]).
    exact Hf.
  - repeat split; try (vm_compute; reflexivity).
    intros d n [Hn Hf]. vm_compute in Hf.
    unfold imec_filenames, expected_endings in Hn. cbn [map] in Hn.
    vm_compute in Hn.
    repeat (destruct Hf as [Hf|Hf]; [subst n; intuition discriminate|]).
    exact Hf.
Qed.

(** The same for a file the search finds. *)
Lemma misplaced_video_file_found_raises
    (fs : node) (session_path : Path) (subject_name : string)
    (warn_if_no_video_folder : bool) :
  let video_folder_path := session_path // (PathOps.name session_path ++ "_cameras") in
  let validated :=
    validate_raw_videos_of_session fs session_path subject_name
      warn_if_no_video_folder in
  let misplaced found_path :=
    (In found_path (FS.glob fs session_path "**/*.avi") \/
     In found_path (FS.glob fs session_path "**/metadata.csv")) /\
    PathOps.is_relative_to found_path video_folder_path = false in
  ((exists found_path, misplaced found_path) -> exists e, snd validated = Raise e)
  /\ (validate_session_path fs session_path subject_name = Ok true ->
      FS.exists_ fs video_folder_path = false ->
      fst validated =
      (if warn_if_no_video_folder then [NoVideoFolder session_path] else [])
      /\ ((exists found_path, misplaced found_path) ->
          exists what stray,
            misplaced stray /\
            snd validated =
            Raise (ValueError (FileInUnexpectedLocation what stray video_folder_path)))
      /\ ((forall found_path, ~ misplaced found_path) -> snd validated = Ok [])).
Proof.
  intros video_folder_path validated misplaced.
  assert (Hloops : (exists found_path, misplaced found_path) ->
                   files_in_video_folder fs session_path video_folder_path
                     ".avi" "**/*.avi" = Ok tt ->
                   files_in_video_folder fs session_path video_folder_path
                     "metadata.csv" "**/metadata.csv" = Ok tt -> False).
  { intros [p [[Hp|Hp] Hr]] Havi Hmeta.
    - rewrite (proj1 (files_in_video_folder_ok _ _ _ _ _) Havi p Hp) in Hr. discriminate.
    - rewrite (proj1 (files_in_video_folder_ok _ _ _ _ _) Hmeta p Hp) in Hr. discriminate. }
  split.
  - intros Hm. destruct (snd validated) as [files|e] eqn:E; [|now exists e].
    exfalso. apply validate_raw_videos_ok_inv in E as [Havi Hmeta].
    exact (Hloops Hm Havi Hmeta).
  - intros Hsp Hex. unfold validated.
    rewrite (validate_raw_videos_without_folder fs _ _ _ Hsp Hex).
    fold video_folder_path. cbn [fst snd]. split; [reflexivity|]. split.
    + intros Hm.
      destruct (files_in_video_folder _ _ _ ".avi" _) as [[]|e] eqn:Havi.
      * destruct (files_in_video_folder _ _ _ "metadata.csv" _) as [[]|e] eqn:Hmeta.
        -- exfalso. exact (Hloops Hm eq_refl eq_refl).
        -- apply files_in_video_folder_raise_inv in Hmeta as [q [Hq [Hr ->]]].
           exists "metadata.csv", q. split; [|reflexivity]. split; [now right|exact Hr].
      * apply files_in_video_folder_raise_inv in Havi as [q [Hq [Hr ->]]].
        exists ".avi", q. split; [|reflexivity]. split; [now left|exact Hr].
    + intros Hno.
      assert (Hrel : forall pattern what,
                 (forall p, In p (FS.glob fs session_path pattern) ->
                            In p (FS.glob fs session_path "**/*.avi") \/
                            In p (FS.glob fs session_path "**/metadata.csv")) ->
                 files_in_video_folder fs session_path video_folder_path what pattern
                 = Ok tt).
      { intros pattern what Hsub. apply files_in_video_folder_ok. intros p Hp.
        destruct (PathOps.is_relative_to p video_folder_path) eqn:Hr; [reflexivity|].
        exfalso. apply (Hno p). split; [now apply Hsub|exact Hr]. }
      rewrite (Hrel "**/*.avi" ".avi"), (Hrel "**/metadata.csv" "metadata.csv");
        [reflexivity|now right|now left].
Qed.

(** C4.  [validate_raw_videos_of_session] raises whenever the search of
    the session finds an entry whose name ends in .avi, or an entry named
    metadata.csv, that is not under the folder named after the session
    with [_cameras].  For an accepted session path without that folder the
    search is made all the same: the warning is issued when it is asked
    for, a misplaced entry raises the ValueError of a file in an
    unexpected location, and without a misplaced entry the result is the
    empty list. *)
Theorem misplaced_video_file_raises
    (fs : node) (session_path : Path) (subject_name : string)
    (warn_if_no_video_folder : bool) :
  let video_folder_path := session_path // (PathOps.name session_path ++ "_cameras") in
  let validated :=
    validate_raw_videos_of_session fs session_path subject_name
      warn_if_no_video_folder in
  let misplaced found_path :=
    below fs session_path found_path /\
    (Str.endswith (PathOps.name found_path) ".avi" = true \/
     PathOps.name found_path = "metadata.csv") /\
    PathOps.is_relative_to found_path video_folder_path = false in
  ((exists found_path, misplaced found_path) -> exists e, snd validated = Raise e)
  /\ (validate_session_path fs session_path subject_name = Ok true ->
      FS.exists_ fs video_folder_path = false ->
      fst validated =
      (if warn_if_no_video_folder then [NoVideoFolder session_path] else [])
      /\ ((exists found_path, misplaced found_path) ->
          exists what stray,
            misplaced stray /\
            snd validated =
            Raise (ValueError (FileInUnexpectedLocation what stray video_folder_path)))
      /\ ((forall found_path, ~ misplaced found_path) -> snd validated = Ok [])).
Proof.
  intros video_folder_path validated misplaced.
  assert (Hmis : forall p,
             misplaced p <->
             (In p (FS.glob fs session_path "**/*.avi") \/
              In p (FS.glob fs session_path "**/metadata.csv")) /\
             PathOps.is_relative_to p video_folder_path = false).
  { intros p. unfold misplaced.
    pose proof (In_glob_ending fs session_path ".avi" p eq_refl eq_refl) as Havi.
    pose proof (In_glob_named fs session_path "metadata.csv" p eq_refl eq_refl) as Hmeta.
    change ("**/*" ++ ".avi") with "**/*.avi" in Havi.
    change ("**/" ++ "metadata.csv") with "**/metadata.csv" in Hmeta.
    rewrite Havi, Hmeta. tauto. }
  destruct (misplaced_video_file_found_raises fs session_path subject_name
              warn_if_no_video_folder) as [Hany Hwithout].
  fold video_folder_path validated in Hany, Hwithout.
  split.
  - intros [p Hp]. apply Hany. exists p. now apply Hmis.
  - intros Hsp Hex. destruct (Hwithout Hsp Hex) as [Hw [Hraise Hnone]].
    split; [exact Hw|]. split.
    + intros [p Hp]. destruct Hraise as [what [stray [Hs Hv]]].
      * exists p. now apply Hmis.
      * exists what, stray. split; [now apply Hmis|exact Hv].
    + intros Hno. apply Hnone. intros p Hp. apply (Hno p). now apply Hmis.
Qed.

(** C5.  Once the session path is accepted and the whitelisted files are
    found: when the loop over the .pca files has passed every file that is
    not whitelisted and their number is not 2, the validator raises
    WrongNumberOfFilesError with 2 and that number; when it is 2, the loop
    over the .txt files has passed and their number is not 1, it raises
    WrongNumberOfFilesError with 1 and that number; and a session with one
    .pca file, which is not whitelisted and matches the pattern, raises it
    with 2 expected and 1 found. *)
Theorem wrong_number_of_pycontrol_files
    (find_whitelisted : node -> Path -> list string -> M (list Path))
    (fs : node) (session_path : Path) (subject_name : string)
    (whitelisted_files_in_root : list string) (warn_if_no_pycontrol_py_folder : bool)
    (ws : list warning) (whitelisted_files_found : list Path)
    (pca_ending txt_ending : Re.regex) :
  validate_session_path fs session_path subject_name = Ok true ->
  find_whitelisted fs session_path whitelisted_files_in_root
  = (ws, Ok whitelisted_files_found) ->
  getitem pycontrol_ending_pattern_per_extension ".pca" = Ok pca_ending ->
  getitem pycontrol_ending_pattern_per_extension ".txt" = Ok txt_ending ->
  let validated :=
    validate_raw_behavioral_data_of_session find_whitelisted fs session_path
      subject_name whitelisted_files_in_root warn_if_no_pycontrol_py_folder in
  let checked ending extension :=
    pycontrol_files_with_extension
      (pycontrol_pattern_for_extension session_path ending) extension
      whitelisted_files_found (FS.glob fs session_path ("*" ++ extension)) in
  (forall pca_files,
      checked pca_ending ".pca" = Ok pca_files ->
      (List.length pca_files <> 2 ->
       validated = (ws, Raise (WrongNumberOfFilesError ".pca" 2 (List.length pca_files))))
      /\ (List.length pca_files = 2 ->
          forall txt_files,
            checked txt_ending ".txt" = Ok txt_files ->
            List.length txt_files <> 1 ->
            validated =
            (ws, Raise (WrongNumberOfFilesError ".txt" 1 (List.length txt_files)))))
  /\ (forall pca_file,
         FS.glob fs session_path "*.pca" = [pca_file] ->
         PathOps.mem pca_file whitelisted_files_found = false ->
         Re.re_match (pycontrol_pattern_for_extension session_path pca_ending)
           (PathOps.name pca_file) <> None ->
         validated = (ws, Raise (WrongNumberOfFilesError ".pca" 2 1))).
Proof.
  intros Hsp Hwl Hpca Htxt validated checked.
  assert (Hv : validated =
               match pycontrol_files fs session_path whitelisted_files_found
                       (map fst pycontrol_ending_pattern_per_extension) [] with
               | Raise e => (ws, Raise e)
               | Ok _ => validated
               end).
  { destruct (pycontrol_files _ _ _ _ _) eqn:E; [reflexivity|].
    unfold validated.
    rewrite (validate_raw_behavioral_data_unfold _ _ _ _ _ _ _ _ Hsp Hwl), E.
    reflexivity. }
  rewrite (pycontrol_files_unfold _ _ _ _ _ Hpca Htxt) in Hv.
  change (FS.glob fs session_path "*.pca")
    with (FS.glob fs session_path ("*" ++ ".pca")) in Hv.
  change (FS.glob fs session_path "*.txt")
    with (FS.glob fs session_path ("*" ++ ".txt")) in Hv.
  fold (checked pca_ending ".pca") (checked txt_ending ".txt") in Hv.
  assert (Hcount : forall pca_files,
             checked pca_ending ".pca" = Ok pca_files ->
             List.length pca_files <> 2 ->
             validated =
             (ws, Raise (WrongNumberOfFilesError ".pca" 2 (List.length pca_files)))).
  { intros pca_files Hfiles Hn. rewrite Hv, Hfiles.
    destruct (Nat.eqb_spec (List.length pca_files) 2); [contradiction|reflexivity]. }
  split.
  - intros pca_files Hfiles. split; [now apply Hcount|].
    intros Hn txt_files Htf Hm. rewrite Hv, Hfiles, Hn, Htf. cbn [Nat.eqb].
    destruct (Nat.eqb_spec (List.length txt_files) 1); [contradiction|reflexivity].
  - intros pca_file Hglob Hw Hm.
    apply (Hcount [pca_file]); [|simpl; lia].
    unfold checked. cbn [append]. rewrite Hglob. cbn [pycontrol_files_with_extension].
    rewrite Hw. destruct (Re.re_match _ _); [reflexivity|contradiction].
Qed.


(** The same for a file the search finds. *)
Lemma stray_recording_file_found_raises
    (re_match_text : string -> string -> option bool) (fs : node)
    (session_path : Path) (subject_name : string)
    (allowed_extensions_not_in_root : list string)
    (ending : string) (spikeglx_filepath : Path) :
  let recording_folder_paths := FS.glob fs session_path "*_g?" in
  let validated :=
    snd (validate_raw_ephys_data_of_session re_match_text fs session_path
           subject_name allowed_extensions_not_in_root) in
  In ending spikeglx_endings ->
  In spikeglx_filepath (FS.glob fs session_path ("**/*" ++ ending)) ->
  (in_known_recording recording_folder_paths spikeglx_filepath = false ->
   (exists e, validated = Raise e)
   /\ (validate_session_path fs session_path subject_name = Ok true ->
       (forall recording_path,
           In recording_path recording_folder_paths ->
           validate_raw_ephys_recording re_match_text fs recording_path
             allowed_extensions_not_in_root = Ok true) ->
       exists stray,
         in_known_recording recording_folder_paths stray = false /\
         validated = Raise (ValueError (NotInAnyKnownRecordingFolder stray))))
  /\ (recording_folder_paths = [] ->
      (exists e, validated = Raise e)
      /\ (validate_session_path fs session_path subject_name = Ok true ->
          exists stray,
            validated = Raise (ValueError (NotInAnyKnownRecordingFolder stray)))).
Proof.
  intros recording_folder_paths validated He Hp.
  assert (Hgen : in_known_recording recording_folder_paths spikeglx_filepath = false ->
                 (exists e, validated = Raise e)
                 /\ (validate_session_path fs session_path subject_name = Ok true ->
                     (forall recording_path,
                         In recording_path recording_folder_paths ->
                         validate_raw_ephys_recording re_match_text fs recording_path
                           allowed_extensions_not_in_root = Ok true) ->
                     exists stray,
                       in_known_recording recording_folder_paths stray = false /\
                       validated = Raise (ValueError (NotInAnyKnownRecordingFolder stray)))).
  { intros Hk.
    destruct (spikeglx_files_raises fs session_path ending spikeglx_filepath He Hp Hk)
      as [e0 He0].
    split.
    - destruct validated as [files|e] eqn:E; [|now exists e]. exfalso.
      apply validate_raw_ephys_data_ok_inv in E as [_ [_ Hs]].
      unfold recording_folder_paths in He0. congruence.
    - intros Hsp Hrec.
      destruct (spikeglx_files_raise_inv _ _ _ He0) as [ending' [q [_ [_ [Hq ->]]]]].
      exists q. split; [exact Hq|].
      unfold validated, validate_raw_ephys_data_of_session.
      rewrite Hsp, bind_lift_ok.
      rewrite (snd_bind_ok _ _ _ (find_spikeglx_recording_folders_value fs session_path)).
      fold recording_folder_paths.
      replace (for_each _ recording_folder_paths) with (@Ok unit tt).
      + rewrite bind_lift_ok. unfold recording_folder_paths in *. rewrite He0. reflexivity.
      + symmetry. apply for_each_ok. intros r Hr. now rewrite (Hrec r Hr). }
  split; [exact Hgen|].
  intros Hnil.
  assert (Hk : in_known_recording recording_folder_paths spikeglx_filepath = false)
    by now rewrite Hnil.
  destruct (Hgen Hk) as [H1 H2]. split; [exact H1|].
  intros Hsp. destruct (H2 Hsp) as [q [_ Hq]]; [|now exists q].
  rewrite Hnil. intros r [].
Qed.

(** C6.  [validate_raw_ephys_data_of_session] raises whenever the search
    of the session finds an entry whose name has one of the four SpikeGLX
    endings and that is under none of the recording folders found; once
    the session path and the recording folders are accepted, what it
    raises is the ValueError of a file in no known recording folder.  So
    it is in particular when no recording folder is found. *)
Theorem stray_recording_file_raises
    (re_match_text : string -> string -> option bool) (fs : node)
    (session_path : Path) (subject_name : string)
    (allowed_extensions_not_in_root : list string)
    (ending : string) (spikeglx_filepath : Path) :
  let recording_folder_paths := FS.glob fs session_path "*_g?" in
  let validated :=
    snd (validate_raw_ephys_data_of_session re_match_text fs session_path
           subject_name allowed_extensions_not_in_root) in
  In ending spikeglx_endings ->
  below fs session_path spikeglx_filepath ->
  Str.endswith (PathOps.name spikeglx_filepath) ending = true ->
  (in_known_recording recording_folder_paths spikeglx_filepath = false ->
   (exists e, validated = Raise e)
   /\ (validate_session_path fs session_path subject_name = Ok true ->
       (forall recording_path,
           In recording_path recording_folder_paths ->
           validate_raw_ephys_recording re_match_text fs recording_path
             allowed_extensions_not_in_root = Ok true) ->
       exists stray,
         in_known_recording recording_folder_paths stray = false /\
         validated = Raise (ValueError (NotInAnyKnownRecordingFolder stray))))
  /\ (recording_folder_paths = [] ->
      (exists e, validated = Raise e)
      /\ (validate_session_path fs session_path subject_name = Ok true ->
          exists stray,
            validated = Raise (ValueError (NotInAnyKnownRecordingFolder stray)))).
Proof.
  intros recording_folder_paths validated He Hb Hend.
  apply (stray_recording_file_found_raises re_match_text fs session_path subject_name
           allowed_extensions_not_in_root ending spikeglx_filepath He).
  apply In_glob_spikeglx; [exact He|]. now split.
Qed.

(** C8.  Once the session path is accepted, the whitelisted files are
    found and the loops over the extensions have returned their files:
    without the folder run_task-task_files the validator returns those
    files, after the warning when it is asked for; with that folder, no
    .py file in it raises a FileNotFoundError, more than one raises a
    ValueError, and exactly one is appended to the files returned. *)
Theorem task_folder_of_session
    (find_whitelisted : node -> Path -> list string -> M (list Path))
    (fs : node) (session_path : Path) (subject_name : string)
    (whitelisted_files_in_root : list string) (warn_if_no_pycontrol_py_folder : bool)
    (ws : list warning) (whitelisted_files_found behavioral_data_files : list Path) :
  validate_session_path fs session_path subject_name = Ok true ->
  find_whitelisted fs session_path whitelisted_files_in_root
  = (ws, Ok whitelisted_files_found) ->
  pycontrol_files fs session_path whitelisted_files_found
    (map fst pycontrol_ending_pattern_per_extension) [] = Ok behavioral_data_files ->
  let validated :=
    validate_raw_behavioral_data_of_session find_whitelisted fs session_path
      subject_name whitelisted_files_in_root warn_if_no_pycontrol_py_folder in
  let py_folder := session_path // "run_task-task_files" in
  (FS.exists_ fs py_folder = false ->
   validated =
   ((ws ++ if warn_if_no_pycontrol_py_folder
           then [NoPyControlTaskFolder session_path] else [])%list,
    Ok behavioral_data_files))
  /\ (FS.exists_ fs py_folder = true ->
      (FS.glob fs py_folder "*.py" = [] ->
       validated = (ws, Raise (FileNotFoundError (NoPyFile session_path))))
      /\ (1 < List.length (FS.glob fs py_folder "*.py") ->
          validated = (ws, Raise (ValueError (MoreThanOnePyFile session_path))))
      /\ (forall task_file,
             FS.glob fs py_folder "*.py" = [task_file] ->
             validated = (ws, Ok (behavioral_data_files ++ [task_file])%list))).
Proof.
  intros Hsp Hwl Hfiles validated py_folder. unfold validated.
  rewrite (validate_raw_behavioral_data_unfold _ _ _ _ _ _ _ _ Hsp Hwl), Hfiles.
  cbv zeta. fold py_folder. split.
  - intros ->. reflexivity.
  - intros ->. split; [|split].
    + intros ->. reflexivity.
    + destruct (FS.glob fs py_folder "*.py") as [|f [|g rest]]; simpl; [lia|lia|reflexivity].
    + intros task_file ->. reflexivity.
Qed.

(** ** The claims on the sample sessions *)

Lemma validate_date_format_round_trip_witness :
  validate_session_path Examples.complete_session Examples.session_path "M016"
  = Ok true.
Proof.
  apply (proj2 (proj2 (proj2 validate_date_format_round_trip))).
  split; [reflexivity|].
  exists "2023_08_15_16_00". split; [reflexivity|].
  eexists. split; vm_compute; reflexivity.
Defined.

Lemma misplaced_video_file_raises_witness :
  (exists e,
      snd (validate_raw_videos_of_session Examples.session_with_stray_avi
             Examples.session_path "M016" true) = Raise e)
  /\ validate_raw_videos_of_session Examples.session_without_task_folder
       Examples.session_path "M016" true
     = ([NoVideoFolder Examples.session_path], Ok []).
Proof.
  split.
  - apply (proj1 (misplaced_video_file_raises Examples.session_with_stray_avi
                    Examples.session_path "M016" true)).
    exists (Examples.session_path // "videos" // "M016_2023_08_15_16_00_camera_1.avi").
    split; [|split; [left; reflexivity|reflexivity]].
    exists ["videos"; "M016_2023_08_15_16_00_camera_1.avi"].
    split; [discriminate|split; reflexivity].
  - destruct (proj2 (misplaced_video_file_raises Examples.session_without_task_folder
                       Examples.session_path "M016" true) eq_refl eq_refl)
      as [Hw [_ Hv]].
    rewrite (surjective_pairing (validate_raw_videos_of_session _ _ _ _)), Hw, Hv.
    + reflexivity.
    + intros p [Hb [[He|Hn] _]].
      * assert (H : In p (FS.glob Examples.session_without_task_folder
                            Examples.session_path "**/*.avi"))
          by (apply (In_glob_ending _ _ ".avi" p eq_refl eq_refl); now split).
        vm_compute in H. exact H.
      * assert (H : In p (FS.glob Examples.session_without_task_folder
                            Examples.session_path "**/metadata.csv"))
          by (apply (In_glob_named _ _ "metadata.csv" p eq_refl eq_refl); now split).
        vm_compute in H. exact H.
Defined.

Lemma wrong_number_of_pycontrol_files_witness :
  validate_raw_behavioral_data_of_session find_whitelisted_files_in_root
    Examples.session_with_one_pca Examples.session_path "M016" ["comment.txt"] true
  = ([], Raise (WrongNumberOfFilesError ".pca" 2 1)).
Proof.
  refine (proj2 (wrong_number_of_pycontrol_files find_whitelisted_files_in_root
                   Examples.session_with_one_pca Examples.session_path "M016"
                   ["comment.txt"] true [] [] _ _ eq_refl eq_refl eq_refl eq_refl)
            (Examples.session_path // fst Examples.pca_x) eq_refl eq_refl _).
  vm_compute. discriminate.
Defined.

Lemma stray_recording_file_raises_witness :
  exists stray,
    snd (validate_raw_ephys_data_of_session re_match_plain
           Examples.session_with_stray_bin Examples.session_path "M016" [".txt"])
    = Raise (ValueError (NotInAnyKnownRecordingFolder stray)).
Proof.
  refine (proj2 (proj2 (stray_recording_file_raises re_match_plain
                          Examples.session_with_stray_bin Examples.session_path
                          "M016" [".txt"] ".ap.bin"
                          (Examples.session_path // "backup"
                           // "M016_2023_08_15_16_00_g0_t0.imec0.ap.bin") _ _ eq_refl)
                   eq_refl) eq_refl).
  - vm_compute. tauto.
  - exists ["backup"; "M016_2023_08_15_16_00_g0_t0.imec0.ap.bin"].
    split; [discriminate|split; reflexivity].
Defined.

Lemma task_folder_of_session_witness :
  validate_raw_behavioral_data_of_session find_whitelisted_files_in_root
    Examples.session_without_task_folder Examples.session_path "M016" [] true
  = ([NoPyControlTaskFolder Examples.session_path],
     Ok [Examples.session_path // fst Examples.pca_x;
         Examples.session_path // fst Examples.pca_y;
         Examples.session_path // fst Examples.txt])
  /\ validate_raw_behavioral_data_of_session find_whitelisted_files_in_root
       Examples.session_with_two_task_files Examples.session_path "M016" [] true
     = ([], Raise (ValueError (MoreThanOnePyFile Examples.session_path))).
Proof.
  split.
  - exact (proj1 (task_folder_of_session find_whitelisted_files_in_root
                    Examples.session_without_task_folder Examples.session_path
                    "M016" [] true [] [] _ eq_refl eq_refl eq_refl) eq_refl).
  - refine (proj1 (proj2 (proj2 (task_folder_of_session find_whitelisted_files_in_root
                    Examples.session_with_two_task_files Examples.session_path
                    "M016" [] true [] [] _ eq_refl eq_refl eq_refl) eq_refl)) _).
    vm_compute. lia.
Defined.

(** * Further properties *)

(** ** Dates *)

Module DatetimeFacts.
Import Re Datetime DatetimeSpec.

Lemma first_match_seq (r1 r2 : regex) (s s1 s2 : string)
    (g1 g2 : list (string * string)) :
  first_match r1 s g1 s1 -> first_match r2 s1 g2 s2 ->
  first_match (Seq r1 r2) s (g1 ++ g2)%list s2.
Proof.
  intros [o1 H1] [o2 H2]. unfold first_match.
  rewrite ReFacts.matches_seq, H1. cbn [flat_map fst snd]. rewrite H2.
  cbn [map fst snd app]. eexists. reflexivity.
Qed.

Lemma consumed_app (t rest : string) : consumed (t ++ rest) rest = t.
Proof.
  unfold consumed. rewrite StrFacts.length_app.
  replace (String.length t + String.length rest - String.length rest)
    with (String.length t) by lia.
  induction t as [|c t IH]; simpl; [now destruct rest|now rewrite IH].
Qed.

Lemma first_match_group (name : string) (r : regex) (t rest : string)
    (g : list (string * string)) :
  first_match r (t ++ rest) g rest ->
  first_match (Group name r) (t ++ rest) ((name, t) :: g) rest.
Proof.
  intros [o H]. unfold first_match. cbn [matches]. rewrite H.
  cbn [map fst snd]. rewrite consumed_app. eexists. reflexivity.
Qed.

Lemma first_match_lit (l rest : string) : first_match (Lit l) (l ++ rest) [] rest.
Proof.
  unfold first_match. cbn [matches].
  rewrite StrFacts.startswith_app, StrFacts.drop_app_length. eexists. reflexivity.
Qed.

Lemma nat_of_digit_char (n : nat) : nat_of_ascii (digit_char n) = 48 + n mod 10.
Proof.
  unfold digit_char. apply nat_ascii_embedding.
  pose proof (Nat.mod_upper_bound n 10). lia.
Qed.

Lemma in_range_digit_char (n : nat) : in_range "0" "9" (digit_char n) = true.
Proof.
  unfold in_range. rewrite nat_of_digit_char.
  change (nat_of_ascii "0") with 48. change (nat_of_ascii "9") with 57.
  pose proof (Nat.mod_upper_bound n 10).
  apply andb_true_iff. split; apply Nat.leb_le; lia.
Qed.

Lemma digit_value_digit_char (n : nat) : digit_value (digit_char n) = Some (n mod 10).
Proof.
  unfold digit_value. rewrite in_range_digit_char, nat_of_digit_char.
  f_equal. lia.
Qed.

Lemma digit_char_not_blank (n : nat) : Ascii.eqb (digit_char n) " " = false.
Proof.
  apply Ascii.eqb_neq. intros H. apply (f_equal nat_of_ascii) in H.
  rewrite nat_of_digit_char in H. change (nat_of_ascii " ") with 32 in H. lia.
Qed.

Lemma first_match_digit (n : nat) (rest : string) :
  first_match digit (String (digit_char n) rest) [] rest.
Proof.
  unfold first_match, digit. cbn [matches]. rewrite in_range_digit_char.
  eexists. reflexivity.
Qed.

Lemma first_match_year (y : nat) (rest : string) :
  first_match (Seq digit (Seq digit (Seq digit digit))) (pad4 y ++ rest) [] rest.
Proof.
  unfold pad4, pad2. cbn [append].
  change (@nil (string * string)) with ([] ++ [] ++ [] ++ @nil (string * string))%list.
  eapply first_match_seq; [apply first_match_digit|].
  eapply first_match_seq; [apply first_match_digit|].
  eapply first_match_seq; apply first_match_digit.
Qed.

Tactic Notation "by_cases" ident(k) integer(bound) :=
  do bound (destruct k as [|k]; [solve [eexists; reflexivity | reflexivity]|]);
  exfalso; lia.

Lemma first_match_month (m : nat) (rest : string) :
  1 <= m <= 12 ->
  first_match (Alt (Seq (Lit "1") (Range "0" "2"))
              (Alt (Seq (Lit "0") (Range "1" "9")) (Range "1" "9")))
    (pad2 m ++ rest) [] rest.
Proof.
  intros H. unfold first_match.
  destruct m as [|m]; [exfalso; lia|]. by_cases m 12.
Qed.

Lemma first_match_day (d : nat) (rest : string) :
  1 <= d <= 31 ->
  first_match (Alt (Seq (Lit "3") (Range "0" "1"))
              (Alt (Seq (Range "1" "2") digit)
              (Alt (Seq (Lit "0") (Range "1" "9"))
              (Alt (Range "1" "9") (Seq (Lit " ") (Range "1" "9"))))))
    (pad2 d ++ rest) [] rest.
Proof.
  intros H. unfold first_match.
  destruct d as [|d]; [exfalso; lia|]. by_cases d 31.
Qed.

Lemma first_match_hour (h : nat) (rest : string) :
  h < 24 ->
  first_match (Alt (Seq (Lit "2") (Range "0" "3"))
              (Alt (Seq (Range "0" "1") digit) digit))
    (pad2 h ++ rest) [] rest.
Proof. intros H. unfold first_match. by_cases h 24. Qed.

Lemma first_match_minute (mi : nat) (rest : string) :
  mi < 60 ->
  first_match (Alt (Seq (Range "0" "5") digit) digit) (pad2 mi ++ rest) [] rest.
Proof. intros H. unfold first_match. by_cases mi 60. Qed.

Lemma int_pad2 (k : nat) : k < 60 -> int (pad2 k) = Some k.
Proof. intros H. by_cases k 60. Qed.

Lemma MAXYEAR_eq : MAXYEAR = 99 * 101.
Proof. reflexivity. Qed.

Lemma decimal_digits (y : nat) :
  y <= 99 * 101 ->
  10 * (10 * (10 * (10 * 0 + (y / 1000) mod 10) + (y / 100) mod 10)
        + (y / 10) mod 10) + y mod 10 = y.
Proof.
  intros H.
  pose proof (Nat.div_mod_eq y 10) as H0.
  pose proof (Nat.div_mod_eq (y / 10) 10) as H1.
  pose proof (Nat.div_mod_eq (y / 100) 10) as H2.
  replace (y / 10 / 10) with (y / 100) in H1
    by (rewrite Nat.Div0.div_div; reflexivity).
  replace (y / 100 / 10) with (y / 1000) in H2
    by (rewrite Nat.Div0.div_div; reflexivity).
  assert (H3 : y / 1000 < 10) by (apply Nat.Div0.div_lt_upper_bound; lia).
  rewrite (Nat.mod_small (y / 1000) 10 H3). lia.
Qed.

Lemma int_pad4 (y : nat) : y <= 99 * 101 -> int (pad4 y) = Some y.
Proof.
  intros H. unfold int, pad4, pad2. cbn [lstrip].
  rewrite digit_char_not_blank. cbn [int_digits].
  rewrite !digit_value_digit_char. f_equal. now apply decimal_digits.
Qed.

Lemma days_in_month_le (y m : nat) : days_in_month y m <= 31.
Proof.
  unfold days_in_month. destruct (is_leap y);
    do 12 (destruct m as [|m]; [lia|]); lia.
Qed.

Lemma decimal_pad4 (y : nat) : 1000 <= y -> decimal y = pad4 y.
Proof.
  intros H. unfold decimal.
  destruct (Nat.ltb_spec y 10); [lia|].
  destruct (Nat.ltb_spec y 100); [lia|].
  destruct (Nat.ltb_spec y 1000); [lia|reflexivity].
Qed.

Lemma decimal_length (y : nat) : y < 1000 -> String.length (decimal y) <= 3.
Proof.
  intros H. unfold decimal.
  destruct (Nat.ltb_spec y 10); [cbn; lia|].
  destruct (Nat.ltb_spec y 100); [cbn; lia|].
  destruct (Nat.ltb_spec y 1000); [cbn; lia|lia].
Qed.

(** What [strftime] gives: the year as it is, and the rest of the text
    as in the expected format. *)
Lemma strftime_expected (dt : datetime) :
  strftime dt EXPECTED_DATE_FORMAT = decimal (year dt) ++ Str.drop 4 (canonical dt).
Proof. reflexivity. Qed.

Lemma strftime_canonical (dt : datetime) :
  1000 <= year dt -> strftime dt EXPECTED_DATE_FORMAT = canonical dt.
Proof. intros H. rewrite strftime_expected, (decimal_pad4 _ H). reflexivity. Qed.

Lemma strftime_length (dt : datetime) :
  year dt < 1000 -> String.length (strftime dt EXPECTED_DATE_FORMAT) < 16.
Proof.
  intros H. rewrite strftime_expected, StrFacts.length_app.
  pose proof (decimal_length _ H).
  change (String.length (Str.drop 4 (canonical dt))) with 12. lia.
Qed.

Lemma canonical_length (dt : datetime) : String.length (canonical dt) = 16.
Proof. reflexivity. Qed.

(** A date and time that exists is read back from its text. *)
Lemma strptime_canonical (dt : datetime) :
  valid_datetime dt = true ->
  strptime (canonical dt) EXPECTED_DATE_FORMAT = Some dt.
Proof.
  unfold valid_datetime. intros H.
  apply andb_true_iff in H as [H Hmi]. apply andb_true_iff in H as [Hdate Hh].
  apply Nat.ltb_lt in Hmi, Hh.
  assert (Hd := Hdate). unfold date_exists in Hd.
  repeat (apply andb_true_iff in Hd as [Hd ?]).
  repeat match goal with H : (_ <=? _)%nat = true |- _ => apply Nat.leb_le in H end.
  rewrite MAXYEAR_eq in *. unfold MINYEAR in *.
  pose proof (days_in_month_le (year dt) (month dt)) as Hdim.
  destruct dt as [y m d h mi]. cbn [year month day hour minute] in *.
  assert (Hfirst : exists g,
             first_match
               (Seq (Group "Y" (Seq digit (Seq digit (Seq digit digit))))
               (Seq (Lit "_")
               (Seq (Group "m" (Alt (Seq (Lit "1") (Range "0" "2"))
                               (Alt (Seq (Lit "0") (Range "1" "9")) (Range "1" "9"))))
               (Seq (Lit "_")
               (Seq (Group "d" (Alt (Seq (Lit "3") (Range "0" "1"))
                               (Alt (Seq (Range "1" "2") digit)
                               (Alt (Seq (Lit "0") (Range "1" "9"))
                               (Alt (Range "1" "9") (Seq (Lit " ") (Range "1" "9")))))))
               (Seq (Lit "_")
               (Seq (Group "H" (Alt (Seq (Lit "2") (Range "0" "3"))
                               (Alt (Seq (Range "0" "1") digit) digit)))
               (Seq (Lit "_")
               (Seq (Group "M" (Alt (Seq (Range "0" "5") digit) digit))
                    (Lit ""))))))))))
               (canonical {| year := y; month := m; day := d; hour := h; minute := mi |})
               g "" /\
             g = [("Y", pad4 y); ("m", pad2 m); ("d", pad2 d);
                  ("H", pad2 h); ("M", pad2 mi)]).
  { eexists. split.
    - unfold canonical. cbn [year month day hour minute].
      eapply first_match_seq; [apply first_match_group, first_match_year|].
      eapply first_match_seq; [apply first_match_lit|].
      eapply first_match_seq; [apply first_match_group, first_match_month; lia|].
      eapply first_match_seq; [apply first_match_lit|].
      eapply first_match_seq; [apply first_match_group, first_match_day; lia|].
      eapply first_match_seq; [apply first_match_lit|].
      eapply first_match_seq; [apply first_match_group, first_match_hour; lia|].
      eapply first_match_seq; [apply first_match_lit|].
      eapply first_match_seq.
      + rewrite <- (StrFacts.app_empty_r (pad2 mi)) at 1.
        apply first_match_group, first_match_minute; lia.
      + apply (first_match_lit "" "").
    - reflexivity. }
  destruct Hfirst as [g [[others Hm] ->]].
  unfold strptime. cbn [EXPECTED_DATE_FORMAT format_regex directive_regex Ascii.eqb Bool.eqb].
  unfold re_match. rewrite Hm. cbn [m_rest m_groups String.eqb negb group Ascii.eqb Bool.eqb].
  rewrite (int_pad4 y), !int_pad2 by lia. rewrite Hdate. reflexivity.
Qed.

Lemma in_range_spec (lo hi c : ascii) :
  in_range lo hi c = true <->
  nat_of_ascii lo <= nat_of_ascii c <= nat_of_ascii hi.
Proof.
  unfold in_range. rewrite andb_true_iff, !Nat.leb_le. tauto.
Qed.

Lemma digit_value_inv (c : ascii) (v : nat) :
  digit_value c = Some v -> 48 <= nat_of_ascii c <= 57 /\ v = nat_of_ascii c - 48.
Proof.
  unfold digit_value. destruct (in_range "0" "9" c) eqn:E; [|discriminate].
  apply in_range_spec in E. intros [= <-]. split; [exact E|reflexivity].
Qed.

(** The number read from one or two characters that do not start with a
    blank. *)
Lemma int_one (c : ascii) (v : nat) :
  int (String c "") = Some v -> v = nat_of_ascii c - 48 /\ nat_of_ascii c <= 57.
Proof.
  unfold int. cbn [lstrip]. destruct (Ascii.eqb c " "); cbn; [discriminate|].
  destruct (digit_value c) as [d|] eqn:E; [|discriminate].
  apply digit_value_inv in E. intros [= <-]. lia.
Qed.

Lemma int_two (c1 c2 : ascii) (v : nat) :
  48 <= nat_of_ascii c1 ->
  int (String c1 (String c2 "")) = Some v ->
  v = 10 * (nat_of_ascii c1 - 48) + (nat_of_ascii c2 - 48) /\ nat_of_ascii c2 <= 57.
Proof.
  intros H1. unfold int. cbn [lstrip].
  destruct (Ascii.eqb_spec c1 " ") as [->|_]; [cbn in H1; lia|].
  cbn [int_digits].
  destruct (digit_value c1) as [d1|] eqn:E1; [|discriminate].
  destruct (digit_value c2) as [d2|] eqn:E2; [|discriminate].
  apply digit_value_inv in E1, E2. intros [= <-]. lia.
Qed.

Lemma consumed_one (c : ascii) (s : string) : consumed (String c s) s = String c "".
Proof. exact (consumed_app (String c "") s). Qed.

Lemma consumed_two (c1 c2 : ascii) (s : string) :
  consumed (String c1 (String c2 s)) s = String c1 (String c2 "").
Proof. exact (consumed_app (String c1 (String c2 "")) s). Qed.

Ltac ascii_codes :=
  change (nat_of_ascii "0") with 48 in *;
  change (nat_of_ascii "1") with 49 in *;
  change (nat_of_ascii "2") with 50 in *;
  change (nat_of_ascii "3") with 51 in *;
  change (nat_of_ascii "5") with 53 in *;
  change (nat_of_ascii "9") with 57 in *.

Ltac range_facts :=
  repeat match goal with
         | H : in_range _ _ _ = true |- _ => apply in_range_spec in H
         end;
  ascii_codes.

Ltac pair_facts :=
  repeat match goal with
         | H : (_, _) = (_, _) |- _ => inversion H; subst; clear H
         | H : False |- _ => destruct H
         | H : _ \/ _ |- _ => destruct H
         end.

Ltac int_facts :=
  repeat match goal with
         | H : int (consumed (String _ (String _ ?s)) ?s) = _ |- _ =>
             rewrite consumed_two in H; apply int_two in H;
             [destruct H|ascii_codes; lia]
         | H : int (consumed (String _ ?s) ?s) = _ |- _ =>
             rewrite consumed_one in H; apply int_one in H; destruct H
         end.

Lemma hour_matches_inv (s rest : string) (g : list (string * string)) :
  In (g, rest) (matches (Alt (Seq (Lit "2") (Range "0" "3"))
                        (Alt (Seq (Range "0" "1") digit) digit)) s) ->
  g = [] /\ forall v, int (consumed s rest) = Some v -> v < 24.
Proof.
  destruct s as [|c1 [|c2 s']]; cbn -[Ascii.eqb in_range consumed]; [tauto| |].
  - rewrite andb_true_r.
    destruct (Ascii.eqb "2" c1); destruct (in_range "0" "1" c1);
      destruct (in_range "0" "9" c1) eqn:E0;
      cbn -[consumed]; intros H; pair_facts; (split; [reflexivity|]); intros v Hv;
      subst; range_facts; int_facts; ascii_codes; lia.
  - rewrite andb_true_r.
    destruct (Ascii.eqb_spec "2" c1) as [Hc|_];
      cbn -[Ascii.eqb in_range consumed];
      destruct (in_range "0" "3" c2) eqn:E3;
      destruct (in_range "0" "1" c1) eqn:E1;
      cbn -[Ascii.eqb in_range consumed];
      destruct (in_range "0" "9" c2) eqn:E2;
      destruct (in_range "0" "9" c1) eqn:E0;
      cbn -[consumed]; intros H; pair_facts; (split; [reflexivity|]); intros v Hv;
      subst; range_facts; int_facts; ascii_codes; lia.
Qed.

Lemma minute_matches_inv (s rest : string) (g : list (string * string)) :
  In (g, rest) (matches (Alt (Seq (Range "0" "5") digit) digit) s) ->
  g = [] /\ forall v, int (consumed s rest) = Some v -> v < 60.
Proof.
  destruct s as [|c1 [|c2 s']]; cbn -[Ascii.eqb in_range consumed]; [tauto| |].
  - destruct (in_range "0" "5" c1); destruct (in_range "0" "9" c1) eqn:E0;
      cbn -[consumed]; intros H; pair_facts; (split; [reflexivity|]); intros v Hv;
      subst; range_facts; int_facts; ascii_codes; lia.
  - destruct (in_range "0" "5" c1) eqn:E1;
      cbn -[Ascii.eqb in_range consumed];
      destruct (in_range "0" "9" c2) eqn:E2;
      destruct (in_range "0" "9" c1) eqn:E0;
      cbn -[consumed]; intros H; pair_facts; (split; [reflexivity|]); intros v Hv;
      subst; range_facts; int_facts; ascii_codes; lia.
Qed.

Lemma In_matches_seq (r1 r2 : regex) (s rest : string) (g : list (string * string)) :
  In (g, rest) (matches (Seq r1 r2) s) ->
  exists g1 s1 g2,
    In (g1, s1) (matches r1 s) /\ In (g2, rest) (matches r2 s1) /\ g = (g1 ++ g2)%list.
Proof.
  rewrite ReFacts.matches_seq, in_flat_map. intros [[g1 s1] [H1 H2]].
  apply in_map_iff in H2 as [[g2 s2] [Heq H2]]. cbn [fst snd] in *.
  injection Heq as <- <-. now exists g1, s1, g2.
Qed.

Lemma In_matches_group (name : string) (r : regex) (s rest : string)
    (g : list (string * string)) :
  In (g, rest) (matches (Group name r) s) ->
  exists g', In (g', rest) (matches r s) /\ g = (name, consumed s rest) :: g'.
Proof.
  cbn [matches]. intros H. apply in_map_iff in H as [[g' s'] [Heq H]].
  cbn [fst snd] in Heq. injection Heq as <- <-. now exists g'.
Qed.

Lemma no_captures_lit (l : string) : no_captures (Lit l).
Proof.
  intros s g rest. cbn [matches]. destruct (Str.startswith s l); cbn; [|tauto].
  intros [[= <- _]|[]]. reflexivity.
Qed.

Lemma no_captures_range (lo hi : ascii) : no_captures (Range lo hi).
Proof.
  intros s g rest. cbn [matches]. destruct s as [|c s]; cbn; [tauto|].
  destruct (in_range lo hi c); cbn; [|tauto].
  intros [[= <- _]|[]]. reflexivity.
Qed.

Lemma no_captures_seq (r1 r2 : regex) :
  no_captures r1 -> no_captures r2 -> no_captures (Seq r1 r2).
Proof.
  intros H1 H2 s g rest H.
  apply In_matches_seq in H as [g1 [s1 [g2 [Hi1 [Hi2 ->]]]]].
  now rewrite (H1 _ _ _ Hi1), (H2 _ _ _ Hi2).
Qed.

Lemma no_captures_alt (r1 r2 : regex) :
  no_captures r1 -> no_captures r2 -> no_captures (Alt r1 r2).
Proof.
  intros H1 H2 s g rest H. cbn [matches] in H.
  apply in_app_or in H as [H|H]; [exact (H1 _ _ _ H)|exact (H2 _ _ _ H)].
Qed.

Create HintDb captures.
#[local] Hint Resolve no_captures_lit no_captures_range no_captures_seq
  no_captures_alt : captures.

(** What [strptime] returns is a date and time that exists. *)
Lemma strptime_valid (s : string) (dt : datetime) :
  strptime s EXPECTED_DATE_FORMAT = Some dt -> valid_datetime dt = true.
Proof.
  unfold strptime.
  cbn [EXPECTED_DATE_FORMAT format_regex directive_regex Ascii.eqb Bool.eqb].
  unfold re_match.
  match goal with |- context [matches ?r s] => destruct (matches r s) as [|[g rest] ms] eqn:Hm end;
    [discriminate|].
  cbn [m_rest m_groups].
  destruct (negb (String.eqb rest "")); [discriminate|].
  assert (Hin : In (g, rest) ((g, rest) :: ms)) by now left.
  rewrite <- Hm in Hin. clear Hm.
  apply In_matches_seq in Hin as [gY [sY [g1 [HY [Hin ->]]]]].
  apply In_matches_seq in Hin as [gu1 [su1 [g2 [Hu1 [Hin ->]]]]].
  apply In_matches_seq in Hin as [gm [sm [g3 [Hmo [Hin ->]]]]].
  apply In_matches_seq in Hin as [gu2 [su2 [g4 [Hu2 [Hin ->]]]]].
  apply In_matches_seq in Hin as [gd [sd [g5 [Hd [Hin ->]]]]].
  apply In_matches_seq in Hin as [gu3 [su3 [g6 [Hu3 [Hin ->]]]]].
  apply In_matches_seq in Hin as [gH [sH [g7 [HH [Hin ->]]]]].
  apply In_matches_seq in Hin as [gu4 [su4 [g8 [Hu4 [Hin ->]]]]].
  apply In_matches_seq in Hin as [gM [sM [g9 [HM [Hin ->]]]]].
  apply In_matches_group in HY as [gY' [HY ->]].
  apply In_matches_group in Hmo as [gm' [Hmo ->]].
  apply In_matches_group in Hd as [gd' [Hd ->]].
  apply In_matches_group in HH as [gH' [HH ->]].
  apply In_matches_group in HM as [gM' [HM ->]].
  apply hour_matches_inv in HH as [-> HH].
  apply minute_matches_inv in HM as [-> HM].
  assert (gY' = []) as -> by (revert HY; unfold digit; apply no_captures_seq; auto 10 with captures).
  assert (gm' = []) as -> by (revert Hmo; apply no_captures_alt; auto 10 with captures).
  assert (gd' = []) as -> by (revert Hd; unfold digit; apply no_captures_alt; auto 10 with captures).
  rewrite (no_captures_lit _ _ _ _ Hu1), (no_captures_lit _ _ _ _ Hu2),
    (no_captures_lit _ _ _ _ Hu3), (no_captures_lit _ _ _ _ Hu4),
    (no_captures_lit _ _ _ _ Hin).
  cbn [app group String.eqb Ascii.eqb Bool.eqb].
  destruct (int (consumed s sY)) as [y|]; [|discriminate].
  destruct (int (consumed su1 sm)) as [m|]; [|discriminate].
  destruct (int (consumed su2 sd)) as [d|]; [|discriminate].
  destruct (int (consumed su3 sH)) as [h|] eqn:Eh; [|discriminate].
  destruct (int (consumed su4 sM)) as [mi|] eqn:Emi; [|discriminate].
  destruct (date_exists y m d) eqn:Ed; [|discriminate].
  intros [= <-]. unfold valid_datetime. cbn [year month day hour minute].
  rewrite Ed. specialize (HH h eq_refl). specialize (HM mi eq_refl).
  apply Nat.ltb_lt in HH, HM. now rewrite HH, HM.
Qed.

Lemma In_matches_digit (s rest : string) (g : list (string * string)) :
  In (g, rest) (matches digit s) ->
  exists c, s = String c rest /\ in_range "0" "9" c = true.
Proof.
  unfold digit. cbn [matches]. destruct s as [|c s]; [intros []|].
  destruct (in_range "0" "9" c) eqn:E; [|intros []].
  intros [[= _ <-]|[]]. now exists c.
Qed.

(** A text that [strptime] reads starts with four digits. *)
Lemma strptime_year (s : string) (dt : datetime) :
  strptime s EXPECTED_DATE_FORMAT = Some dt ->
  exists c0 c1 c2 c3 rest,
    s = String c0 (String c1 (String c2 (String c3 rest))) /\
    in_range "0" "9" c1 = true /\ in_range "0" "9" c2 = true /\
    in_range "0" "9" c3 = true.
Proof.
  unfold strptime.
  cbn [EXPECTED_DATE_FORMAT format_regex directive_regex Ascii.eqb Bool.eqb].
  unfold re_match.
  match goal with |- context [matches ?r s] => destruct (matches r s) as [|[g rest] ms] eqn:Hm end;
    [discriminate|].
  intros _.
  assert (Hin : In (g, rest) ((g, rest) :: ms)) by now left.
  rewrite <- Hm in Hin. clear Hm.
  apply In_matches_seq in Hin as [gY [sY [g1 [HY [_ _]]]]].
  apply In_matches_group in HY as [gY' [HY _]].
  apply In_matches_seq in HY as [g0 [s0 [g0' [H0 [HY _]]]]].
  apply In_matches_seq in HY as [g1' [s1 [g1'' [H1 [HY _]]]]].
  apply In_matches_seq in HY as [g2 [s2 [g2' [H2 [H3 _]]]]].
  apply In_matches_digit in H0 as [c0 [-> _]].
  apply In_matches_digit in H1 as [c1 [-> E1]].
  apply In_matches_digit in H2 as [c2 [-> E2]].
  apply In_matches_digit in H3 as [c3 [-> E3]].
  now exists c0, c1, c2, c3, sY.
Qed.

Lemma canonical_tail (dt : datetime) :
  exists t, Str.drop 4 (canonical dt) = String "_" t.
Proof. eexists. reflexivity. Qed.

(** A text that [strptime] reads and [strftime] gives back is of a year
    with four digits. *)
Lemma round_trip_year (dt : datetime) :
  strptime (strftime dt EXPECTED_DATE_FORMAT) EXPECTED_DATE_FORMAT = Some dt ->
  1000 <= year dt.
Proof.
  intros Hp. apply strptime_year in Hp as [c0 [c1 [c2 [c3 [rest [Hs [E1 [E2 E3]]]]]]]].
  rewrite strftime_expected in Hs.
  destruct (canonical_tail dt) as [t Ht]. rewrite Ht in Hs.
  unfold decimal, pad2 in Hs.
  destruct (Nat.ltb_spec (year dt) 10);
    [cbn [append] in Hs; injection Hs as _ <- _; discriminate|].
  destruct (Nat.ltb_spec (year dt) 100);
    [cbn [append] in Hs; injection Hs as _ _ <- _; discriminate|].
  destruct (Nat.ltb_spec (year dt) 1000);
    [cbn [append] in Hs; injection Hs as _ _ _ <- _; discriminate|assumption].
Qed.

(** The texts [validate_date_format] accepts. *)
Lemma validate_date_format_ok_iff (s : string) :
  validate_date_format s = Ok true <->
  exists dt, valid_datetime dt = true /\ 1000 <= year dt /\ s = canonical dt.
Proof.
  split.
  - unfold validate_date_format.
    destruct (strptime s EXPECTED_DATE_FORMAT) as [dt|] eqn:Hp; [|discriminate].
    destruct (String.eqb_spec s (strftime dt EXPECTED_DATE_FORMAT)) as [Heq|];
      cbn; [|discriminate].
    intros _. exists dt. split; [exact (strptime_valid _ _ Hp)|].
    rewrite Heq in Hp. pose proof (round_trip_year _ Hp) as Hy.
    split; [exact Hy|]. rewrite Heq at 1. exact (strftime_canonical _ Hy).
  - intros [dt [Hv [Hy ->]]]. unfold validate_date_format.
    rewrite (strptime_canonical dt Hv), (strftime_canonical _ Hy), String.eqb_refl.
    reflexivity.
Qed.

(** The text of a date before the year 1000 is read and comes back
    shorter. *)
Lemma validate_date_format_short_year (dt : datetime) :
  valid_datetime dt = true -> year dt < 1000 ->
  validate_date_format (canonical dt) =
  Raise (ValueError (DoesNotMatchExpectedFormat (canonical dt)
                       (decimal (year dt) ++ Str.drop 4 (canonical dt)))).
Proof.
  intros Hv Hy. unfold validate_date_format.
  rewrite (strptime_canonical dt Hv).
  destruct (String.eqb_spec (canonical dt) (strftime dt EXPECTED_DATE_FORMAT))
    as [Heq|_]; [|reflexivity].
  exfalso. apply (f_equal String.length) in Heq.
  pose proof (strftime_length _ Hy). rewrite canonical_length in Heq. lia.
Qed.

(** X1.  [validate_date_format] returns True exactly for the texts of
    the dates and times that exist from the year 1000 on (year 1000 to
    9999, the day within its month, hour below 24, minute below 60)
    written with four digits for the year and two for each other field,
    underscores between.  Every other text raises a ValueError; so does
    the text of a date before the year 1000 written with four digits,
    which is read and comes back without the zeros before the year:
    0999_12_31_23_59 comes back as 999_12_31_23_59. *)
Theorem validate_date_format_accepts_canonical :
  (forall s : string,
      validate_date_format s = Ok true <->
      exists dt, valid_datetime dt = true /\ 1000 <= year dt /\ s = canonical dt)
  /\ (forall s : string,
         validate_date_format s <> Ok true ->
         exists expected,
           validate_date_format s =
           Raise (ValueError (DoesNotMatchExpectedFormat s expected)))
  /\ (forall dt expected,
         valid_datetime dt = true -> year dt < 1000 ->
         expected = decimal (year dt) ++ Str.drop 4 (canonical dt) ->
         strptime (canonical dt) EXPECTED_DATE_FORMAT = Some dt
         /\ String.length expected < String.length (canonical dt)
         /\ validate_date_format (canonical dt) =
            Raise (ValueError (DoesNotMatchExpectedFormat (canonical dt) expected)))
  /\ validate_date_format "0999_12_31_23_59" =
     Raise (ValueError (DoesNotMatchExpectedFormat "0999_12_31_23_59"
                          "999_12_31_23_59")).
Proof.
  split; [exact validate_date_format_ok_iff|]. split; [|split].
  - intros s Hne. unfold validate_date_format in *.
    destruct (strptime s EXPECTED_DATE_FORMAT) as [dt|]; [|eexists; reflexivity].
    destruct (negb _); [eexists; reflexivity|contradiction].
  - intros dt expected Hv Hy ->. split; [exact (strptime_canonical dt Hv)|]. split.
    + rewrite <- strftime_expected, canonical_length. exact (strftime_length _ Hy).
    + exact (validate_date_format_short_year dt Hv Hy).
  - vm_compute. reflexivity.
Qed.

End DatetimeFacts.

(** ** The session path *)

(** X2.  The checks of [validate_session_path] come in this order: a
    missing path raises FileNotFoundError whatever its name; an existing
    folder whose name does not start with the subject's name raises the
    ValueError of the start; one that goes on with a character other than
    an underscore raises the ValueError of the underscore; one that goes
    on with an underscore gives what [validate_date_format] gives on the
    rest, True or the ValueError of the date. *)
Theorem validate_session_path_errors
    (fs : node) (session_path : Path) (subject_name : string) :
  let folder_name := PathOps.name session_path in
  let validated := validate_session_path fs session_path subject_name in
  (FS.exists_ fs session_path = false ->
   validated = Raise (FileNotFoundError (SessionFolderDoesNotExist session_path)))
  /\ (FS.exists_ fs session_path = true ->
      (Str.startswith folder_name subject_name = false ->
       validated =
       Raise (ValueError (FolderNameHasToStartWithSubjectName folder_name subject_name)))
      /\ (forall (c : ascii) (rest : string),
             folder_name = subject_name ++ String c rest ->
             c <> "_"%char ->
             validated = Raise (ValueError (FolderNameHasToHaveUnderscore folder_name)))
      /\ (forall date : string,
             folder_name = subject_name ++ "_" ++ date ->
             validated = (validate_date_format date ~~ Ok true)
             /\ (validate_date_format date <> Ok true ->
                 exists expected,
                   validated =
                   Raise (ValueError (DoesNotMatchExpectedFormat date expected))))).
Proof.
  intros folder_name validated. unfold validated, validate_session_path.
  fold folder_name. split.
  - intros ->. reflexivity.
  - intros ->. cbn [negb]. split; [|split].
    + intros ->. reflexivity.
    + intros c rest Hn Hc. rewrite Hn, StrFacts.startswith_app, StrFacts.index_app_length.
      cbn. destruct (Ascii.eqb_spec c "_"); [contradiction|reflexivity].
    + intros date Hn.
      assert (Hv : (if negb (Str.startswith folder_name subject_name)
                    then Raise (ValueError (FolderNameHasToStartWithSubjectName
                                              folder_name subject_name))
                    else
                      match Str.index folder_name (String.length subject_name) with
                      | Some c =>
                          if negb (Ascii.eqb c "_")
                          then Raise (ValueError (FolderNameHasToHaveUnderscore folder_name))
                          else validate_date_format
                                 (Str.drop (String.length subject_name + 1) folder_name)
                               ~~ Ok true
                      | None => Raise IndexError
                      end) = (validate_date_format date ~~ Ok true)).
      { rewrite Hn, StrFacts.startswith_app, StrFacts.index_app_length. cbn.
        now rewrite StrFacts.drop_succ_app_length. }
      split; [exact Hv|]. intros Hne. rewrite Hv.
      destruct (validate_date_format date) as [b|e] eqn:Hd.
      * rewrite (validate_date_format_true _ _ Hd) in Hne. contradiction.
      * unfold validate_date_format in Hd.
        destruct (Datetime.strptime date EXPECTED_DATE_FORMAT).
        -- destruct (negb _); [|discriminate]. injection Hd as <-. eexists. reflexivity.
        -- injection Hd as <-. eexists. reflexivity.
Qed.

(** ** The whole session *)

Section Session.
Variable find_whitelisted : node -> Path -> list string -> M (list Path).
Variable re_match_text : string -> string -> option bool.
Variable fs : node.
Variable session_path : Path.
Variable subject_name : string.
Variables whitelisted_files_in_root allowed_extensions_not_in_root : list string.

Lemma validators_raise_on_session_path (e : exn) :
  validate_session_path fs session_path subject_name = Raise e ->
  (forall warn,
      validate_raw_behavioral_data_of_session find_whitelisted fs session_path
        subject_name whitelisted_files_in_root warn = ([], Raise e))
  /\ validate_raw_ephys_data_of_session re_match_text fs session_path subject_name
       allowed_extensions_not_in_root = ([], Raise e)
  /\ (forall warn,
         validate_raw_videos_of_session fs session_path subject_name warn
         = ([], Raise e)).
Proof.
  intros H. split; [|split]; intros;
    [unfold validate_raw_behavioral_data_of_session
    |unfold validate_raw_ephys_data_of_session
    |unfold validate_raw_videos_of_session];
    rewrite H; reflexivity.
Qed.

(** X3.  With at least one of the three toggles on, a session path that
    [validate_session_path] refuses makes [validate_raw_session] raise
    that same error, before any warning. *)
Theorem validate_raw_session_invalid_path
    (include_behavior include_ephys include_videos : bool) (e : exn) :
  validate_session_path fs session_path subject_name = Raise e ->
  include_behavior || include_ephys || include_videos = true ->
  validate_raw_session find_whitelisted re_match_text fs session_path subject_name
    include_behavior include_ephys include_videos
    whitelisted_files_in_root allowed_extensions_not_in_root
  = ([], Raise e).
Proof.
  intros H Hon. destruct (validators_raise_on_session_path e H) as [Hb [He Hv]].
  unfold validate_raw_session.
  destruct include_behavior; [now rewrite Hb|].
  destruct include_ephys; [now rewrite He|].
  destruct include_videos; [now rewrite Hv|discriminate].
Qed.

(** X4.  [validate_raw_session] returns exactly when each validator that
    is switched on returns, with their three lists (empty for one that is
    off) and their warnings in the order behaviour, electrophysiology,
    videos; otherwise it raises the error of the first of them that
    raises, after the warnings issued until then. *)
Theorem validate_raw_session_composes
    (include_behavior include_ephys include_videos : bool) :
  let validated :=
    validate_raw_session find_whitelisted re_match_text fs session_path subject_name
      include_behavior include_ephys include_videos
      whitelisted_files_in_root allowed_extensions_not_in_root in
  let behavior :=
    if include_behavior then
      validate_raw_behavioral_data_of_session find_whitelisted fs session_path
        subject_name whitelisted_files_in_root true
    else ret [] in
  let ephys :=
    if include_ephys then
      validate_raw_ephys_data_of_session re_match_text fs session_path subject_name
        allowed_extensions_not_in_root
    else ret [] in
  let videos :=
    if include_videos then
      validate_raw_videos_of_session fs session_path subject_name true
    else ret [] in
  (forall behavior_files ephys_files video_files,
      snd validated = Ok (behavior_files, ephys_files, video_files) <->
      snd behavior = Ok behavior_files /\
      snd ephys = Ok ephys_files /\
      snd videos = Ok video_files)
  /\ (forall behavior_files ephys_files video_files,
         snd validated = Ok (behavior_files, ephys_files, video_files) ->
         fst validated = (fst behavior ++ fst ephys ++ fst videos)%list)
  /\ (forall e, snd behavior = Raise e -> validated = (fst behavior, Raise e))
  /\ (forall behavior_files e,
         snd behavior = Ok behavior_files -> snd ephys = Raise e ->
         validated = ((fst behavior ++ fst ephys)%list, Raise e))
  /\ (forall behavior_files ephys_files e,
         snd behavior = Ok behavior_files -> snd ephys = Ok ephys_files ->
         snd videos = Raise e ->
         validated = ((fst behavior ++ fst ephys ++ fst videos)%list, Raise e)).
Proof.
  intros validated behavior ephys videos.
  assert (Hv : validated =
               bind behavior (fun behavior_files =>
               bind ephys (fun ephys_files =>
               bind videos (fun video_files =>
               ret (behavior_files, ephys_files, video_files))))) by reflexivity.
  rewrite Hv. clearbody behavior ephys videos. clear Hv validated.
  destruct behavior as [wb [bf|eb]], ephys as [we [ef|ee]], videos as [wv [vf|ev]];
    cbn; rewrite ?app_nil_r; repeat split; intros; try congruence;
    try (destruct H as [? [? ?]]; congruence);
    try (injection H as <- <- <-; auto).
Qed.
End Session.

(** ** One recording *)

Section Recording.
Variable re_match_text : string -> string -> option bool.
Variable fs : node.
Variable allowed : list string.

Lemma probe_subfolders_of_raise_inv (children : list Path) (e : exn) :
  probe_subfolders_of fs allowed children = Raise e ->
  e = ValueError OnlyFoldersAllowed.
Proof.
  induction children as [|c children IH]; simpl; [discriminate|].
  destruct (PathOps.is_hidden c); [exact IH|].
  destruct (Str.mem _ _); [exact IH|].
  destruct (FS.is_dir fs c); simpl; [|now intros [= <-]].
  destruct (probe_subfolders_of fs allowed children); simpl; [discriminate|].
  intros [= <-]. now apply IH.
Qed.

Lemma probe_subfolders_of_ok (children : list Path) :
  (forall child, In child children -> probe_candidate allowed child = true ->
                 FS.is_dir fs child = true) ->
  probe_subfolders_of fs allowed children =
  Ok (filter (probe_candidate allowed) children).
Proof.
  unfold probe_candidate.
  induction children as [|c children IH]; intros H; simpl; [reflexivity|].
  destruct (PathOps.is_hidden c) eqn:Hh; simpl.
  { apply IH. intros child Hc. apply H. now right. }
  destruct (Str.mem _ _) eqn:Hs; simpl.
  { apply IH. intros child Hc. apply H. now right. }
  rewrite (H c (or_introl eq_refl)) by now rewrite Hh, Hs.
  simpl. rewrite IH; [reflexivity|]. intros child Hc. apply H. now right.
Qed.

Lemma probe_subfolders_of_filter (children probes : list Path) :
  probe_subfolders_of fs allowed children = Ok probes ->
  probes = filter (probe_candidate allowed) children.
Proof.
  intros H. rewrite probe_subfolders_of_ok in H; [congruence|].
  intros child Hc Hp. apply (probe_subfolders_of_is_dir fs allowed _ _ H).
  apply (probe_subfolders_of_spec fs allowed _ _ H).
  unfold probe_candidate in Hp. apply andb_true_iff in Hp as [H1 H2].
  apply negb_true_iff in H1, H2. auto.
Qed.

(** The validator, for a recording folder with the expected name. *)
Lemma validate_raw_ephys_recording_named (gid_folder_path : Path) :
  recording_named gid_folder_path ->
  validate_raw_ephys_recording re_match_text fs gid_folder_path allowed =
  (children <~ iterdir fs gid_folder_path ;;
   probe_subfolders <~ probe_subfolders_of fs allowed children ;;
   for_each (fun probe_folder =>
               match re_match_text (PathOps.name gid_folder_path ++ "_imec\d$")
                       (PathOps.name probe_folder) with
               | None => Raise (ReError (PathOps.name gid_folder_path ++ "_imec\d$"))
               | Some false => Raise (ValueError (ProbeFolderNameDoesNotMatch probe_folder))
               | Some true => Ok tt
               end)
            probe_subfolders ~~
   for_each (fun probe_folder =>
               entries <~ iterdir fs probe_folder ;;
               require (set_eqb (map PathOps.name entries)
                          (expected_filenames gid_folder_path probe_folder))
                 (ValueError (FilesInProbeDirectoryDoNotMatch probe_folder)))
            probe_subfolders ~~
   Ok true).
Proof.
  intros [d [Hd Hn]]. unfold validate_raw_ephys_recording.
  rewrite Hn at 1. rewrite (extract_gid_complete _ d Hd). cbn [rbind].
  replace (PathOps.name (PathOps.parent gid_folder_path) ++ "_" ++ String "g" (String d ""))
    with (PathOps.name gid_folder_path) by (rewrite Hn; reflexivity).
  rewrite String.eqb_refl. reflexivity.
Qed.

Lemma validate_raw_ephys_recording_name (gid_folder_path : Path) :
  validate_raw_ephys_recording re_match_text fs gid_folder_path allowed = Ok true ->
  recording_named gid_folder_path.
Proof.
  unfold validate_raw_ephys_recording.
  destruct (extract_gid _) as [gid|] eqn:Hg; simpl; [|discriminate].
  apply extract_gid_sound in Hg as [d [Hd [-> _]]].
  destruct (require _ _) as [[]|] eqn:Hr; simpl; [|discriminate].
  apply require_ok, String.eqb_eq in Hr.
  intros _. exists d. split; [exact Hd|exact Hr].
Qed.

(** X5.  [validate_raw_ephys_recording] returns True exactly when the
    folder is a directory named after its parent folder with [_g] and one
    digit, and every entry of it that is neither hidden nor of an allowed
    extension is a directory whose name the probe pattern matches and
    which holds exactly the four expected names.  In particular a
    recording folder without such entries passes. *)
Theorem validate_raw_ephys_recording_iff (gid_folder_path : Path) :
  validate_raw_ephys_recording re_match_text fs gid_folder_path allowed = Ok true <->
  recording_named gid_folder_path /\
  FS.is_dir fs gid_folder_path = true /\
  forall c,
    In c (FS.listdir fs gid_folder_path) ->
    probe_candidate allowed (gid_folder_path // c) = true ->
    FS.is_dir fs (gid_folder_path // c) = true /\
    re_match_text (PathOps.name gid_folder_path ++ "_imec\d$") c = Some true /\
    set_eqb (FS.listdir fs (gid_folder_path // c))
      (expected_filenames gid_folder_path (gid_folder_path // c)) = true.
Proof.
  split.
  - intros H. split; [exact (validate_raw_ephys_recording_name _ H)|].
    pose proof (validate_raw_ephys_recording_inv _ _ _ _ H) as [probes [Hp [Hre Hset]]].
    assert (Hdir : FS.is_dir fs gid_folder_path = true).
    { unfold validate_raw_ephys_recording in H.
      destruct (extract_gid _); simpl in H; [|discriminate].
      destruct (require _ _); simpl in H; [|discriminate].
      destruct (iterdir fs gid_folder_path) eqn:Hit; simpl in H; [|discriminate].
      now apply iterdir_listdir in Hit. }
    split; [exact Hdir|]. intros c Hc Hcand.
    assert (Hin : In (gid_folder_path // c) probes).
    { rewrite (probe_subfolders_of_filter _ _ Hp). apply filter_In.
      split; [|exact Hcand]. apply in_map_iff. now exists c. }
    split; [exact (probe_subfolders_of_is_dir _ _ _ _ Hp _ Hin)|]. split.
    + specialize (Hre _ Hin). now rewrite PathFacts.name_joinpath in Hre.
    + now apply Hset.
  - intros [Hn [Hdir Hall]].
    rewrite (validate_raw_ephys_recording_named _ Hn).
    rewrite (iterdir_is_dir _ _ Hdir). cbn [rbind].
    rewrite probe_subfolders_of_ok.
    2:{ intros child Hc Hcand. apply in_map_iff in Hc as [c [<- Hc]].
        now apply Hall. }
    cbn [rbind].
    assert (Hprobe : forall p,
               In p (filter (probe_candidate allowed)
                       (map (fun c => gid_folder_path // c)
                          (FS.listdir fs gid_folder_path))) ->
               exists c, p = gid_folder_path // c /\
                         In c (FS.listdir fs gid_folder_path) /\
                         probe_candidate allowed (gid_folder_path // c) = true).
    { intros p Hp. apply filter_In in Hp as [Hp Hcand].
      apply in_map_iff in Hp as [c [<- Hc]]. now exists c. }
    replace (for_each _ _) with (@Ok unit tt).
    2:{ symmetry. apply for_each_ok. intros p Hp.
        destruct (Hprobe p Hp) as [c [-> [Hc Hcand]]].
        destruct (Hall c Hc Hcand) as [_ [Hre _]].
        now rewrite PathFacts.name_joinpath, Hre. }
    cbn [rbind].
    replace (for_each _ _) with (@Ok unit tt); [reflexivity|].
    symmetry. apply for_each_ok. intros p Hp.
    destruct (Hprobe p Hp) as [c [-> [Hc Hcand]]].
    destruct (Hall c Hc Hcand) as [Hd [_ Hset]].
    rewrite (iterdir_is_dir _ _ Hd). cbn [rbind]. rewrite map_map.
    erewrite map_ext; [rewrite map_id, Hset; reflexivity|].
    intros a. apply PathFacts.name_joinpath.
Qed.

Lemma append_inj_l (p q t : string) : p ++ t = q ++ t -> p = q.
Proof.
  revert q. induction p as [|a p IH]; intros q H.
  - destruct q as [|b q]; [reflexivity|]. exfalso.
    apply (f_equal String.length) in H. cbn in H.
    rewrite StrFacts.length_app in H. lia.
  - destruct q as [|b q].
    + exfalso. apply (f_equal String.length) in H. cbn in H.
      rewrite StrFacts.length_app in H. lia.
    + cbn in H. injection H as -> H. f_equal. now apply IH.
Qed.

(** X6.  The errors of [validate_raw_ephys_recording] before it looks at
    the probes: a name ending in [_g] and a digit whose start is not the
    parent folder's name raises the ValueError of the folder name; with
    the expected name, a regular file raises NotADirectoryError, a missing
    path FileNotFoundError, and a directory holding an entry that is
    neither hidden, nor of an allowed extension, nor a directory raises
    the ValueError that only folders are allowed. *)
Theorem validate_raw_ephys_recording_errors (gid_folder_path : Path) :
  let validated :=
    validate_raw_ephys_recording re_match_text fs gid_folder_path allowed in
  let folder_name := PathOps.name gid_folder_path in
  let session_name := PathOps.name (PathOps.parent gid_folder_path) in
  (forall (pre : string) (d : ascii),
      is_digit d = true ->
      folder_name = pre ++ gid_token d ->
      pre <> session_name ->
      validated =
      Raise (ValueError (FolderNameDoesNotMatch folder_name
                           (session_name ++ "_" ++ String "g" (String d "")))))
  /\ (recording_named gid_folder_path ->
      (FS.is_file fs gid_folder_path = true ->
       validated = Raise (NotADirectoryError gid_folder_path))
      /\ (FS.exists_ fs gid_folder_path = false ->
          validated = Raise (FileNotFoundError (NoSuchFileOrDirectory gid_folder_path)))
      /\ (FS.is_dir fs gid_folder_path = true ->
          (exists c,
              In c (FS.listdir fs gid_folder_path) /\
              probe_candidate allowed (gid_folder_path // c) = true /\
              FS.is_dir fs (gid_folder_path // c) = false) ->
          validated = Raise (ValueError OnlyFoldersAllowed))).
Proof.
  intros validated folder_name session_name. split.
  - intros pre d Hd Hn Hpre. unfold validated, validate_raw_ephys_recording.
    fold folder_name session_name. rewrite Hn at 1.
    rewrite (extract_gid_complete _ d Hd). cbn [rbind].
    destruct (String.eqb_spec folder_name
                (session_name ++ "_" ++ String "g" (String d ""))) as [Heq|_];
      [|reflexivity].
    exfalso. apply Hpre. rewrite Hn in Heq.
    exact (append_inj_l pre session_name (gid_token d) Heq).
  - intros Hn. unfold validated.
    rewrite (validate_raw_ephys_recording_named _ Hn). split; [|split].
    + unfold FS.is_file, iterdir.
      destruct (FS.lookup fs gid_folder_path) as [[|es]|]; try discriminate.
      reflexivity.
    + unfold FS.exists_, iterdir.
      destruct (FS.lookup fs gid_folder_path) as [[|es]|]; try discriminate.
      reflexivity.
    + intros Hdir [c [Hc [Hcand Hnd]]].
      rewrite (iterdir_is_dir _ _ Hdir). cbn [rbind].
      destruct (probe_subfolders_of fs allowed _) as [probes|e] eqn:Hp.
      * exfalso.
        assert (Hin : In (gid_folder_path // c) probes).
        { rewrite (probe_subfolders_of_filter _ _ Hp). apply filter_In.
          split; [|exact Hcand]. apply in_map_iff. now exists c. }
        rewrite (probe_subfolders_of_is_dir _ _ _ _ Hp _ Hin) in Hnd. discriminate.
      * now rewrite (probe_subfolders_of_raise_inv _ _ Hp).
Qed.
End Recording.

(** X14.  For an entry of the recording folder that is neither hidden
    nor of an allowed extension, which the validator takes for the folder
    of a probe: [validate_raw_ephys_recording] returns True only if the
    entry is a directory whose name the probe pattern matches and the
    names inside it are exactly the four names made of the recording
    folder's name, [_t0.], the last field of the entry's name between
    underscores and the endings .lf.meta, .lf.bin, .ap.meta and .ap.bin;
    when one of the four is missing, or a further entry of any kind is
    there, such as a folder of kilosort output, it raises. *)
Theorem probe_folder_holds_exactly_the_four_files
    (re_match_text : string -> string -> option bool) (fs : node)
    (gid_folder_path : Path) (allowed_extensions_not_in_root : list string)
    (c : string) :
  let probe_folder := gid_folder_path // c in
  let imec_str := last (Str.split "_" c) "" in
  let recording_folder_name := PathOps.name gid_folder_path in
  In c (FS.listdir fs gid_folder_path) ->
  PathOps.is_hidden probe_folder = false ->
  Str.mem (PathOps.suffix probe_folder) allowed_extensions_not_in_root = false ->
  (validate_raw_ephys_recording re_match_text fs gid_folder_path
     allowed_extensions_not_in_root = Ok true ->
   FS.is_dir fs probe_folder = true /\
   re_match_text (recording_folder_name ++ "_imec\d$") c = Some true /\
   forall n, In n (FS.listdir fs probe_folder) <->
             n = recording_folder_name ++ "_t0." ++ imec_str ++ ".lf.meta" \/
             n = recording_folder_name ++ "_t0." ++ imec_str ++ ".lf.bin" \/
             n = recording_folder_name ++ "_t0." ++ imec_str ++ ".ap.meta" \/
             n = recording_folder_name ++ "_t0." ++ imec_str ++ ".ap.bin")
  /\ (forall n,
         (In n (expected_filenames gid_folder_path probe_folder) /\
          ~ In n (FS.listdir fs probe_folder)) \/
         (In n (FS.listdir fs probe_folder) /\
          ~ In n (expected_filenames gid_folder_path probe_folder)) ->
         exists e, validate_raw_ephys_recording re_match_text fs gid_folder_path
                     allowed_extensions_not_in_root = Raise e).
Proof.
  intros probe_folder imec_str recording_folder_name Hc Hh Hs.
  assert (Hok : validate_raw_ephys_recording re_match_text fs gid_folder_path
                  allowed_extensions_not_in_root = Ok true ->
                FS.is_dir fs probe_folder = true /\
                re_match_text (recording_folder_name ++ "_imec\d$") c = Some true /\
                forall n, In n (FS.listdir fs probe_folder) <->
                          In n (expected_filenames gid_folder_path probe_folder)).
  { intros H. apply validate_raw_ephys_recording_inv in H as [probes [Hp [Hre Hset]]].
    assert (Hin : In probe_folder probes).
    { apply (probe_subfolders_of_spec _ _ _ _ Hp). split; [|now split].
      apply in_map_iff. now exists c. }
    split; [exact (probe_subfolders_of_is_dir _ _ _ _ Hp _ Hin)|]. split.
    - specialize (Hre _ Hin). unfold probe_folder in Hre.
      now rewrite PathFacts.name_joinpath in Hre.
    - apply set_eqb_iff. now apply Hset. }
  split.
  - intros H. destruct (Hok H) as [Hd [Hre Hset]]. split; [assumption|]. split; [assumption|].
    intros n. rewrite Hset. unfold expected_filenames, expected_endings, probe_folder.
    rewrite PathFacts.name_joinpath. simpl.
    fold imec_str recording_folder_name. intuition congruence.
  - intros n Hn.
    destruct (validate_raw_ephys_recording re_match_text fs gid_folder_path
                allowed_extensions_not_in_root) as [b|e] eqn:E; [|now exists e].
    exfalso. pose proof (validate_raw_ephys_recording_true _ _ _ _ _ E) as ->.
    destruct (Hok eq_refl) as [_ [_ Hset]]. specialize (Hset n). tauto.
Qed.

(** ** Searches and small facts *)

Lemma take_drop (n : nat) (s : string) : Str.take n s ++ Str.drop n s = s.
Proof.
  revert s. induction n as [|n IH]; intros s; [reflexivity|].
  destruct s as [|c s]; [reflexivity|]. cbn. now rewrite IH.
Qed.

(** The names [*_g?] selects: anything, [_g] and one more character. *)
Lemma fnmatch_recording_pattern (c : string) :
  Re.fnmatch c "*_g?" = true <->
  exists (pre : string) (x : ascii), c = pre ++ "_g" ++ String x "".
Proof.
  rewrite ReFacts.fnmatch_matchesb. cbn [Re.translate Ascii.eqb Bool.eqb].
  rewrite ReFacts.matchesb_seq. split.
  - intros [t [Ht Hm]]. apply ReFacts.In_matches_star_any in Ht as [i [Hi ->]].
    exists (Str.take i c).
    assert (Hx : exists x, Str.drop i c = "_g" ++ String x "").
    { revert Hm. generalize (Str.drop i c). intros t.
      unfold ReFacts.matchesb.
      destruct t as [|a [|b [|x [|y t]]]]; cbn -[Ascii.eqb];
        repeat match goal with
               | |- context [Ascii.eqb ?u ?v] =>
                   destruct (Ascii.eqb_spec u v); cbn -[Ascii.eqb]
               end; try discriminate.
      intros _. subst. now exists x. }
    destruct Hx as [x Hx]. exists x. rewrite <- Hx. symmetry. apply take_drop.
  - intros [pre [x ->]]. exists ("_g" ++ String x ""). split.
    + apply ReFacts.In_matches_star_any. exists (String.length pre). split.
      * rewrite StrFacts.length_app. lia.
      * symmetry. apply StrFacts.drop_app_length.
    + reflexivity.
Qed.

Lemma parent_joinpath (p : Path) (c : string) : PathOps.parent (p // c) = p.
Proof. unfold PathOps.parent, PathOps.joinpath. apply removelast_last. Qed.

Lemma is_relative_to_app (p rel : Path) : PathOps.is_relative_to (p ++ rel)%list p = true.
Proof.
  induction p as [|a p IH]; [reflexivity|]. cbn. now rewrite String.eqb_refl.
Qed.

Lemma In_glob_one (fs : node) (p : Path) (pat : string) (q : Path) :
  Str.split "/" pat = [pat] ->
  In q (FS.glob fs p pat) <->
  exists c, q = p // c /\ FS.exists_ fs (p // c) = true /\ Re.fnmatch c pat = true.
Proof. intros H. unfold FS.glob. rewrite H. apply FSFacts.In_select. Qed.

Lemma fst_bind_ok {A B : Type} (m : M A) (f : A -> M B) (a : A) :
  snd m = Ok a -> fst (bind m f) = (fst m ++ fst (f a))%list.
Proof. unfold bind. now intros ->. Qed.

(** What [**/*] selects: the entries below a folder. *)
Lemma In_glob_all (fs : node) (p q : Path) :
  In q (FS.glob fs p "**/*") <-> below fs p q.
Proof.
  rewrite (FSFacts.In_glob_recursive fs p "*" q eq_refl), below_iff. split.
  - intros [d [c [-> [Hex _]]]]. now exists d, c.
  - intros [d [c [-> Hex]]]. exists d, c. split; [reflexivity|]. split; [exact Hex|].
    change "*" with ("*" ++ ""). apply ReFacts.fnmatch_star_literal; [reflexivity|].
    unfold Str.endswith. cbn. rewrite Nat.sub_0_r.
    rewrite StrFacts.drop_all by lia. reflexivity.
Qed.

Lemma at_most_one {A : Type} (l : list A) (x y : A) :
  List.length l <= 1 -> In x l -> In y l -> y = x.
Proof.
  destruct l as [|a [|b l]]; cbn; [tauto| |lia].
  intros _ [<-|[]] [<-|[]]. reflexivity.
Qed.

Lemma joinpath_inj (p : Path) (c c' : string) : p // c = p // c' -> c = c'.
Proof.
  intros H. apply (f_equal PathOps.name) in H.
  now rewrite !PathFacts.name_joinpath in H.
Qed.


(** ** The electrophysiology of a session *)

(** X7.  [_find_spikeglx_recording_folders_in_session] never raises: it
    returns the entries of the session folder, files as well as folders,
    whose name ends in [_g] and one more character of any kind, and warns
    exactly when it returns more than one. *)
Theorem find_spikeglx_recording_folders (fs : node) (session_path : Path) :
  let found := _find_spikeglx_recording_folders_in_session fs session_path in
  (exists recording_folder_paths,
      snd found = Ok recording_folder_paths /\
      fst found = (if (1 <? List.length recording_folder_paths)%nat
                   then [MoreThanOneRecording session_path] else []) /\
      forall p,
        In p recording_folder_paths <->
        exists (pre : string) (x : ascii),
          p = session_path // (pre ++ "_g" ++ String x "") /\
          FS.exists_ fs p = true).
Proof.
  intros found. exists (FS.glob fs session_path "*_g?"). split; [|split].
  - apply find_spikeglx_recording_folders_value.
  - unfold found, _find_spikeglx_recording_folders_in_session. cbv zeta.
    destruct (1 <? _)%nat; reflexivity.
  - intros p. rewrite (In_glob_one fs session_path "*_g?" p eq_refl). split.
    + intros [c [-> [Hex Hm]]]. apply fnmatch_recording_pattern in Hm as [pre [x ->]].
      now exists pre, x.
    + intros [pre [x [-> Hex]]]. eexists. split; [reflexivity|]. split; [exact Hex|].
      apply fnmatch_recording_pattern. now exists pre, x.
Qed.

Section EphysSession.
Variable re_match_text : string -> string -> option bool.
Variable fs : node.
Variable session_path : Path.
Variable subject_name : string.
Variable allowed : list string.

(** X8.  When [validate_raw_ephys_data_of_session] returns, the session
    path is accepted, every entry found by [*_g?] is a directory named
    after the session with [_g] and a digit, the files returned are
    exactly the regular files below those directories, at any depth, and
    the one warning possible is that of more than one recording. *)
Theorem validate_raw_ephys_data_success (ephys_files : list Path) :
  let validated :=
    validate_raw_ephys_data_of_session re_match_text fs session_path
      subject_name allowed in
  let recording_folder_paths := FS.glob fs session_path "*_g?" in
  snd validated = Ok ephys_files ->
  validate_session_path fs session_path subject_name = Ok true
  /\ (forall recording_path,
         In recording_path recording_folder_paths ->
         FS.is_dir fs recording_path = true /\
         exists d, is_digit d = true /\
                   recording_path =
                   session_path // (PathOps.name session_path ++ gid_token d))
  /\ (forall p,
         In p ephys_files <->
         FS.is_file fs p = true /\
         exists recording_path,
           In recording_path recording_folder_paths /\ below fs recording_path p)
  /\ fst validated = (if (1 <? List.length recording_folder_paths)%nat
                      then [MoreThanOneRecording session_path] else []).
Proof.
  intros validated recs H.
  pose proof (validate_raw_ephys_data_ok_inv _ _ _ _ _ _ H) as [Hsp [Hrec Hstray]].
  split; [exact Hsp|]. split; [|split].
  - intros r Hr. specialize (Hrec r Hr).
    apply validate_raw_ephys_recording_iff in Hrec as [[d [Hd Hn]] [Hdir _]].
    split; [exact Hdir|]. exists d. split; [exact Hd|].
    apply (In_glob_one fs session_path "*_g?" r eq_refl) in Hr as [c [-> _]].
    rewrite PathFacts.name_joinpath, parent_joinpath in Hn. now rewrite Hn.
  - unfold validated, validate_raw_ephys_data_of_session in H.
    rewrite Hsp, bind_lift_ok in H.
    rewrite (snd_bind_ok _ _ _ (find_spikeglx_recording_folders_value fs session_path)) in H.
    fold recs in H.
    replace (for_each _ recs) with (@Ok unit tt) in H.
    2:{ symmetry. apply for_each_ok. intros r Hr. now rewrite (Hrec r Hr). }
    rewrite bind_lift_ok in H. fold recs in Hstray. rewrite Hstray, bind_lift_ok in H.
    cbn in H. injection H as <-.
    intros p. rewrite in_flat_map. split.
    + intros [r [Hr Hp]]. apply filter_In in Hp as [Hp Hf]. split; [exact Hf|].
      exists r. split; [exact Hr|].
      apply (FSFacts.In_glob_recursive fs r "*" p eq_refl) in Hp.
      apply below_iff. destruct Hp as [d [c [-> [Hex _]]]]. now exists d, c.
    + intros [Hf [r [Hr Hb]]]. exists r. split; [exact Hr|].
      apply filter_In. split; [|exact Hf].
      apply (FSFacts.In_glob_recursive fs r "*" p eq_refl).
      apply below_iff in Hb as [d [c [-> Hex]]]. exists d, c.
      split; [reflexivity|]. split; [exact Hex|].
      change "*" with ("*" ++ ""). apply ReFacts.fnmatch_star_literal; [reflexivity|].
      unfold Str.endswith. cbn. rewrite Nat.sub_0_r.
      rewrite StrFacts.drop_all by lia. reflexivity.
  - assert (Hfe : for_each (fun recording_path =>
                     validate_raw_ephys_recording re_match_text fs recording_path allowed
                     ~~ Ok tt) recs = Ok tt).
    { apply for_each_ok. intros r Hr. now rewrite (Hrec r Hr). }
    unfold validated, validate_raw_ephys_data_of_session.
    rewrite Hsp, bind_lift_ok.
    rewrite (fst_bind_ok _ _ _ (find_spikeglx_recording_folders_value fs session_path)).
    fold recs. fold recs in Hstray.
    rewrite Hfe, bind_lift_ok, Hstray, bind_lift_ok. cbn [ret fst]. rewrite app_nil_r.
    unfold _find_spikeglx_recording_folders_in_session. cbv zeta. fold recs.
    destruct (1 <? List.length recs)%nat; reflexivity.
Qed.

(** X9.  A session with an accepted path, no entry that [*_g?] finds and
    no entry with a SpikeGLX ending anywhere below it passes the
    electrophysiology validation with no file and no warning. *)
Theorem validate_raw_ephys_data_without_recordings :
  let validated :=
    validate_raw_ephys_data_of_session re_match_text fs session_path
      subject_name allowed in
  validate_session_path fs session_path subject_name = Ok true ->
  FS.glob fs session_path "*_g?" = [] ->
  (forall p ending,
      In ending spikeglx_endings -> below fs session_path p ->
      Str.endswith (PathOps.name p) ending = false) ->
  validated = ([], Ok []).
Proof.
  intros validated Hsp Hrecs Hno. unfold validated, validate_raw_ephys_data_of_session.
  rewrite Hsp, bind_lift_ok.
  unfold _find_spikeglx_recording_folders_in_session. cbv zeta. rewrite Hrecs.
  cbn [List.length Nat.ltb Nat.leb]. 
  assert (Hs : spikeglx_files_in_recording_folders fs session_path [] = Ok tt).
  { unfold spikeglx_files_in_recording_folders. apply for_each_ok.
    intros ending He. apply for_each_ok. intros p Hp. exfalso.
    apply (In_glob_spikeglx fs session_path ending p He) in Hp as [Hb Hend].
    rewrite (Hno p ending He Hb) in Hend. discriminate. }
  cbn -[spikeglx_files_in_recording_folders]. rewrite Hs. reflexivity.
Qed.
End EphysSession.

(** ** Videos with their folder *)

(** X10.  For an accepted session path whose video folder exists: without
    an entry ending in .avi in that folder the validator raises
    FileNotFoundError; and when it returns, the folder is a directory
    holding metadata.csv, at least one entry ending in .avi, and nothing
    but metadata.csv and entries that end in .avi and start with the
    session's name and [_camera_]; the files returned are exactly the
    regular files below the folder. *)
Theorem validate_raw_videos_with_folder
    (fs : node) (session_path : Path) (subject_name : string)
    (warn_if_no_video_folder : bool) :
  let video_folder_path := session_path // (PathOps.name session_path ++ "_cameras") in
  let expected_video_filename_start := PathOps.name session_path ++ "_camera_" in
  let avi_files := FS.glob fs video_folder_path "*.avi" in
  let validated :=
    validate_raw_videos_of_session fs session_path subject_name
      warn_if_no_video_folder in
  validate_session_path fs session_path subject_name = Ok true ->
  FS.exists_ fs video_folder_path = true ->
  (avi_files = [] ->
   validated = ([], Raise (FileNotFoundError (NoVideoFilesFound video_folder_path))))
  /\ (forall video_files,
         snd validated = Ok video_files ->
         FS.is_dir fs video_folder_path = true
         /\ avi_files <> []
         /\ In "metadata.csv" (FS.listdir fs video_folder_path)
         /\ (forall c,
                In c (FS.listdir fs video_folder_path) ->
                c = "metadata.csv" \/
                (Str.endswith c ".avi" = true /\
                 Str.startswith c expected_video_filename_start = true))
         /\ (forall p,
                In p video_files <->
                FS.is_file fs p = true /\ below fs video_folder_path p)).
Proof.
  intros video expected avi validated Hsp Hex.
  unfold validated, validate_raw_videos_of_session. cbv zeta.
  fold video expected. rewrite Hsp, bind_lift_ok, Hex. cbn [negb].
  change (FS.glob fs video ("*" ++ ".avi")) with avi.
  split.
  - intros ->. reflexivity.
  - intros files H.
    apply bind_ok_inv in H as [b [H0 H]].
    apply bind_ok_inv in H0 as [[] [Hnonempty H0]]. cbn [lift ret snd] in Hnonempty.
    apply bind_ok_inv in H0 as [[] [Hstart H0]]. cbn [lift ret snd] in Hstart.
    apply bind_ok_inv in H0 as [entries [Hit H0]]. cbn [lift ret snd] in Hit.
    apply bind_ok_inv in H0 as [[] [Hmeta H0]]. cbn [lift ret snd] in Hmeta.
    apply bind_ok_inv in H0 as [[] [Hlen H0]]. cbn [lift ret snd] in Hlen, H0.
    injection H0 as <-.
    apply bind_ok_inv in H as [[] [_ H]].
    apply bind_ok_inv in H as [[] [_ H]]. cbn [lift ret snd] in H. injection H as <-.
    apply require_ok in Hnonempty, Hmeta, Hlen.
    apply iterdir_listdir in Hit as [-> [_ Hdir]].
    apply PathFacts.mem_In in Hmeta.
    apply negb_true_iff, Nat.ltb_ge in Hlen.
    assert (Hrem : forall p,
               In p (remaining_files
                       (map (fun c => video // c) (FS.listdir fs video)) avi) <->
               (exists c, p = video // c /\ In c (FS.listdir fs video)) /\
               ~ In p avi).
    { intros p. unfold remaining_files. rewrite nodup_In, filter_In, in_map_iff.
      rewrite negb_true_iff, <- not_true_iff_false, PathFacts.mem_In.
      split; intros [[c [Hc Hin]] Hn]; (split; [exists c; auto|exact Hn]). }
    split; [exact Hdir|]. split; [|split; [|split]].
    + intros Hnil. rewrite Hnil in Hnonempty. discriminate.
    + apply Hrem in Hmeta as [[c [Hc Hin]] _]. apply joinpath_inj in Hc. now subst c.
    + intros c Hc.
      destruct (PathOps.mem (video // c) avi) eqn:Hm.
      * right. apply PathFacts.mem_In in Hm. split.
        -- apply (In_glob_one fs video "*.avi" _ eq_refl) in Hm as [c' [Heq [_ Hf]]].
           apply joinpath_inj in Heq. subst c'.
           now apply (ReFacts.fnmatch_star_literal c ".avi" eq_refl).
        -- pose proof (proj1 (for_each_ok _ _) Hstart _ Hm) as Hs.
           apply require_ok in Hs. now rewrite PathFacts.name_joinpath in Hs.
      * left. assert (Hin : In (video // c)
                             (remaining_files
                                (map (fun c => video // c) (FS.listdir fs video)) avi)).
        { apply Hrem. split; [now exists c|].
          intros Hin. apply PathFacts.mem_In in Hin. congruence. }
        pose proof (at_most_one _ _ _ Hlen Hmeta Hin) as Heq.
        now apply joinpath_inj in Heq.
    + intros p. rewrite filter_In, In_glob_all. tauto.
Qed.

(** ** Behavioural files *)

Lemma pycontrol_pattern_startswith (session_path : Path) (ending : Re.regex)
    (file_name : string) :
  Re.re_match (pycontrol_pattern_for_extension session_path ending) file_name <> None ->
  Str.startswith file_name (PathOps.name session_path) = true.
Proof.
  unfold pycontrol_pattern_for_extension, Re.re_match. cbv zeta.
  rewrite ReFacts.matches_seq. cbn [Re.matches].
  destruct (Str.startswith file_name (PathOps.name session_path)); [reflexivity|].
  cbn. congruence.
Qed.

Lemma pycontrol_files_with_extension_raise_inv (pattern : Re.regex)
    (extension : string) (whitelisted all : list Path) (e : exn) :
  pycontrol_files_with_extension pattern extension whitelisted all = Raise e ->
  exists ext_file,
    In ext_file all /\ PathOps.mem ext_file whitelisted = false /\
    Re.re_match pattern (PathOps.name ext_file) = None /\
    e = ValueError (FilenameDoesNotMatchPyControl extension ext_file).
Proof.
  induction all as [|f all IH]; simpl; [discriminate|].
  destruct (PathOps.mem f whitelisted) eqn:Hw.
  - intros H. destruct (IH H) as [g [Hg Hrest]]. exists g. split; [now right|exact Hrest].
  - destruct (Re.re_match pattern (PathOps.name f)) eqn:Hm.
    + destruct (pycontrol_files_with_extension _ _ _ all); simpl; [discriminate|].
      intros [= <-]. destruct (IH eq_refl) as [g [Hg Hrest]].
      exists g. split; [now right|exact Hrest].
    + intros [= <-]. exists f. split; [now left|]. auto.
Qed.

(** X11.  Once the session path is accepted and the whitelisted files
    are found, a .pca file of the session folder that is not whitelisted
    and whose name the pattern does not match (as when it does not start
    with the session's name) makes the validator raise the ValueError of
    the file name, for such a file, whatever the number of files. *)
Theorem pycontrol_file_name_error
    (find_whitelisted : node -> Path -> list string -> M (list Path))
    (fs : node) (session_path : Path) (subject_name : string)
    (whitelisted_files_in_root : list string) (warn_if_no_pycontrol_py_folder : bool)
    (ws : list warning) (whitelisted_files_found : list Path)
    (pca_ending : Re.regex) (ext_file : Path) :
  validate_session_path fs session_path subject_name = Ok true ->
  find_whitelisted fs session_path whitelisted_files_in_root
  = (ws, Ok whitelisted_files_found) ->
  getitem pycontrol_ending_pattern_per_extension ".pca" = Ok pca_ending ->
  In ext_file (FS.glob fs session_path "*.pca") ->
  PathOps.mem ext_file whitelisted_files_found = false ->
  (Re.re_match (pycontrol_pattern_for_extension session_path pca_ending)
     (PathOps.name ext_file) = None \/
   Str.startswith (PathOps.name ext_file) (PathOps.name session_path) = false) ->
  exists refused,
    In refused (FS.glob fs session_path "*.pca") /\
    PathOps.mem refused whitelisted_files_found = false /\
    Re.re_match (pycontrol_pattern_for_extension session_path pca_ending)
      (PathOps.name refused) = None /\
    validate_raw_behavioral_data_of_session find_whitelisted fs session_path
      subject_name whitelisted_files_in_root warn_if_no_pycontrol_py_folder
    = (ws, Raise (ValueError (FilenameDoesNotMatchPyControl ".pca" refused))).
Proof.
  intros Hsp Hwl Hpca Hin Hw Hbad.
  assert (Hnone : Re.re_match (pycontrol_pattern_for_extension session_path pca_ending)
                    (PathOps.name ext_file) = None).
  { destruct Hbad as [H|H]; [exact H|].
    destruct (Re.re_match _ _) eqn:E; [|reflexivity].
    pose proof (pycontrol_pattern_startswith session_path pca_ending
                  (PathOps.name ext_file)) as Hs.
    rewrite E, H in Hs. discriminate Hs. discriminate. }
  rewrite (validate_raw_behavioral_data_unfold _ _ _ _ _ _ _ _ Hsp Hwl).
  rewrite (pycontrol_files_unfold _ _ _ _ _ Hpca eq_refl).
  destruct (pycontrol_files_with_extension _ ".pca" _ _) as [found|e] eqn:E.
  - exfalso. apply pycontrol_files_with_extension_spec in E as [-> Hall].
    apply (Hall ext_file); [|exact Hnone].
    apply filter_In. split; [exact Hin|now rewrite Hw].
  - apply pycontrol_files_with_extension_raise_inv in E as [g [Hg [Hgw [Hgm ->]]]].
    exists g. auto.
Qed.

(** X12.  When [validate_raw_behavioral_data_of_session] returns, its
    list is the two .pca files and the one .txt file of the session
    folder that are not whitelisted, all named from the session's name
    on, followed by the one .py file of the task folder when that folder
    exists: three or four paths. *)
Theorem validate_raw_behavioral_data_success
    (find_whitelisted : node -> Path -> list string -> M (list Path))
    (fs : node) (session_path : Path) (subject_name : string)
    (whitelisted_files_in_root : list string) (warn_if_no_pycontrol_py_folder : bool)
    (behavioral_data_files : list Path) :
  snd (validate_raw_behavioral_data_of_session find_whitelisted fs session_path
         subject_name whitelisted_files_in_root warn_if_no_pycontrol_py_folder)
  = Ok behavioral_data_files ->
  let py_folder := session_path // "run_task-task_files" in
  exists whitelisted_files_found pca_files txt_files task_files,
    snd (find_whitelisted fs session_path whitelisted_files_in_root)
    = Ok whitelisted_files_found
    /\ behavioral_data_files = (pca_files ++ txt_files ++ task_files)%list
    /\ pca_files = filter (fun f => negb (PathOps.mem f whitelisted_files_found))
                          (FS.glob fs session_path "*.pca")
    /\ txt_files = filter (fun f => negb (PathOps.mem f whitelisted_files_found))
                          (FS.glob fs session_path "*.txt")
    /\ List.length pca_files = 2
    /\ List.length txt_files = 1
    /\ (forall f, In f (pca_files ++ txt_files)%list ->
                  exists c, f = session_path // c /\
                            Str.startswith c (PathOps.name session_path) = true)
    /\ ((FS.exists_ fs py_folder = false /\ task_files = []) \/
        (FS.exists_ fs py_folder = true /\
         FS.glob fs py_folder "*.py" = task_files /\ List.length task_files = 1)).
Proof.
  intros H py_folder.
  unfold validate_raw_behavioral_data_of_session in H.
  apply bind_ok_inv in H as [b [Hsp H]]. cbn [lift snd] in Hsp.
  apply bind_ok_inv in H as [wl [Hwl H]].
  apply bind_ok_inv in H as [files [Hfiles H]]. cbn [lift snd] in Hfiles.
  cbv zeta in H. fold py_folder in H.
  rewrite (pycontrol_files_unfold _ _ _ _ _ eq_refl eq_refl) in Hfiles.
  destruct (pycontrol_files_with_extension _ ".pca" _ _) as [pca|] eqn:Epca;
    [|discriminate].
  destruct (Nat.eqb_spec (List.length pca) 2) as [Hn2|]; [|discriminate].
  destruct (pycontrol_files_with_extension _ ".txt" _ _) as [txt|] eqn:Etxt;
    [|discriminate].
  destruct (Nat.eqb_spec (List.length txt) 1) as [Hn1|]; [|discriminate].
  injection Hfiles as <-.
  apply pycontrol_files_with_extension_spec in Epca as [Hpca Hpm].
  apply pycontrol_files_with_extension_spec in Etxt as [Htxt Htm].
  assert (Htask : exists task_files,
             behavioral_data_files = ((pca ++ txt) ++ task_files)%list /\
             ((FS.exists_ fs py_folder = false /\ task_files = []) \/
              (FS.exists_ fs py_folder = true /\
               FS.glob fs py_folder "*.py" = task_files /\
               List.length task_files = 1))).
  { destruct (FS.exists_ fs py_folder); cbn [negb] in H.
    - destruct (FS.glob fs py_folder "*.py") as [|t [|t' rest]];
        cbn in H; try discriminate.
      injection H as <-. exists [t]. split; [reflexivity|]. right. auto.
    - exists []. split.
      + destruct warn_if_no_pycontrol_py_folder; cbn in H; injection H as <-;
          now rewrite app_nil_r.
      + now left. }
  destruct Htask as [task [Hb Ht]].
  exists wl, pca, txt, task.
  split; [exact Hwl|]. split; [now rewrite Hb, app_assoc|].
  split; [exact Hpca|]. split; [exact Htxt|]. split; [exact Hn2|]. split; [exact Hn1|].
  split; [|exact Ht].
  intros f Hf. apply in_app_or in Hf as [Hf|Hf].
  - pose proof (Hpm f Hf) as Hm. rewrite Hpca in Hf. apply filter_In in Hf as [Hf _].
    apply (In_glob_one fs session_path "*.pca" f eq_refl) in Hf as [c [-> _]].
    exists c. split; [reflexivity|].
    rewrite PathFacts.name_joinpath in Hm. exact (pycontrol_pattern_startswith _ _ _ Hm).
  - pose proof (Htm f Hf) as Hm. rewrite Htxt in Hf. apply filter_In in Hf as [Hf _].
    apply (In_glob_one fs session_path "*.txt" f eq_refl) in Hf as [c [-> _]].
    exists c. split; [reflexivity|].
    rewrite PathFacts.name_joinpath in Hm. exact (pycontrol_pattern_startswith _ _ _ Hm).
Qed.

(** ** The further properties on the sample sessions *)

(** X13.  [validate_session_path] returns True exactly for the existing
    paths whose name is the subject's name, an underscore and the text of
    a date and time that exists from the year 1000 on; such a name has
    seventeen characters more than the subject's name.  An existing
    folder named with the text of an earlier date, four digits for the
    year, raises the ValueError of the date. *)
Theorem validate_session_path_accepts
    (fs : node) (session_path : Path) (subject_name : string) :
  (validate_session_path fs session_path subject_name = Ok true <->
   FS.exists_ fs session_path = true /\
   exists dt,
     DatetimeSpec.valid_datetime dt = true /\
     1000 <= Datetime.year dt /\
     PathOps.name session_path = subject_name ++ "_" ++ DatetimeSpec.canonical dt /\
     String.length (PathOps.name session_path) = String.length subject_name + 17)
  /\ (forall dt,
         FS.exists_ fs session_path = true ->
         DatetimeSpec.valid_datetime dt = true ->
         Datetime.year dt < 1000 ->
         PathOps.name session_path = subject_name ++ "_" ++ DatetimeSpec.canonical dt ->
         validate_session_path fs session_path subject_name =
         Raise (ValueError
                  (DoesNotMatchExpectedFormat (DatetimeSpec.canonical dt)
                     (Datetime.decimal (Datetime.year dt)
                      ++ Str.drop 4 (DatetimeSpec.canonical dt))))).
Proof.
  split.
  - rewrite validate_session_path_ok_iff. split.
    + intros [Hex [date [Hn Hd]]]. split; [exact Hex|].
      apply DatetimeFacts.validate_date_format_ok_iff in Hd as [dt [Hv [Hy ->]]].
      exists dt. split; [exact Hv|]. split; [exact Hy|]. split; [exact Hn|].
      rewrite Hn, StrFacts.length_app. cbn [String.length append].
      rewrite DatetimeFacts.canonical_length. lia.
    + intros [Hex [dt [Hv [Hy [Hn _]]]]]. split; [exact Hex|].
      exists (DatetimeSpec.canonical dt). split; [exact Hn|].
      apply DatetimeFacts.validate_date_format_ok_iff. now exists dt.
  - intros dt Hex Hv Hy Hn.
    pose proof (DatetimeFacts.validate_date_format_short_year dt Hv Hy) as Hd.
    remember (DatetimeSpec.canonical dt) as date eqn:Hdate.
    remember (Datetime.decimal (Datetime.year dt) ++ Str.drop 4 date) as expected.
    unfold validate_session_path.
    rewrite Hex, Hn, StrFacts.startswith_app, StrFacts.index_app_length. cbn.
    rewrite StrFacts.drop_succ_app_length, Hd. reflexivity.
Qed.

Lemma validate_date_format_accepts_canonical_witness :
  validate_date_format "2024_02_29_23_59" = Ok true
  /\ (exists expected,
         validate_date_format "2023_02_29_23_59" =
         Raise (ValueError (DoesNotMatchExpectedFormat "2023_02_29_23_59" expected)))
  /\ validate_date_format "0001_01_01_00_00" =
     Raise (ValueError (DoesNotMatchExpectedFormat "0001_01_01_00_00"
                          "1_01_01_00_00")).
Proof.
  split; [|split].
  - apply (proj2 (proj1 DatetimeFacts.validate_date_format_accepts_canonical
                    "2024_02_29_23_59")).
    exists Examples.a_datetime. split; [reflexivity|]. split; [|reflexivity].
    unfold Examples.a_datetime. cbn [Datetime.year]. apply Nat.leb_le. reflexivity.
  - apply (proj1 (proj2 DatetimeFacts.validate_date_format_accepts_canonical)
             "2023_02_29_23_59").
    vm_compute. discriminate.
  - apply (proj1 (proj2 (proj2 DatetimeFacts.validate_date_format_accepts_canonical))
             Examples.the_first_minute "1_01_01_00_00");
      [reflexivity|apply Nat.ltb_lt; reflexivity|reflexivity].
Defined.

Lemma validate_session_path_accepts_witness :
  validate_session_path Examples.complete_session Examples.session_path "M016"
  = Ok true
  /\ validate_session_path (Dir [("M016_0001_01_01_00_00", Dir [])])
       ["M016_0001_01_01_00_00"] "M016"
     = Raise (ValueError (DoesNotMatchExpectedFormat "0001_01_01_00_00"
                            "1_01_01_00_00")).
Proof.
  split.
  - apply (proj2 (proj1 (validate_session_path_accepts Examples.complete_session
                           Examples.session_path "M016"))).
    split; [reflexivity|].
    exists {| Datetime.year := 2023; Datetime.month := 8; Datetime.day := 15;
              Datetime.hour := 16; Datetime.minute := 0 |}.
    split; [reflexivity|]. split; [|split; reflexivity].
    cbn [Datetime.year]. apply Nat.leb_le. reflexivity.
  - apply (proj2 (validate_session_path_accepts
                    (Dir [("M016_0001_01_01_00_00", Dir [])])
                    ["M016_0001_01_01_00_00"] "M016")
             Examples.the_first_minute);
      [reflexivity|reflexivity|apply Nat.ltb_lt; reflexivity|reflexivity].
Defined.

Lemma validate_session_path_errors_witness :
  validate_session_path Examples.complete_session ["data"; "M017_2023_08_15_16_00"]
    "M017"
  = Raise (FileNotFoundError
             (SessionFolderDoesNotExist ["data"; "M017_2023_08_15_16_00"]))
  /\ validate_session_path Examples.complete_session Examples.session_path "M017"
     = Raise (ValueError (FolderNameHasToStartWithSubjectName
                            Examples.session_name "M017"))
  /\ validate_session_path Examples.complete_session Examples.session_path "M01"
     = Raise (ValueError (FolderNameHasToHaveUnderscore Examples.session_name)).
Proof.
  split; [|split].
  - exact (proj1 (validate_session_path_errors Examples.complete_session
                    ["data"; "M017_2023_08_15_16_00"] "M017") eq_refl).
  - exact (proj1 (proj2 (validate_session_path_errors Examples.complete_session
                           Examples.session_path "M017") eq_refl) eq_refl).
  - refine (proj1 (proj2 (proj2 (validate_session_path_errors
                                   Examples.complete_session
                                   Examples.session_path "M01") eq_refl))
              "6"%char "_2023_08_15_16_00" eq_refl _).
    discriminate.
Defined.

Lemma validate_raw_session_invalid_path_witness :
  validate_raw_session find_whitelisted_files_in_root re_match_plain
    Examples.complete_session Examples.session_path "M017" false true true [] []
  = ([], Raise (ValueError (FolderNameHasToStartWithSubjectName
                              Examples.session_name "M017"))).
Proof.
  apply (validate_raw_session_invalid_path find_whitelisted_files_in_root
           re_match_plain Examples.complete_session Examples.session_path "M017"
           [] [] false true true); reflexivity.
Defined.

Lemma validate_raw_session_composes_witness :
  exists behavior_files ephys_files video_files,
    snd (validate_raw_session find_whitelisted_files_in_root re_match_plain
           Examples.complete_session Examples.session_path "M016" true true true
           ["comment.txt"] [".txt"])
    = Ok (behavior_files, ephys_files, video_files).
Proof.
  do 3 eexists.
  apply (proj1 (validate_raw_session_composes find_whitelisted_files_in_root
                  re_match_plain Examples.complete_session Examples.session_path
                  "M016" ["comment.txt"] [".txt"] true true true)).
  repeat split; vm_compute; reflexivity.
Defined.

Lemma validate_raw_ephys_recording_iff_witness :
  validate_raw_ephys_recording re_match_plain Examples.session_with_empty_recording
    Examples.recording_path [".txt"] = Ok true.
Proof.
  apply (proj2 (validate_raw_ephys_recording_iff re_match_plain
                  Examples.session_with_empty_recording [".txt"]
                  Examples.recording_path)).
  split; [exists "0"%char; split; reflexivity|]. split; [reflexivity|].
  intros c [<-|[<-|[]]]; discriminate.
Defined.

Lemma probe_folder_holds_exactly_the_four_files_witness :
  (FS.is_dir Examples.complete_session
     (Examples.recording_path // Examples.probe_name) = true /\
   re_match_plain (PathOps.name Examples.recording_path ++ "_imec\d$")
     Examples.probe_name = Some true /\
   forall n,
     In n (FS.listdir Examples.complete_session
             (Examples.recording_path // Examples.probe_name)) <->
     n = "M016_2023_08_15_16_00_g0_t0.imec0.lf.meta" \/
     n = "M016_2023_08_15_16_00_g0_t0.imec0.lf.bin" \/
     n = "M016_2023_08_15_16_00_g0_t0.imec0.ap.meta" \/
     n = "M016_2023_08_15_16_00_g0_t0.imec0.ap.bin")
  /\ exists e,
       validate_raw_ephys_recording re_match_plain Examples.session_with_kilosort
         Examples.recording_path [".txt"] = Raise e.
Proof.
  split.
  - apply (proj1 (probe_folder_holds_exactly_the_four_files re_match_plain
                    Examples.complete_session Examples.recording_path [".txt"]
                    Examples.probe_name
                    (or_introl eq_refl) eq_refl eq_refl)).
    vm_compute. reflexivity.
  - apply (proj2 (probe_folder_holds_exactly_the_four_files re_match_plain
                    Examples.session_with_kilosort Examples.recording_path [".txt"]
                    Examples.probe_name
                    (or_introl eq_refl) eq_refl eq_refl)
             "M016_2023_08_15_16_00_g0_imec0_kilosort").
    right. split.
    + vm_compute. tauto.
    + vm_compute. intuition discriminate.
Defined.

Lemma validate_raw_ephys_recording_errors_witness :
  validate_raw_ephys_recording re_match_plain Examples.session_with_loose_file
    Examples.recording_path [".txt"] = Raise (ValueError OnlyFoldersAllowed)
  /\ validate_raw_ephys_recording re_match_plain Examples.session_with_recording_file
       Examples.recording_path [".txt"]
     = Raise (NotADirectoryError Examples.recording_path).
Proof.
  assert (Hn : recording_named Examples.recording_path)
    by (exists "0"%char; split; reflexivity).
  split.
  - apply (proj2 (proj2 (proj2 (validate_raw_ephys_recording_errors re_match_plain
                                  Examples.session_with_loose_file [".txt"]
                                  Examples.recording_path) Hn)) eq_refl).
    exists "loose.dat". split; [now left|]. split; reflexivity.
  - exact (proj1 (proj2 (validate_raw_ephys_recording_errors re_match_plain
                           Examples.session_with_recording_file [".txt"]
                           Examples.recording_path) Hn) eq_refl).
Defined.

Lemma validate_raw_ephys_data_success_witness :
  validate_session_path Examples.complete_session Examples.session_path "M016"
  = Ok true
  /\ FS.is_dir Examples.complete_session Examples.recording_path = true.
Proof.
  pose (ephys_files :=
          match snd (validate_raw_ephys_data_of_session re_match_plain
                       Examples.complete_session Examples.session_path "M016"
                       [".txt"]) with
          | Ok files => files
          | Raise _ => []
          end).
  assert (H : snd (validate_raw_ephys_data_of_session re_match_plain
                     Examples.complete_session Examples.session_path "M016"
                     [".txt"]) = Ok ephys_files) by (vm_compute; reflexivity).
  destruct (validate_raw_ephys_data_success re_match_plain Examples.complete_session
              Examples.session_path "M016" [".txt"] ephys_files H) as [Hsp [Hrec _]].
  split; [exact Hsp|].
  apply (Hrec Examples.recording_path). vm_compute. now left.
Defined.

Lemma validate_raw_ephys_data_without_recordings_witness :
  validate_raw_ephys_data_of_session re_match_plain
    Examples.session_without_task_folder Examples.session_path "M016" [".txt"]
  = ([], Ok []).
Proof.
  apply (validate_raw_ephys_data_without_recordings re_match_plain
           Examples.session_without_task_folder Examples.session_path "M016"
           [".txt"] eq_refl eq_refl).
  intros p ending He Hb.
  destruct (Str.endswith (PathOps.name p) ending) eqn:E; [|reflexivity].
  assert (H : In p (FS.glob Examples.session_without_task_folder
                      Examples.session_path ("**/*" ++ ending)))
    by (apply In_glob_spikeglx; [exact He|now split]).
  repeat (destruct He as [<-|He]; [vm_compute in H; destruct H|]). destruct He.
Defined.

Lemma validate_raw_videos_with_folder_witness :
  In "metadata.csv"
    (FS.listdir Examples.complete_session
       (Examples.session_path // "M016_2023_08_15_16_00_cameras")).
Proof.
  refine (proj1 (proj2 (proj2 (proj2 (validate_raw_videos_with_folder
                    Examples.complete_session Examples.session_path "M016" true
                    eq_refl eq_refl) _ eq_refl)))).
Defined.

Lemma pycontrol_file_name_error_witness :
  exists refused,
    validate_raw_behavioral_data_of_session find_whitelisted_files_in_root
      Examples.session_with_misnamed_pca Examples.session_path "M016" [] true
    = ([], Raise (ValueError (FilenameDoesNotMatchPyControl ".pca" refused))).
Proof.
  destruct (pycontrol_file_name_error find_whitelisted_files_in_root
              Examples.session_with_misnamed_pca Examples.session_path "M016" []
              true [] [] _ (Examples.session_path // "notes.pca")
              eq_refl eq_refl eq_refl (or_introl eq_refl) eq_refl
              (or_intror eq_refl))
    as [refused [_ [_ [_ H]]]].
  exists refused. exact H.
Defined.

Lemma validate_raw_behavioral_data_success_witness :
  exists pca_files txt_files task_files : list Path,
    List.length pca_files = 2 /\ List.length txt_files = 1 /\
    List.length task_files = 1 /\
    snd (validate_raw_behavioral_data_of_session find_whitelisted_files_in_root
           Examples.complete_session Examples.session_path "M016"
           ["comment.txt"] true)
    = Ok (pca_files ++ txt_files ++ task_files)%list.
Proof.
  destruct (validate_raw_behavioral_data_success find_whitelisted_files_in_root
              Examples.complete_session Examples.session_path "M016"
              ["comment.txt"] true _ eq_refl)
    as [wl [pca [txt [task [_ [Hfiles [_ [_ [Hp [Ht [_ Htask]]]]]]]]]]].
  exists pca, txt, task. split; [exact Hp|]. split; [exact Ht|].
  destruct Htask as [[Hex _]|[_ [_ Hl]]]; [discriminate Hex|].
  split; [exact Hl|]. rewrite <- Hfiles. reflexivity.
Defined.
